(** * Habit tracker and finance dashboard: derived metrics, page loads and
      mutation handlers, embedded from the TypeScript sources.

    The development follows the layout of the repository:

    - [JsNumber]    : the IEEE-754 binary64 numbers of the JavaScript run time
                      ([/], [*], [+], [-], [Math.round], [Math.floor], [===]);
    - [DateFns]     : [new Date()], [format(d, 'yyyy-MM-dd')], [subDays],
                      [new Date('yyyy-MM-dd')], [toISOString().split('T')[0]];
    - [Schema]      : the tables of [schema.sql] and [types/database.ts];
    - [Supabase]    : the hosted store as the pages use it (row-level security
                      policies, uniqueness and key constraints, ordering);
    - [Js]          : a state-and-exception monad for the [async] handlers;
    - [StatsCards]  : [calculateStats] of [stats-cards.tsx];
    - [HabitTracker]: the dashboard page, the habit list and its dialogs;
    - [Finance]     : the finance dashboard page.

    Definitions come first, the theorems after them. *)

From Stdlib Require Import ZArith List String Ascii Bool Lia SpecFloat.
From stdpp Require Import gmap strings list sorting.

Set Default Proof Using "Type".

(* ===================================================================== *)
(** ** JavaScript numbers *)
(* ===================================================================== *)

(** A JavaScript [number] is an IEEE-754 binary64 value.  The operations are
    those of the standard library's executable specification of binary
    floating point, at precision 53 and maximal exponent 1024. *)
Module JsNumber.
Local Open Scope Z_scope.

Definition Number : Type := spec_float.

Definition prec : Z := 53.
Definition emax : Z := 1024.

(** An integer literal or an integer-valued run-time value ([.length],
    [getTime()]). *)
Definition ofZ (z : Z) : Number := binary_normalize prec emax z 0 false.
Definition ofNat (n : nat) : Number := ofZ (Z.of_nat n).

Definition add : Number -> Number -> Number := SFadd prec emax.
Definition sub : Number -> Number -> Number := SFsub prec emax.
Definition mul : Number -> Number -> Number := SFmul prec emax.
Definition div : Number -> Number -> Number := SFdiv prec emax.

(** [x === y] on numbers: false on NaN, true on [+0 === -0]. *)
Definition strict_eq (x y : Number) : bool := SFeqb x y.

(** [Math.floor(x)]: the greatest integral number not above [x]. *)
Definition Math_floor (x : Number) : Number :=
  match x with
  | S754_finite s m e =>
      if 0 <=? e then x
      else binary_normalize prec emax (cond_Zopp s (Z.pos m) / 2 ^ (- e)) 0 s
  | _ => x
  end.

(** [Math.round(x)]: the integral number closest to [x], ties towards
    +infinity; a result of zero keeps the sign of [x]. *)
Definition Math_round (x : Number) : Number :=
  match x with
  | S754_finite s m e =>
      if 0 <=? e then x
      else
        let d := 2 ^ (- e) in
        binary_normalize prec emax ((2 * cond_Zopp s (Z.pos m) + d) / (2 * d)) 0 s
  | _ => x
  end.

(** The integer a number denotes, when it is finite and integral. *)
Definition intValue (x : Number) : option Z :=
  match x with
  | S754_zero _ => Some 0
  | S754_finite s m e =>
      if 0 <=? e then Some (cond_Zopp s (Z.pos m * 2 ^ e))
      else if Z.pos m mod 2 ^ (- e) =? 0
           then Some (cond_Zopp s (Z.pos m / 2 ^ (- e)))
           else None
  | _ => None
  end.
End JsNumber.

(** Numbers bounded by a dyadic rational [b * 2^eb], and the same bound on a
    mantissa in the course of being rounded. *)
Module Dyadic.
Import JsNumber.
Local Open Scope Z_scope.

(** Some of the bits shifted out of the mantissa were not zero. *)
Definition inexact (mrs : shr_record) : bool := shr_r mrs || shr_s mrs.

(** At exponent [e], the mantissa together with the bits already shifted
    out of it stays below [b * 2^eb]. *)
Definition below (b eb : Z) (mrs : shr_record) (e : Z) : Prop :=
  0 <= shr_m mrs /\ e <= eb /\
  (if inexact mrs then shr_m mrs < b * 2 ^ (eb - e)
   else shr_m mrs <= b * 2 ^ (eb - e)).

(** A number in [[+0, b * 2^eb]]. *)
Definition le_dyadic (b eb : Z) (x : Number) : Prop :=
  match x with
  | S754_zero false => True
  | S754_finite false m e => e <= eb /\ Z.pos m <= b * 2 ^ (eb - e)
  | _ => False
  end.

(** At exponent [e], the mantissa is at least [l * 2^el]. *)
Definition above (l el : Z) (mrs : shr_record) (e : Z) : Prop :=
  e <= el /\ l * 2 ^ (el - e) <= shr_m mrs.

(** A positive number that is at least [l * 2^el]. *)
Definition ge_dyadic (l el : Z) (x : Number) : Prop :=
  match x with
  | S754_finite false m e => e <= el /\ l * 2 ^ (el - e) <= Z.pos m
  | _ => False
  end.
End Dyadic.

(* ===================================================================== *)
(** ** Dates *)
(* ===================================================================== *)

(** The clock and the calendar.  An instant is a count of milliseconds since
    the epoch, as [Date.prototype.getTime] returns it; the local time zone is
    an offset in minutes east of UTC. *)
Module DateFns.
Local Open Scope Z_scope.

Record Clock : Type := mkClock {
  now_ms : Z;          (* [new Date().getTime()] *)
  tz_offset_min : Z    (* minutes east of UTC of the local time zone *)
}.

Definition msPerDay : Z := 1000 * 60 * 60 * 24.

(** Day number (days since 1970-01-01) of the local calendar date. *)
Definition localDay (c : Clock) : Z :=
  (now_ms c + tz_offset_min c * 60000) / msPerDay.

(** Day number of the UTC calendar date. *)
Definition utcDay (c : Clock) : Z := now_ms c / msPerDay.

(** Year, month and day of a day number in the proleptic Gregorian
    calendar. *)
Definition civil_from_days (z : Z) : Z * Z * Z :=
  let z := z + 719468 in
  let era := z / 146097 in
  let doe := z - era * 146097 in
  let yoe := (doe - doe / 1460 + doe / 36524 - doe / 146096) / 365 in
  let y := yoe + era * 400 in
  let doy := doe - (365 * yoe + yoe / 4 - yoe / 100) in
  let mp := (5 * doy + 2) / 153 in
  let d := doy - (153 * mp + 2) / 5 + 1 in
  let m := if mp <? 10 then mp + 3 else mp - 9 in
  (if m <=? 2 then y + 1 else y, m, d).

(** Day number of a year, month and day. *)
Definition days_from_civil (y m d : Z) : Z :=
  let y := if m <=? 2 then y - 1 else y in
  let era := y / 400 in
  let yoe := y - era * 400 in
  let doy := (153 * (if 2 <? m then m - 3 else m + 9) + 2) / 5 + d - 1 in
  let doe := yoe * 365 + yoe / 4 - yoe / 100 + doy in
  era * 146097 + doe - 719468.

Definition digit (n : Z) : ascii := ascii_of_nat (48 + Z.to_nat (n mod 10)).

Definition pad2 (n : Z) : string :=
  String (digit (n / 10)) (String (digit n) EmptyString).

Definition pad4 (n : Z) : string :=
  String (digit (n / 1000)) (String (digit (n / 100)) (pad2 n)).

(** ['yyyy-MM-dd'] of a day number (years 0000 to 9999). *)
Definition format_day (day : Z) : string :=
  let '(y, m, d) := civil_from_days day in
  (pad4 y ++ "-" ++ pad2 m ++ "-" ++ pad2 d)%string.

(** [format(subDays(new Date(), i), 'yyyy-MM-dd')]: [subDays] moves the
    local calendar date back by [i] days and [format] prints the local
    date. *)
Definition format_subDays (c : Clock) (i : nat) : string :=
  format_day (localDay c - Z.of_nat i).

(** [format(new Date(), 'yyyy-MM-dd')]. *)
Definition format_today (c : Clock) : string := format_day (localDay c).

(** [new Date().toISOString().split('T')[0]]: the UTC calendar date. *)
Definition isoDate (c : Clock) : string := format_day (utcDay c).

Definition digit_value (a : ascii) : option Z :=
  let n := Z.of_nat (nat_of_ascii a) in
  if (48 <=? n) && (n <=? 57) then Some (n - 48) else None.

Fixpoint digits_value (acc : Z) (s : list ascii) : option Z :=
  match s with
  | [] => Some acc
  | a :: r =>
      match digit_value a with
      | Some v => digits_value (acc * 10 + v) r
      | None => None
      end
  end.

(** [new Date(s).getTime()] for a date-only string ['yyyy-MM-dd'], as a
    DATE column is rendered: midnight UTC of that day, in milliseconds.
    [None] stands for the invalid date, whose time value is NaN. *)
Definition parse_date (s : string) : option Z :=
  match list_ascii_of_string s with
  | [y1; y2; y3; y4; "-"%char; m1; m2; "-"%char; d1; d2] =>
      match digits_value 0 [y1; y2; y3; y4],
            digits_value 0 [m1; m2], digits_value 0 [d1; d2] with
      | Some y, Some m, Some d =>
          if (1 <=? m) && (m <=? 12) && (1 <=? d) && (d <=? 31)
          then Some (days_from_civil y m d * msPerDay)
          else None
      | _, _, _ => None
      end
  | _ => None
  end.
End DateFns.

(* ===================================================================== *)
(** ** The persisted schema *)
(* ===================================================================== *)

(** Rows of the tables of [schema.sql] (habit tracker) and of the SQL in
    [types/database.ts] (finance dashboard).  UUIDs and TEXT are strings, a
    DATE is its ['yyyy-MM-dd'] rendering, a TIMESTAMP is a count of
    milliseconds, DECIMAL amounts are the numbers the client receives. *)
Module Schema.
Import JsNumber.

Record Profile : Type := mkProfile {
  profile_id : string;
  full_name : option string
}.

Record Category : Type := mkCategory {
  cat_id : string;
  cat_name : string;
  cat_icon : string;
  cat_color : string
}.

Record HabitRow : Type := mkHabitRow {
  habit_id : string;
  habit_user_id : string;
  habit_name : string;
  habit_description : option string;
  habit_category : string;
  habit_color : string;
  habit_icon : string;
  habit_frequency : string;
  habit_target_count : Z;
  habit_is_archived : bool;
  habit_created_at : Z;
  habit_updated_at : Z
}.

Record HabitLog : Type := mkHabitLog {
  log_id : string;
  log_habit_id : string;
  log_user_id : string;
  log_date : string;
  log_completed : bool;
  log_notes : option string;
  log_created_at : Z
}.

(** A habit as the dashboard selects it, every column with the rows of
    [habit_logs] that reference it nested under [habit_logs]. *)
Record Habit : Type := mkHabit {
  habit_row : HabitRow;
  habit_logs : list HabitLog
}.

Inductive TxType : Type := income | expense.

Record Transaction : Type := mkTransaction {
  tx_id : string;
  tx_user_id : string;
  tx_amount : Number;
  tx_description : string;
  tx_category : string;
  tx_type : TxType;
  tx_date : string;
  tx_created_at : Z
}.

Definition TxType_eqb (a b : TxType) : bool :=
  match a, b with
  | income, income | expense, expense => true
  | _, _ => false
  end.
End Schema.

(* ===================================================================== *)
(** ** The hosted store *)
(* ===================================================================== *)

(** The requests the pages send, with the behaviour [schema.sql] declares:
    row-level security policies keyed on [auth.uid()], primary keys, the
    uniqueness constraint of [habit_logs], foreign keys and the CHECK on
    [frequency].  Every request answers with data or with an error message
    and never throws. *)
Module Supabase.
Import Schema.
Local Open Scope Z_scope.

Inductive Result (A : Type) : Type :=
| Data (a : A)
| Error (message : string).
Arguments Data {A} a.
Arguments Error {A} message.

Record Backend : Type := mkBackend {
  session : option string;          (* [auth.uid()] of the client's session *)
  db_profiles : list Profile;
  db_habits : list HabitRow;
  db_habit_logs : list HabitLog;
  db_habit_categories : list Category;
  db_transactions : list Transaction;
  faults : list (option string)     (* transport outcome of the coming requests *)
}.

Definition set_session (u : option string) (b : Backend) : Backend :=
  mkBackend u (db_profiles b) (db_habits b) (db_habit_logs b)
            (db_habit_categories b) (db_transactions b) (faults b).
Definition set_faults (f : list (option string)) (b : Backend) : Backend :=
  mkBackend (session b) (db_profiles b) (db_habits b) (db_habit_logs b)
            (db_habit_categories b) (db_transactions b) f.
Definition set_habits (h : list HabitRow) (b : Backend) : Backend :=
  mkBackend (session b) (db_profiles b) h (db_habit_logs b)
            (db_habit_categories b) (db_transactions b) (faults b).
Definition set_habit_logs (l : list HabitLog) (b : Backend) : Backend :=
  mkBackend (session b) (db_profiles b) (db_habits b) l
            (db_habit_categories b) (db_transactions b) (faults b).
Definition set_transactions (t : list Transaction) (b : Backend) : Backend :=
  mkBackend (session b) (db_profiles b) (db_habits b) (db_habit_logs b)
            (db_habit_categories b) t (faults b).

(** A request first meets the transport: a scheduled fault answers with its
    message and leaves the tables alone. *)
Definition request {A : Type} (run : Backend -> Result A * Backend)
    (b : Backend) : Result A * Backend :=
  match faults b with
  | Some msg :: rest => (Error msg, set_faults rest b)
  | None :: rest => run (set_faults rest b)
  | [] => run b
  end.

(** [supabase.auth.getUser()]: the id of the signed-in user, [None] for
    [user: null] (no session, or the request failed). *)
Definition getUser (b : Backend) : option string * Backend :=
  match request (fun b' => (Data (session b'), b')) b with
  | (Data u, b') => (u, b')
  | (Error _, b') => (None, b')
  end.

(** [supabase.auth.signOut()] ends the session. *)
Definition signOut : Backend -> Result unit * Backend :=
  request (fun b => (Data tt, set_session None b)).

(** [auth.uid() = owner], the condition of every user-scoped policy. *)
Definition is_uid (b : Backend) (owner : string) : bool :=
  match session b with
  | Some u => String.eqb u owner
  | None => false
  end.

(** Postgres puts the names of tables and constraints in double quotes. *)
Definition quoted (name : string) : string :=
  (String "034" name ++ String "034" EmptyString)%string.

Definition rls_violation (table : string) : string :=
  ("new row violates row-level security policy for table " ++ quoted table)%string.

Definition pkey_violation (table : string) : string :=
  ("duplicate key value violates unique constraint "
     ++ quoted (table ++ "_pkey"))%string.

Definition unique_violation : string :=
  ("duplicate key value violates unique constraint "
     ++ quoted "habit_logs_habit_id_user_id_date_key")%string.

Definition fkey_violation (table column : string) : string :=
  ("insert or update on table " ++ quoted table
     ++ " violates foreign key constraint "
     ++ quoted (table ++ "_" ++ column ++ "_fkey"))%string.

Definition check_violation (table column : string) : string :=
  ("new row for relation " ++ quoted table
     ++ " violates check constraint "
     ++ quoted (table ++ "_" ++ column ++ "_check"))%string.

Definition has_profile (b : Backend) (uid : string) : bool :=
  existsb (fun p => String.eqb (profile_id p) uid) (db_profiles b).

(** ORDER BY created_at DESC and ORDER BY date DESC (stable). *)
Definition newer_habit (x y : HabitRow) : Prop :=
  habit_created_at y <= habit_created_at x.
Definition later_log (x y : HabitLog) : Prop :=
  Is_true (String.leb (log_date y) (log_date x)).
Definition later_tx (x y : Transaction) : Prop :=
  Is_true (String.leb (tx_date y) (tx_date x)).
Definition name_order (x y : Category) : Prop :=
  Is_true (String.leb (cat_name x) (cat_name y)).

Global Instance newer_habit_dec x y : Decision (newer_habit x y).
Proof. unfold newer_habit. apply _. Defined.
Global Instance later_log_dec x y : Decision (later_log x y).
Proof. unfold later_log. apply _. Defined.
Global Instance later_tx_dec x y : Decision (later_tx x y).
Proof. unfold later_tx. apply _. Defined.
Global Instance name_order_dec x y : Decision (name_order x y).
Proof. unfold name_order. apply _. Defined.

(** The logs nested under a habit by the embedded [habit_logs] selection:
    those that reference it and that the caller may read. *)
Definition nested_logs (b : Backend) (h : HabitRow) : list HabitLog :=
  List.filter (fun l => String.eqb (log_habit_id l) (habit_id h)
                        && is_uid b (log_user_id l)) (db_habit_logs b).

(** [from('habits').select(all columns, nested habit_logs).eq('user_id', uid)
      .eq('is_archived', false).order('created_at', { ascending: false })] *)
Definition select_active_habits (uid : string) : Backend -> Result (list Habit) * Backend :=
  request (fun b =>
    (Data (map (fun h => mkHabit h (nested_logs b h))
             (merge_sort newer_habit
                (List.filter (fun h => is_uid b (habit_user_id h)
                                       && String.eqb (habit_user_id h) uid
                                       && negb (habit_is_archived h))
                             (db_habits b)))), b)).

(** [from('habit_logs').select(all columns).eq('user_id', uid).eq('date', today)] *)
Definition select_logs_on (uid date : string) : Backend -> Result (list HabitLog) * Backend :=
  request (fun b =>
    (Data (List.filter (fun l => is_uid b (log_user_id l)
                                 && String.eqb (log_user_id l) uid
                                 && String.eqb (log_date l) date)
                       (db_habit_logs b)), b)).

(** [from('habit_logs').select('date, completed').eq('habit_id', id)
      .eq('completed', true).order('date', { ascending: false })] *)
Definition select_completed_logs (hid : string) : Backend -> Result (list HabitLog) * Backend :=
  request (fun b =>
    (Data (merge_sort later_log
             (List.filter (fun l => is_uid b (log_user_id l)
                                    && String.eqb (log_habit_id l) hid
                                    && log_completed l)
                          (db_habit_logs b))), b)).

(** [from('habit_logs').insert([{ habit_id, user_id, date, completed }])];
    [id] and [created_at] are the server's [gen_random_uuid()] and
    [NOW()]. *)
Definition insert_log (id : string) (created_at : Z)
    (hid uid date : string) (completed : bool) : Backend -> Result unit * Backend :=
  request (fun b =>
    if negb (is_uid b uid) then (Error (rls_violation "habit_logs"), b)
    else if existsb (fun l => String.eqb (log_id l) id) (db_habit_logs b)
    then (Error (pkey_violation "habit_logs"), b)
    else if existsb (fun l => String.eqb (log_habit_id l) hid
                              && String.eqb (log_user_id l) uid
                              && String.eqb (log_date l) date) (db_habit_logs b)
    then (Error unique_violation, b)
    else if negb (existsb (fun h => String.eqb (habit_id h) hid) (db_habits b))
    then (Error (fkey_violation "habit_logs" "habit_id"), b)
    else if negb (has_profile b uid)
    then (Error (fkey_violation "habit_logs" "user_id"), b)
    else (Data tt,
          set_habit_logs
            (db_habit_logs b ++ [mkHabitLog id hid uid date completed None created_at]) b)).

(** [from('habit_logs').delete().eq('habit_id', hid).eq('user_id', uid)
      .eq('date', date)] *)
Definition delete_log (hid uid date : string) : Backend -> Result unit * Backend :=
  request (fun b =>
    (Data tt,
     set_habit_logs
       (List.filter (fun l => negb (is_uid b (log_user_id l)
                                    && String.eqb (log_habit_id l) hid
                                    && String.eqb (log_user_id l) uid
                                    && String.eqb (log_date l) date))
                    (db_habit_logs b)) b)).

Definition archived (h : HabitRow) : HabitRow :=
  mkHabitRow (habit_id h) (habit_user_id h) (habit_name h) (habit_description h)
             (habit_category h) (habit_color h) (habit_icon h) (habit_frequency h)
             (habit_target_count h) true (habit_created_at h) (habit_updated_at h).

(** [from('habits').update({ is_archived: true }).eq('id', hid)] *)
Definition archive_habit (hid : string) : Backend -> Result unit * Backend :=
  request (fun b =>
    (Data tt,
     set_habits
       (map (fun h => if is_uid b (habit_user_id h) && String.eqb (habit_id h) hid
                      then archived h else h)
            (db_habits b)) b)).

Definition frequency_ok (f : string) : bool :=
  String.eqb f "daily" || String.eqb f "weekly" || String.eqb f "custom".

(** [from('habits').insert([{ user_id, name, description, category, color,
      icon, frequency, target_count }])] *)
Definition insert_habit (id : string) (created_at : Z)
    (uid name : string) (description : option string)
    (category color icon frequency : string) (target_count : Z)
    : Backend -> Result unit * Backend :=
  request (fun b =>
    if negb (is_uid b uid) then (Error (rls_violation "habits"), b)
    else if negb (frequency_ok frequency)
    then (Error (check_violation "habits" "frequency"), b)
    else if existsb (fun h => String.eqb (habit_id h) id) (db_habits b)
    then (Error (pkey_violation "habits"), b)
    else if negb (has_profile b uid)
    then (Error (fkey_violation "habits" "user_id"), b)
    else (Data tt,
          set_habits
            (db_habits b ++ [mkHabitRow id uid name description category color icon
                                     frequency target_count false
                                     created_at created_at]) b)).

Definition edited (name : string) (description : option string)
    (category color icon frequency : string) (target_count : Z) (h : HabitRow) : HabitRow :=
  mkHabitRow (habit_id h) (habit_user_id h) name description category color icon
             frequency target_count (habit_is_archived h)
             (habit_created_at h) (habit_updated_at h).

(** [from('habits').update({ name, description, category, color, icon,
      frequency, target_count }).eq('id', hid)] *)
Definition update_habit (hid name : string) (description : option string)
    (category color icon frequency : string) (target_count : Z)
    : Backend -> Result unit * Backend :=
  request (fun b =>
    if existsb (fun h => is_uid b (habit_user_id h) && String.eqb (habit_id h) hid)
               (db_habits b) && negb (frequency_ok frequency)
    then (Error (check_violation "habits" "frequency"), b)
    else (Data tt,
          set_habits
            (map (fun h => if is_uid b (habit_user_id h) && String.eqb (habit_id h) hid
                           then edited name description category color icon
                                       frequency target_count h
                           else h)
                 (db_habits b)) b)).

(** [from('habit_categories').select(all columns).order('name')]; the policy on
    categories lets everyone read. *)
Definition select_categories : Backend -> Result (list Category) * Backend :=
  request (fun b => (Data (merge_sort name_order (db_habit_categories b)), b)).

(** [from('transactions').select(all columns).eq('user_id', uid)
      .order('date', { ascending: false })] *)
Definition select_transactions (uid : string)
    : Backend -> Result (list Transaction) * Backend :=
  request (fun b =>
    (Data (merge_sort later_tx
             (List.filter (fun t => is_uid b (tx_user_id t)
                                    && String.eqb (tx_user_id t) uid)
                          (db_transactions b))), b)).

(** [from('transactions').insert({ user_id, amount, description, category,
      type, date })].  [to_decimal] is the server's conversion of the JSON
    number to DECIMAL(10,2), [None] when it refuses the value (a NaN
    arrives as null in a NOT NULL column; ten digits overflow). *)
Definition insert_transaction (to_decimal : JsNumber.Number -> option JsNumber.Number)
    (id : string) (created_at : Z) (uid : string) (amount : JsNumber.Number)
    (description category : string) (type : TxType) (date : string)
    : Backend -> Result unit * Backend :=
  request (fun b =>
    if negb (is_uid b uid) then (Error (rls_violation "transactions"), b)
    else
      match to_decimal amount with
      | None => (Error "invalid input for column amount of relation transactions", b)
      | Some stored =>
          if existsb (fun t => String.eqb (tx_id t) id) (db_transactions b)
          then (Error (pkey_violation "transactions"), b)
          else if negb (has_profile b uid)
          then (Error (fkey_violation "transactions" "user_id"), b)
          else (Data tt,
                set_transactions
                  (db_transactions b
                     ++ [mkTransaction id uid stored description category type date
                                       created_at]) b)
      end).

(** [from('transactions').delete().eq('id', id)] *)
Definition delete_transaction (id : string) : Backend -> Result unit * Backend :=
  request (fun b =>
    (Data tt,
     set_transactions
       (List.filter (fun t => negb (is_uid b (tx_user_id t) && String.eqb (tx_id t) id))
                    (db_transactions b)) b)).
End Supabase.

(* ===================================================================== *)
(** ** Handlers: state, exceptions and what the user sees *)
(* ===================================================================== *)

(** An [async] handler runs against a world: the store, the state of the
    React components, and the trace of what it did that is visible from
    outside (requests in the order they were sent, navigation, toasts,
    console output).  A handler completes normally or by a thrown error, of
    which the pages only ever read [message]. *)
Module Js.
Import Supabase.

Inductive Event : Type :=
| AuthGetUser                                 (* [supabase.auth.getUser()] *)
| AuthSignOut                                 (* [supabase.auth.signOut()] *)
| AuthSignIn                                  (* [supabase.auth.signInWithPassword(..)] *)
| AuthSignUp                                  (* [supabase.auth.signUp(..)] *)
| DataRequest (table : string) (verb : string) (* [supabase.from(table).verb(..)] *)
| RouterPush (path : string)                   (* [router.push(path)] *)
| ToastSuccess (message : string)              (* [toast.success(message)] *)
| ToastError (message : string)                (* [toast.error(message)] *)
| ConsoleError (message : string).             (* [console.error(message, ..)] *)

Record World (S : Type) : Type := mkWorld {
  backend : Backend;
  ui : S;
  trace : list Event
}.
Arguments mkWorld {S} backend ui trace.
Arguments backend {S} w.
Arguments ui {S} w.
Arguments trace {S} w.

Inductive Completion (A : Type) : Type :=
| Normal (a : A)
| Throw (message : string).
Arguments Normal {A} a.
Arguments Throw {A} message.

Definition M (S A : Type) : Type := World S -> Completion A * World S.

Definition ret {S A} (a : A) : M S A := fun w => (Normal a, w).

Definition bind {S A B} (m : M S A) (k : A -> M S B) : M S B :=
  fun w =>
    match m w with
    | (Normal a, w') => k a w'
    | (Throw e, w') => (Throw e, w')
    end.

(** [throw error] *)
Definition throw {S A} (message : string) : M S A := fun w => (Throw message, w).

(** [try { body } catch (error) { handler(error.message) }] *)
Definition try_catch {S A} (body : M S A) (handler : string -> M S A) : M S A :=
  fun w =>
    match body w with
    | (Normal a, w') => (Normal a, w')
    | (Throw e, w') => handler e w'
    end.

(** [try { body } finally { fin }] *)
Definition try_finally {S A} (body : M S A) (fin : M S unit) : M S A :=
  fun w =>
    match body w with
    | (c, w') =>
        match fin w' with
        | (Normal _, w'') => (c, w'')
        | (Throw e, w'') => (Throw e, w'')
        end
    end.

(** A call of an [async] function that is not awaited: it runs, and the
    caller never sees how it completed. *)
Definition spawn {S} (m : M S unit) : M S unit :=
  fun w => (Normal tt, snd (m w)).

Definition emit {S} (e : Event) : M S unit :=
  fun w => (Normal tt, mkWorld (backend w) (ui w) (trace w ++ [e])).

Definition getState {S} : M S S := fun w => (Normal (ui w), w).

(** A state setter, [setX(v)] or [setX(prev => ..)]. *)
Definition modify {S} (f : S -> S) : M S unit :=
  fun w => (Normal tt, mkWorld (backend w) (f (ui w)) (trace w)).

(** [await] of one request to the store, recorded in the trace. *)
Definition await {S A} (e : Event) (req : Backend -> A * Backend) : M S A :=
  fun w =>
    let '(a, b') := req (backend w) in
    (Normal a, mkWorld b' (ui w) (trace w ++ [e])).

Definition routerPush {S} (path : string) : M S unit := emit (RouterPush path).
Definition toastSuccess {S} (m : string) : M S unit := emit (ToastSuccess m).
Definition toastError {S} (m : string) : M S unit := emit (ToastError m).
Definition consoleError {S} (m : string) : M S unit := emit (ConsoleError m).

(** [for (const x of xs) { acc = await body(acc, x) }] *)
Fixpoint forOf {S A B} (xs : list A) (acc : B) (body : B -> A -> M S B) : M S B :=
  match xs with
  | [] => ret acc
  | x :: rest => bind (body acc x) (fun acc' => forOf rest acc' body)
  end.

(** Running a handler from a world. *)
Definition exec {S A} (m : M S A) (w : World S) : World S := snd (m w).

(** Unfolding the plumbing of the handler monad in a goal. *)
Ltac run :=
  cbv [exec bind ret throw try_catch try_finally spawn emit getState modify await
       routerPush toastSuccess toastError consoleError];
  cbn [backend ui trace fst snd].

Module Notations.
Declare Scope js_scope.
Delimit Scope js_scope with js.
Notation "x <- m ;; k" := (bind m (fun x => k))
  (at level 100, m at next level, k at level 200, right associativity) : js_scope.
Notation "m ;; k" := (bind m (fun _ => k))
  (at level 100, k at level 200, right associativity) : js_scope.
End Notations.
End Js.

(* ===================================================================== *)
(** ** stats-cards.tsx *)
(* ===================================================================== *)

Module StatsCards.
Import JsNumber DateFns Schema.

Record Stats : Type := mkStats {
  totalHabits : nat;
  completedToday : nat;
  currentStreak : nat;
  weeklyCompletion : Number
}.

(** The initial value of [useState]. *)
Definition initialStats : Stats := mkStats 0 0 0 (ofZ 0).

(** [habit.habit_logs.some(log => log.date === date && log.completed)] *)
Definition completedOn (date : string) (habit : Habit) : bool :=
  existsb (fun log => String.eqb (log_date log) date && log_completed log)
          (habit_logs habit).

(** The streak loop, [for (let i = 0; i < 30; i++)], entered at [i] with
    [left = 30 - i] iterations to go; it leaves by [break] on the first
    day without a completion. *)
Fixpoint streakLoop (c : Clock) (habits : list Habit)
    (left i : nat) (streakDays : list string) : list string :=
  match left with
  | O => streakDays
  | S left' =>
      let date := format_subDays c i in
      let completed := existsb (completedOn date) habits in
      if completed
      then streakLoop c habits left' (S i) (date :: streakDays)  (* unshift *)
      else streakDays                                            (* break *)
  end.

(** The weekly loop, [for (let i = 0; i < 7; i++)], carrying
    [(totalPossible, totalCompleted)]. *)
Fixpoint weekLoop (c : Clock) (habits : list Habit)
    (left i : nat) (totalPossible totalCompleted : nat) : nat * nat :=
  match left with
  | O => (totalPossible, totalCompleted)
  | S left' =>
      let date := format_subDays c i in
      let dayHabits := length (List.filter (completedOn date) habits) in
      weekLoop c habits left' (S i)
               (totalPossible + length habits) (totalCompleted + dayHabits)
  end.

(** [calculateStats], as a function of the clock and of the [habits] prop.
    Lengths and the two running totals are integers far below 2^53, where
    number addition is exact; they become numbers where the code divides. *)
Definition calculateStats (c : Clock) (habits : list Habit) : Stats :=
  let today := format_today c in
  let totalHabits := length habits in
  let completedToday := length (List.filter (completedOn today) habits) in
  let streakDays := streakLoop c habits 30 0 [] in
  let currentStreak := length streakDays in
  let '(totalPossible, totalCompleted) := weekLoop c habits 7 0 0%nat 0%nat in
  let weeklyCompletion :=
    if (0 <? totalPossible)%nat
    then Math_round (mul (div (ofNat totalCompleted) (ofNat totalPossible)) (ofZ 100))
    else ofZ 0 in
  mkStats totalHabits completedToday currentStreak weeklyCompletion.
End StatsCards.

(* ===================================================================== *)
(** ** The habit tracker: dashboard page, habit list, dialogs *)
(* ===================================================================== *)

Module HabitTracker.
Import JsNumber DateFns Schema Supabase Js StatsCards.
Import Js.Notations.
Local Open Scope js_scope.

(** What one run of a handler takes from outside: the reading of the
    clock during the run, the [gen_random_uuid()] the server draws if the
    handler inserts a row, and the reading of the clock at the render
    whose closure the handler is.  A handler of [HabitList] sees the
    constants of that render, [today] among them, however much later it
    runs. *)
Record Env : Type := mkEnv {
  clock : Clock;
  uuid : string;
  rendered : Clock
}.

Record FormData : Type := mkFormData {
  form_name : string;
  form_description : string;
  form_category : string;
  form_frequency : string;
  form_target_count : Z
}.

(** [DashboardPage] *)
Record PageState : Type := mkPage {
  habits : list Habit;
  loading : bool;
  showCreateDialog : bool
}.

(** [HabitList] *)
Record ListState : Type := mkList {
  todayLogs : gmap string bool;
  streaks : gmap string nat;
  editingHabit : option string;
  deletingHabit : option string
}.

(** [CreateHabitDialog] and [EditHabitDialog] *)
Record FormDialogState : Type := mkFormDialog {
  categories : list Category;
  submitting : bool;          (* the dialog's own [loading] *)
  formData : FormData
}.

(** The state of the component tree under [DashboardPage]. *)
Record App : Type := mkApp {
  page : PageState;
  stats : Stats;
  hlist : ListState;
  archiving : bool;           (* [loading] of [DeleteHabitDialog] *)
  createDlg : FormDialogState;
  editDlg : FormDialogState
}.

Definition emptyForm : FormData := mkFormData "" "" "" "daily" 1.

Definition initialApp : App :=
  mkApp (mkPage [] true false) initialStats (mkList ∅ ∅ None None) false
        (mkFormDialog [] false emptyForm) (mkFormDialog [] false emptyForm).

Definition with_page (f : PageState -> PageState) (a : App) : App :=
  mkApp (f (page a)) (stats a) (hlist a) (archiving a) (createDlg a) (editDlg a).
Definition with_stats (v : Stats) (a : App) : App :=
  mkApp (page a) v (hlist a) (archiving a) (createDlg a) (editDlg a).
Definition with_hlist (f : ListState -> ListState) (a : App) : App :=
  mkApp (page a) (stats a) (f (hlist a)) (archiving a) (createDlg a) (editDlg a).
Definition with_archiving (v : bool) (a : App) : App :=
  mkApp (page a) (stats a) (hlist a) v (createDlg a) (editDlg a).
Definition with_createDlg (f : FormDialogState -> FormDialogState) (a : App) : App :=
  mkApp (page a) (stats a) (hlist a) (archiving a) (f (createDlg a)) (editDlg a).
Definition with_editDlg (f : FormDialogState -> FormDialogState) (a : App) : App :=
  mkApp (page a) (stats a) (hlist a) (archiving a) (createDlg a) (f (editDlg a)).

Definition setHabits (v : list Habit) : M App unit :=
  modify (with_page (fun p => mkPage v (loading p) (showCreateDialog p))).
Definition setLoading (v : bool) : M App unit :=
  modify (with_page (fun p => mkPage (habits p) v (showCreateDialog p))).
Definition setShowCreateDialog (v : bool) : M App unit :=
  modify (with_page (fun p => mkPage (habits p) (loading p) v)).
Definition setStats (v : Stats) : M App unit := modify (with_stats v).
Definition setTodayLogs (f : gmap string bool -> gmap string bool) : M App unit :=
  modify (with_hlist (fun l =>
    mkList (f (todayLogs l)) (streaks l) (editingHabit l) (deletingHabit l))).
Definition setStreaks (v : gmap string nat) : M App unit :=
  modify (with_hlist (fun l =>
    mkList (todayLogs l) v (editingHabit l) (deletingHabit l))).
Definition setEditingHabit (v : option string) : M App unit :=
  modify (with_hlist (fun l =>
    mkList (todayLogs l) (streaks l) v (deletingHabit l))).
Definition setDeletingHabit (v : option string) : M App unit :=
  modify (with_hlist (fun l =>
    mkList (todayLogs l) (streaks l) (editingHabit l) v)).
Definition setArchiving (v : bool) : M App unit := modify (with_archiving v).

Definition setCategories (v : list Category) (d : FormDialogState) : FormDialogState :=
  mkFormDialog v (submitting d) (formData d).
Definition setSubmitting (v : bool) (d : FormDialogState) : FormDialogState :=
  mkFormDialog (categories d) v (formData d).
Definition setFormData (v : FormData) (d : FormDialogState) : FormDialogState :=
  mkFormDialog (categories d) (submitting d) v.

(* ------------------------------------------------------------------- *)
(** *** app/dashboard/page.tsx *)

(** [fetchHabits] *)
Definition fetchHabits : M App unit :=
  try_finally
    (try_catch
       (user <- await AuthGetUser getUser ;;
        match user with
        | None => routerPush "/login"
        | Some uid =>
            r <- await (DataRequest "habits" "select") (select_active_habits uid) ;;
            match r with
            | Error message => throw message
            | Data data => setHabits data
            end
        end)
       (fun _ =>
          toastError "Failed to load habits" ;;
          consoleError "Error fetching habits:"))
    (setLoading false).

(** [handleSignOut] *)
Definition handleSignOut : M App unit :=
  try_catch
    (_ <- await AuthSignOut signOut ;;
     routerPush "/login")
    (fun _ => toastError "Failed to sign out").

(* ------------------------------------------------------------------- *)
(** *** components/stats-cards.tsx, the effect on [habits] *)

Definition StatsCards_effect (env : Env) : M App unit :=
  app <- getState ;;
  setStats (calculateStats (clock env) (habits (page app))).

(* ------------------------------------------------------------------- *)
(** *** components/habit-list.tsx *)

(** [const today = format(new Date(), 'yyyy-MM-dd')], in the body of the
    component: computed when [HabitList] renders, and read from the
    closure by [fetchTodayLogs] and [toggleHabit]. *)
Definition today (env : Env) : string := format_today (rendered env).

(** [fetchTodayLogs] *)
Definition fetchTodayLogs (env : Env) : M App unit :=
  try_catch
    (user <- await AuthGetUser getUser ;;
     match user with
     | None => ret tt
     | Some uid =>
         r <- await (DataRequest "habit_logs" "select") (select_logs_on uid (today env)) ;;
         let logsMap :=
           match r with
           | Data data =>
               fold_left (fun m log => <[log_habit_id log := log_completed log]> m)
                         data (∅ : gmap string bool)
           | Error _ => ∅
           end in
         setTodayLogs (fun _ => logsMap)
     end)
    (fun _ => consoleError "Error fetching today logs:").

(** [new Date(log.date).getTime()]; NaN on an invalid date. *)
Definition getTime (date : string) : Number :=
  match parse_date date with
  | Some t => ofZ t
  | None => S754_nan
  end.

(** [Math.floor((currentDate.getTime() - logDate.getTime())
                / (1000 * 60 * 60 * 24))] *)
Definition diffDays (currentDate : Clock) (log : HabitLog) : Number :=
  Math_floor (div (sub (ofZ (now_ms currentDate)) (getTime (log_date log)))
                  (ofZ msPerDay)).

(** The loop of [calculateStreaks] over the logs of one habit, entered
    with the running [streak]. *)
Fixpoint streakOver (currentDate : Clock) (logs : list HabitLog) (streak : nat) : nat :=
  match logs with
  | [] => streak
  | log :: rest =>
      if strict_eq (diffDays currentDate log) (ofNat streak)
      then streakOver currentDate rest (S streak)   (* streak++ *)
      else streak                                   (* break *)
  end.

(** [calculateStreaks] *)
Definition calculateStreaks (env : Env) : M App unit :=
  try_catch
    (user <- await AuthGetUser getUser ;;
     match user with
     | None => ret tt
     | Some _ =>
         app <- getState ;;
         streaksMap <-
           forOf (habits (page app)) (∅ : gmap string nat)
             (fun streaksMap habit =>
                r <- await (DataRequest "habit_logs" "select")
                       (select_completed_logs (habit_id (habit_row habit))) ;;
                let streak :=
                  match r with
                  | Data logs => streakOver (clock env) logs 0
                  | Error _ => 0%nat
                  end in
                ret (<[habit_id (habit_row habit) := streak]> streaksMap)) ;;
         setStreaks streaksMap
     end)
    (fun _ => consoleError "Error calculating streaks:").

(** [todayLogs[habitId]] read as a condition: a missing key is
    [undefined], which is falsy. *)
Definition isCompleted (app : App) (habitId : string) : bool :=
  default false (todayLogs (hlist app) !! habitId).

(** [toggleHabit]; [onUpdate] is the prop of that name.  The date of the
    delete and of the insert is [today] of the closure, not a new reading
    of the clock; [calculateStreaks] takes its own [new Date()] when it
    runs. *)
Definition toggleHabit (env : Env) (onUpdate : M App unit) (habitId : string)
    : M App unit :=
  try_catch
    (user <- await AuthGetUser getUser ;;
     match user with
     | None => ret tt
     | Some uid =>
         app <- getState ;;
         (if isCompleted app habitId
          then
            r <- await (DataRequest "habit_logs" "delete")
                   (delete_log habitId uid (today env)) ;;
            match r with
            | Error message => throw message
            | Data _ =>
                setTodayLogs (fun prev => <[habitId := false]> prev) ;;
                toastSuccess "Habit unchecked for today"
            end
          else
            r <- await (DataRequest "habit_logs" "insert")
                   (insert_log (uuid env) (now_ms (clock env))
                               habitId uid (today env) true) ;;
            match r with
            | Error message => throw message
            | Data _ =>
                setTodayLogs (fun prev => <[habitId := true]> prev) ;;
                toastSuccess "Great job! Habit completed!"
            end) ;;
         spawn (calculateStreaks env) ;;
         spawn onUpdate
     end)
    (fun message => toastError message).

(** The effect on [habits]: [if (habits.length > 0) { fetchTodayLogs();
    calculateStreaks() }]. *)
Definition HabitList_effect (env : Env) : M App unit :=
  app <- getState ;;
  if (0 <? length (habits (page app)))%nat
  then spawn (fetchTodayLogs env) ;; spawn (calculateStreaks env)
  else ret tt.

(* ------------------------------------------------------------------- *)
(** *** components/delete-habit-dialog.tsx *)

(** [handleDelete] of the dialog opened for the habit [habitId], with its
    props [onOpenChange] and [onSuccess]. *)
Definition handleDelete (habitId : string)
    (onOpenChange : bool -> M App unit) (onSuccess : M App unit) : M App unit :=
  setArchiving true ;;
  try_finally
    (try_catch
       (r <- await (DataRequest "habits" "update") (archive_habit habitId) ;;
        match r with
        | Error message => throw message
        | Data _ =>
            toastSuccess "Habit archived successfully" ;;
            onSuccess ;;
            onOpenChange false
        end)
       (fun message => toastError message))
    (setArchiving false).

(** The props [HabitList] passes to the delete dialog:
    [onOpenChange={(open) => !open && setDeletingHabit(null)}] and
    [onSuccess={() => { setDeletingHabit(null); onUpdate() }}]. *)
Definition deleteDialog_onOpenChange (open : bool) : M App unit :=
  if negb open then setDeletingHabit None else ret tt.
Definition deleteDialog_onSuccess (onUpdate : M App unit) : M App unit :=
  setDeletingHabit None ;; spawn onUpdate.

(** The same for the edit dialog. *)
Definition editDialog_onOpenChange (open : bool) : M App unit :=
  if negb open then setEditingHabit None else ret tt.
Definition editDialog_onSuccess (onUpdate : M App unit) : M App unit :=
  setEditingHabit None ;; spawn onUpdate.

(* ------------------------------------------------------------------- *)
(** *** components/create-habit-dialog.tsx, edit-habit-dialog.tsx *)

(** [fetchCategories], in either dialog; [set] stores into the dialog's
    own [categories]. *)
Definition fetchCategories (set : list Category -> M App unit) : M App unit :=
  try_catch
    (r <- await (DataRequest "habit_categories" "select") select_categories ;;
     match r with
     | Error message => throw message
     | Data data => set data
     end)
    (fun _ => toastError "Failed to load categories").

(** [handleSubmit] of [CreateHabitDialog]. *)
Definition createHabit_handleSubmit (env : Env)
    (onOpenChange : bool -> M App unit) (onSuccess : M App unit) : M App unit :=
  modify (with_createDlg (setSubmitting true)) ;;
  try_finally
    (try_catch
       (user <- await AuthGetUser getUser ;;
        match user with
        | None => toastError "You must be logged in"
        | Some uid =>
            app <- getState ;;
            let form := formData (createDlg app) in
            match List.find (fun c => String.eqb (cat_name c) (form_category form))
                            (categories (createDlg app)) with
            | None => toastError "Please select a category"
            | Some selectedCategory =>
                r <- await (DataRequest "habits" "insert")
                       (insert_habit (uuid env) (now_ms (clock env)) uid
                          (form_name form) (Some (form_description form))
                          (form_category form)
                          (cat_color selectedCategory) (cat_icon selectedCategory)
                          (form_frequency form) (form_target_count form)) ;;
                match r with
                | Error message => throw message
                | Data _ =>
                    toastSuccess "Habit created successfully!" ;;
                    onSuccess ;;
                    onOpenChange false ;;
                    modify (with_createDlg (setFormData emptyForm))
                end
            end
        end)
       (fun message => toastError message))
    (modify (with_createDlg (setSubmitting false))).

(** [formData.description || null] *)
Definition description_or_null (s : string) : option string :=
  if String.eqb s "" then None else Some s.

(** The form of [EditHabitDialog] when it opens on [habit]: the initial
    value of its [useState], with [habit.description || ''] for the
    description. *)
Definition editForm (habit : HabitRow) : FormData :=
  mkFormData (habit_name habit) (default "" (habit_description habit))
             (habit_category habit) (habit_frequency habit) (habit_target_count habit).

(** [handleSubmit] of [EditHabitDialog], opened for the habit [habitId]. *)
Definition editHabit_handleSubmit (habitId : string)
    (onOpenChange : bool -> M App unit) (onSuccess : M App unit) : M App unit :=
  modify (with_editDlg (setSubmitting true)) ;;
  try_finally
    (try_catch
       (app <- getState ;;
        let form := formData (editDlg app) in
        match List.find (fun c => String.eqb (cat_name c) (form_category form))
                        (categories (editDlg app)) with
        | None => toastError "Please select a category"
        | Some selectedCategory =>
            r <- await (DataRequest "habits" "update")
                   (update_habit habitId (form_name form)
                      (description_or_null (form_description form))
                      (form_category form)
                      (cat_color selectedCategory) (cat_icon selectedCategory)
                      (form_frequency form) (form_target_count form)) ;;
            match r with
            | Error message => throw message
            | Data _ =>
                toastSuccess "Habit updated successfully!" ;;
                onSuccess ;;
                onOpenChange false
            end
        end)
       (fun message => toastError message))
    (modify (with_editDlg (setSubmitting false))).

(* ------------------------------------------------------------------- *)
(** *** The tree as [DashboardPage] wires it *)

(** [<HabitList habits={habits} onUpdate={fetchHabits} />] *)
Definition HabitList_toggleHabit (env : Env) (habitId : string) : M App unit :=
  toggleHabit env fetchHabits habitId.

(** The delete dialog as [HabitList] renders it for [deletingHabit]. *)
Definition DeleteHabitDialog_handleDelete (habitId : string) : M App unit :=
  handleDelete habitId deleteDialog_onOpenChange (deleteDialog_onSuccess fetchHabits).

(** The edit dialog as [HabitList] renders it for [editingHabit]. *)
Definition EditHabitDialog_handleSubmit (habitId : string) : M App unit :=
  editHabit_handleSubmit habitId editDialog_onOpenChange
                         (editDialog_onSuccess fetchHabits).

(** [<CreateHabitDialog open={showCreateDialog}
      onOpenChange={setShowCreateDialog} onSuccess={fetchHabits} />] *)
Definition CreateHabitDialog_handleSubmit (env : Env) : M App unit :=
  createHabit_handleSubmit env setShowCreateDialog (spawn fetchHabits).

(** Whether the delete dialog for [habitId] is on screen:
    [deletingHabit === habit.id]. *)
Definition deleteDialogOpen (app : App) (habitId : string) : bool :=
  match deletingHabit (hlist app) with
  | Some h => String.eqb h habitId
  | None => false
  end.
End HabitTracker.

(* ===================================================================== *)
(** ** The finance dashboard: app/dashboard/page.tsx *)
(* ===================================================================== *)

Module Finance.
Import JsNumber DateFns Schema Supabase Js.
Import Js.Notations.
Local Open Scope js_scope.

Record FormData : Type := mkFormData {
  form_amount : string;
  form_description : string;
  form_category : string;
  form_type : TxType
}.

Record Dashboard : Type := mkDashboard {
  transactions : list Transaction;
  showAddForm : bool;
  loading : bool;
  formData : FormData
}.

Definition emptyForm : FormData := mkFormData "" "" "Food" expense.

Definition initialDashboard : Dashboard := mkDashboard [] false true emptyForm.

Definition setTransactions (v : list Transaction) : M Dashboard unit :=
  modify (fun d => mkDashboard v (showAddForm d) (loading d) (formData d)).
Definition setShowAddForm (v : bool) : M Dashboard unit :=
  modify (fun d => mkDashboard (transactions d) v (loading d) (formData d)).
Definition setLoading (v : bool) : M Dashboard unit :=
  modify (fun d => mkDashboard (transactions d) (showAddForm d) v (formData d)).
Definition setFormData (v : FormData) : M Dashboard unit :=
  modify (fun d => mkDashboard (transactions d) (showAddForm d) (loading d) v).

(** [loadTransactions]; [data || []] is the empty list when the request
    failed. *)
Definition loadTransactions : M Dashboard unit :=
  user <- await AuthGetUser getUser ;;
  match user with
  | None => ret tt
  | Some uid =>
      r <- await (DataRequest "transactions" "select") (select_transactions uid) ;;
      setTransactions (match r with Data data => data | Error _ => [] end) ;;
      setLoading false
  end.

(** [handleDelete] *)
Definition handleDelete (id : string) : M Dashboard unit :=
  _ <- await (DataRequest "transactions" "delete") (delete_transaction id) ;;
  spawn loadTransactions.

(** What one run of [handleAddTransaction] takes from outside: the clock,
    and the [gen_random_uuid()] the server draws for the new row. *)
Record Env : Type := mkEnv {
  clock : Clock;
  uuid : string
}.

(** [handleAddTransaction].  [parseFloat] is the function of that name of
    the JavaScript run time, [to_decimal] the server's conversion to
    DECIMAL(10,2). *)
Definition handleAddTransaction (parseFloat : string -> Number)
    (to_decimal : Number -> option Number) (env : Env) : M Dashboard unit :=
  user <- await AuthGetUser getUser ;;
  match user with
  | None => ret tt
  | Some uid =>
      d <- getState ;;
      let form := formData d in
      r <- await (DataRequest "transactions" "insert")
             (insert_transaction to_decimal (uuid env) (now_ms (clock env)) uid
                (parseFloat (form_amount form)) (form_description form)
                (form_category form) (form_type form) (isoDate (clock env))) ;;
      match r with
      | Error _ => ret tt
      | Data _ =>
          setFormData emptyForm ;;
          setShowAddForm false ;;
          spawn loadTransactions
      end
  end.

(** [transactions.filter(t => t.type === 'income')
      .reduce((sum, t) => sum + t.amount, 0)] *)
Definition totalIncome (transactions : list Transaction) : Number :=
  fold_left (fun sum t => add sum (tx_amount t))
            (List.filter (fun t => TxType_eqb (tx_type t) income) transactions)
            (ofZ 0).

(** [transactions.filter(t => t.type === 'expense')
      .reduce((sum, t) => sum + t.amount, 0)] *)
Definition totalExpenses (transactions : list Transaction) : Number :=
  fold_left (fun sum t => add sum (tx_amount t))
            (List.filter (fun t => TxType_eqb (tx_type t) expense) transactions)
            (ofZ 0).

(** [totalIncome - totalExpenses] *)
Definition balance (transactions : list Transaction) : Number :=
  sub (totalIncome transactions) (totalExpenses transactions).
End Finance.

(* ===================================================================== *)
(** ** The login page (the same in both applications): app/login/page.tsx *)
(* ===================================================================== *)

Module Login.
Import Supabase Js.
Import Js.Notations.
Local Open Scope js_scope.

Record Page : Type := mkPage {
  email : string;
  password : string;
  isSignUp : bool;
  loading : bool;
  error : string
}.

Definition initialPage : Page := mkPage "" "" false false "".

Definition setLoading (v : bool) : M Page unit :=
  modify (fun p => mkPage (email p) (password p) (isSignUp p) v (error p)).
Definition setError (v : string) : M Page unit :=
  modify (fun p => mkPage (email p) (password p) (isSignUp p) (loading p) v).
Definition setIsSignUp (v : bool) : M Page unit :=
  modify (fun p => mkPage (email p) (password p) v (loading p) (error p)).

(** [email.split('@')[0]] *)
Fixpoint beforeAt (s : string) : string :=
  match s with
  | EmptyString => EmptyString
  | String a rest => if Ascii.eqb a "@" then EmptyString else String a (beforeAt rest)
  end.

(** [message || fallback] *)
Definition orElse (message fallback : string) : string :=
  if String.eqb message "" then fallback else message.

Section IdentityProvider.
(** The two calls to the identity provider, which answer with or without
    an error: [signUp(email, password, full_name)] and
    [signInWithPassword(email, password)]. *)
Variable signUp : string -> string -> string -> Backend -> Result unit * Backend.
Variable signInWithPassword : string -> string -> Backend -> Result unit * Backend.

(** The one call [handleAuth] makes, by the mode of the form. *)
Definition authCall (p : Page) : Backend -> Result unit * Backend :=
  if isSignUp p then signUp (email p) (password p) (beforeAt (email p))
  else signInWithPassword (email p) (password p).

(** [handleAuth] *)
Definition handleAuth : M Page unit :=
  setLoading true ;;
  setError "" ;;
  try_finally
    (try_catch
       (p <- getState ;;
        (if isSignUp p
         then
           r <- await AuthSignUp
                  (signUp (email p) (password p) (beforeAt (email p))) ;;
           match r with
           | Error message => throw message
           | Data _ => ret tt        (* then a pause of 1500 ms *)
           end
         else
           r <- await AuthSignIn (signInWithPassword (email p) (password p)) ;;
           match r with
           | Error message => throw message
           | Data _ => ret tt
           end) ;;
        routerPush "/dashboard")
       (fun message => setError (orElse message "Authentication failed")))
    (setLoading false).

(** [handleDemo] *)
Definition handleDemo : M Page unit :=
  setLoading true ;;
  setError "" ;;
  try_finally
    (try_catch
       (r <- await AuthSignIn (signInWithPassword "demo@example.com" "demo123") ;;
        match r with
        | Error _ =>
            _ <- await AuthSignUp
                   (signUp "demo@example.com" "demo123" "Demo User") ;;
            _ <- await AuthSignIn
                   (signInWithPassword "demo@example.com" "demo123") ;;
            ret tt
        | Data _ => ret tt
        end ;;
        routerPush "/dashboard")
       (fun message => setError (orElse message "Demo login failed")))
    (setLoading false).
End IdentityProvider.

(** The link under the form:
    [onClick={() => { setIsSignUp(!isSignUp); setError('') }}]. *)
Definition toggleMode : M Page unit :=
  p <- getState ;;
  setIsSignUp (negb (isSignUp p)) ;;
  setError "".
End Login.

(* ===================================================================== *)
(** ** Invariants of the store *)
(* ===================================================================== *)

Module Invariants.
Import Schema Supabase.

Definition log_key (l : HabitLog) : string * string * string :=
  (log_habit_id l, log_user_id l, log_date l).

(** UNIQUE(habit_id, user_id, date) on [habit_logs]. *)
Definition unique_logs (b : Backend) : Prop :=
  NoDup (map log_key (db_habit_logs b)).

(** PRIMARY KEY (id) on [habits], [habit_logs] and [transactions]. *)
Definition unique_ids (b : Backend) : Prop :=
  NoDup (map habit_id (db_habits b))
  /\ NoDup (map log_id (db_habit_logs b))
  /\ NoDup (map tx_id (db_transactions b)).

(** [habit_logs.habit_id REFERENCES habits(id)]. *)
Definition logs_reference_habits (b : Backend) : Prop :=
  forall l, l ∈ db_habit_logs b -> exists h, h ∈ db_habits b /\ habit_id h = log_habit_id l.

(** No request of the near future is lost by the transport. *)
Definition transport_up (b : Backend) : Prop := faults b = [].
End Invariants.

(* ===================================================================== *)
(** ** The specification's notions *)
(* ===================================================================== *)

(** The derived metrics in the words of the specification, to compare the
    code with. *)
Module Spec.
Import JsNumber DateFns Schema.

(** The habit has at least one log entry on [date] whose completed flag is
    true. *)
Definition hasCompletedLog (date : string) (h : Habit) : Prop :=
  Exists (fun log => log_date log = date /\ log_completed log = true) (habit_logs h).

Global Instance hasCompletedLog_dec date h : Decision (hasCompletedLog date h).
Proof. unfold hasCompletedLog. apply _. Defined.

(** How many habits have a completed log on [date]; a habit counts once. *)
Definition completedCount (date : string) (habits : list Habit) : nat :=
  length (filter (hasCompletedLog date) habits).

(** Day [i] before today is streak-active: some habit has a completed log
    on that date. *)
Definition streakActive (c : Clock) (habits : list Habit) (i : nat) : Prop :=
  Exists (hasCompletedLog (format_subDays c i)) habits.

(** The per-day counts of the trailing seven days, today included,
    summed. *)
Definition weekCompleted (c : Clock) (habits : list Habit) : nat :=
  sum_list (map (fun i => completedCount (format_subDays c i) habits) (seq 0 7)).

(** [hs'] has, habit by habit, a completed log wherever [hs] has one. *)
Definition covers (hs hs' : list Habit) : Prop :=
  Forall2 (fun h h' => forall date, hasCompletedLog date h -> hasCompletedLog date h')
          hs hs'.

(** The log is completed and dated one of the thirty trailing days. *)
Definition counted (c : Clock) (log : HabitLog) : bool :=
  log_completed log
  && existsb (String.eqb (log_date log)) (map (format_subDays c) (seq 0 30)).

(** The habit without the logs that are not [counted]. *)
Definition prune (c : Clock) (h : Habit) : Habit :=
  mkHabit (habit_row h) (List.filter (counted c) (habit_logs h)).

(** The day number of the date of a log; none when the date does not
    parse. *)
Definition dayOf (log : HabitLog) : option Z :=
  match parse_date (log_date log) with
  | Some t => Some (t / msPerDay)%Z
  | None => None
  end.

(** The sum of the amounts of the transactions of one type, taken in list
    order from [acc]. *)
Fixpoint sumWhere (ty : TxType) (acc : Number) (ts : list Transaction) : Number :=
  match ts with
  | [] => acc
  | t :: rest =>
      sumWhere ty (if TxType_eqb (tx_type t) ty then add acc (tx_amount t) else acc) rest
  end.
End Spec.

(** What a request leaves alone when it is refused. *)
Module Frame.
Import Schema Supabase.

(** Two states of the store hold the same session and the same rows. *)
Definition same_data (b b' : Backend) : Prop :=
  session b' = session b /\ db_profiles b' = db_profiles b /\ db_habits b' = db_habits b
  /\ db_habit_logs b' = db_habit_logs b /\ db_habit_categories b' = db_habit_categories b
  /\ db_transactions b' = db_transactions b.

(** Two habit rows agree on every column but [is_archived]. *)
Definition same_but_archived (h h' : HabitRow) : Prop :=
  habit_id h' = habit_id h /\ habit_user_id h' = habit_user_id h
  /\ habit_name h' = habit_name h /\ habit_description h' = habit_description h
  /\ habit_category h' = habit_category h /\ habit_color h' = habit_color h
  /\ habit_icon h' = habit_icon h /\ habit_frequency h' = habit_frequency h
  /\ habit_target_count h' = habit_target_count h
  /\ habit_created_at h' = habit_created_at h
  /\ habit_updated_at h' = habit_updated_at h.
End Frame.

(* ===================================================================== *)
(** ** What the store shows *)
(* ===================================================================== *)

(** The answers of the selects when the transport is up, as functions of the
    tables. *)
Module Views.
Import JsNumber DateFns Schema Supabase.

(** The non-archived habits of [uid] the caller may read, newest first,
    each with its logs. *)
Definition activeHabits (b : Backend) (uid : string) : list Habit :=
  map (fun h => mkHabit h (nested_logs b h))
      (merge_sort newer_habit
         (List.filter (fun h => is_uid b (habit_user_id h)
                                && String.eqb (habit_user_id h) uid
                                && negb (habit_is_archived h))
                      (db_habits b))).

(** The completed logs of a habit the caller may read, latest first. *)
Definition completedLogs (b : Backend) (hid : string) : list HabitLog :=
  merge_sort later_log
    (List.filter (fun l => is_uid b (log_user_id l)
                           && String.eqb (log_habit_id l) hid
                           && log_completed l)
                 (db_habit_logs b)).

(** The logs of [uid] dated [date] the caller may read. *)
Definition logsOn (b : Backend) (uid date : string) : list HabitLog :=
  List.filter (fun l => is_uid b (log_user_id l)
                        && String.eqb (log_user_id l) uid
                        && String.eqb (log_date l) date)
              (db_habit_logs b).

(** The transactions of [uid] the caller may read, latest first. *)
Definition transactionsOf (b : Backend) (uid : string) : list Transaction :=
  merge_sort later_tx
    (List.filter (fun t => is_uid b (tx_user_id t) && String.eqb (tx_user_id t) uid)
                 (db_transactions b)).

(** The map [calculateStreaks] builds for a list of habits. *)
Definition streaksOf (c : Clock) (b : Backend) (habits : list Habit)
    (acc : gmap string nat) : gmap string nat :=
  fold_left (fun m h =>
               <[habit_id (habit_row h)
                 := HabitTracker.streakOver c (completedLogs b (habit_id (habit_row h))) 0]> m)
            habits acc.

(** The map [fetchTodayLogs] builds from the logs of today. *)
Definition todayLogsOf (logs : list HabitLog) : gmap string bool :=
  fold_left (fun m log => <[log_habit_id log := log_completed log]> m) logs ∅.

(** The category the create dialog has selected:
    [categories.find(c => c.name === formData.category)]. *)
Definition selectedCategory (app : HabitTracker.App) : option Category :=
  List.find (fun c => String.eqb (cat_name c)
                        (HabitTracker.form_category
                           (HabitTracker.formData (HabitTracker.createDlg app))))
            (HabitTracker.categories (HabitTracker.createDlg app)).

(** The insert the create dialog sends for a form and a category. *)
Definition createRequest (env : HabitTracker.Env) (uid : string)
    (form : HabitTracker.FormData) (cat : Category) : Backend -> Result unit * Backend :=
  insert_habit (HabitTracker.uuid env) (now_ms (HabitTracker.clock env)) uid
               (HabitTracker.form_name form)
               (Some (HabitTracker.form_description form))
               (HabitTracker.form_category form)
               (cat_color cat) (cat_icon cat) (HabitTracker.form_frequency form)
               (HabitTracker.form_target_count form).

(** The row the create dialog stores. *)
Definition createdRow (env : HabitTracker.Env) (uid : string)
    (form : HabitTracker.FormData) (cat : Category) : HabitRow :=
  mkHabitRow (HabitTracker.uuid env) uid (HabitTracker.form_name form)
             (Some (HabitTracker.form_description form))
             (HabitTracker.form_category form) (cat_color cat) (cat_icon cat)
             (HabitTracker.form_frequency form) (HabitTracker.form_target_count form)
             false (now_ms (HabitTracker.clock env)) (now_ms (HabitTracker.clock env)).

(** The world after a handler of the habit tracker that goes on with
    [calculateStreaks()] and [onUpdate()], neither awaited, with the
    transport up and [uid] signed in: streaks of the habits on screen,
    then the refetched list. *)
Definition afterRefresh (env : HabitTracker.Env) (uid : string) (b : Backend)
    (app : HabitTracker.App) (tr : list Js.Event) : Js.World HabitTracker.App :=
  Js.mkWorld b
    (HabitTracker.with_page
       (fun _ => HabitTracker.mkPage (activeHabits b uid) false
                   (HabitTracker.showCreateDialog (HabitTracker.page app)))
       (HabitTracker.with_hlist
          (fun l => HabitTracker.mkList (HabitTracker.todayLogs l)
                      (streaksOf (HabitTracker.clock env) b
                                 (HabitTracker.habits (HabitTracker.page app)) ∅)
                      (HabitTracker.editingHabit l) (HabitTracker.deletingHabit l))
          app))
    (tr ++ Js.AuthGetUser
        :: replicate (length (HabitTracker.habits (HabitTracker.page app)))
                     (Js.DataRequest "habit_logs" "select")
        ++ [Js.AuthGetUser; Js.DataRequest "habits" "select"]).
End Views.

(* ===================================================================== *)
(** ** Sample data *)
(* ===================================================================== *)

Module Examples.
Import JsNumber DateFns Schema Supabase Js.
Local Open Scope Z_scope.

(** A decidable property of data that is written out, by evaluation. *)
Ltac decided :=
  lazymatch goal with |- ?G => refine (@bool_decide_unpack G _ _) end;
  vm_compute; exact I.

(** The same for a property of every row of a table. *)
Ltac every_row :=
  lazymatch goal with
  | |- forall x, x ∈ ?L -> @?P x => apply (proj1 (Forall_forall P L))
  end;
  decided.

(** 2025-01-15 is day 20103. *)
Definition jan15 : Z := 20103.

(** Noon of 2025-01-15 in a browser on UTC. *)
Definition noonUTC : Clock := mkClock (jan15 * msPerDay + 12 * 3600000) 0.

(** Half past midnight of 2025-01-15 in a browser at UTC+1: the instant
    2025-01-14T23:30:00Z. *)
Definition halfPastMidnightCET : Clock := mkClock (jan15 * msPerDay - 30 * 60000) 60.

(** A minute before the midnight that ends 2025-01-15, and a minute after
    it, in a browser on UTC. *)
Definition minuteToMidnight : Clock := mkClock ((jan15 + 1) * msPerDay - 60000) 0.
Definition minutePastMidnight : Clock := mkClock ((jan15 + 1) * msPerDay + 60000) 0.

Definition alice : string := "a11ce".

Definition run : HabitRow :=
  mkHabitRow "h-run" alice "Run" None "Fitness" "#f97316" "R" "daily" 1 false 1000 1000.
Definition read : HabitRow :=
  mkHabitRow "h-read" alice "Read" (Some "20 pages") "Learning" "#8b5cf6" "B" "daily" 1
             false 2000 2000.

Definition walk : HabitRow :=
  mkHabitRow "h-walk" alice "Walk" None "Health" "#ef4444" "W" "daily" 1 false 3000 3000.

Definition logOn (id hid date : string) : HabitLog :=
  mkHabitLog id hid alice date true None 0.

(** Run on the 15th, 14th and 13th; read on the 14th only; nothing on the
    12th. *)
Definition runLogs : list HabitLog :=
  [logOn "l1" "h-run" "2025-01-15"; logOn "l2" "h-run" "2025-01-14";
   logOn "l3" "h-run" "2025-01-13"].
Definition readLogs : list HabitLog := [logOn "l4" "h-read" "2025-01-14"].

(** Walked on the 15th and the 14th, and never before. *)
Definition walkLogs : list HabitLog :=
  [logOn "l5" "h-walk" "2025-01-15"; logOn "l6" "h-walk" "2025-01-14"].

Definition twoHabits : list Habit := [mkHabit run runLogs; mkHabit read readLogs].

(** The store with Alice signed in. *)
Definition store : Backend :=
  mkBackend (Some alice) [mkProfile alice (Some "Alice")] [run; read; walk]
            (runLogs ++ readLogs ++ walkLogs)
            [mkCategory "c1" "Fitness" "R" "#f97316"] [] [].

(** The same store with nobody signed in. *)
Definition signedOut : Backend := set_session None store.

(** The same store when the next two requests get through and the third
    one is lost. *)
Definition storeLosingThird : Backend :=
  set_faults [None; None; Some "Failed to fetch"] store.

Definition threeTransactions : list Transaction :=
  [mkTransaction "t1" alice (ofZ 100) "Salary" "Bills" income "2024-07-01" 0;
   mkTransaction "t2" alice (ofZ 40) "Dinner" "Food" expense "2024-07-03" 0;
   mkTransaction "t3" alice (ofZ 10) "Bus" "Transportation" expense "2024-07-05" 0].

(** The store when the identity fetch gets through and the request after
    it is lost. *)
Definition storeLosingSecond : Backend :=
  set_faults [None; Some "Failed to fetch"] store.

(** The store of a user whose row in [profiles] is missing. *)
Definition storeWithoutProfile : Backend :=
  mkBackend (Some alice) [] [run; read; walk] (runLogs ++ readLogs ++ walkLogs)
            [mkCategory "c1" "Fitness" "R" "#f97316"] [] [].

(** The store with Alice's three transactions. *)
Definition financeStore : Backend := set_transactions threeTransactions store.

(** The dashboard with both form dialogs filled in: the categories loaded,
    and a weekly "Swim" under "Fitness" typed. *)
Definition swimForm : HabitTracker.FormData :=
  HabitTracker.mkFormData "Swim" "" "Fitness" "weekly" 2.
Definition filledApp : HabitTracker.App :=
  HabitTracker.mkApp (HabitTracker.mkPage [] false true) StatsCards.initialStats
    (HabitTracker.mkList ∅ ∅ (Some "h-run") None) false
    (HabitTracker.mkFormDialog [mkCategory "c1" "Fitness" "R" "#f97316"] false swimForm)
    (HabitTracker.mkFormDialog [mkCategory "c1" "Fitness" "R" "#f97316"] false swimForm).

(** The dashboard once the habits of the store are on screen. *)
Definition loadedApp : HabitTracker.App :=
  HabitTracker.with_page
    (fun _ => HabitTracker.mkPage (Views.activeHabits store alice) false false)
    HabitTracker.initialApp.

(** The dashboard with the edit dialog just opened on [run]. *)
Definition editRunApp : HabitTracker.App :=
  HabitTracker.with_editDlg
    (fun _ => HabitTracker.mkFormDialog [mkCategory "c1" "Fitness" "R" "#f97316"] false
                (HabitTracker.editForm run))
    HabitTracker.initialApp.

(** The same with no category chosen. *)
Definition noCategoryApp : HabitTracker.App :=
  HabitTracker.with_createDlg
    (HabitTracker.setFormData (HabitTracker.mkFormData "Swim" "" "" "weekly" 2)) filledApp.

(** The finance form with a coffee typed in. *)
Definition coffeeForm : Finance.FormData :=
  Finance.mkFormData "12.5" "Coffee" "Food" expense.
Definition coffeeDashboard : Finance.Dashboard :=
  Finance.mkDashboard [] true false coffeeForm.

(** [parseFloat] as far as the examples go: the one amount typed above is
    read as 25/2, and the empty field as NaN. *)
Definition parseFloat (s : string) : Number :=
  if String.eqb s "12.5" then div (ofZ 25) (ofZ 2) else S754_nan.

(** The server's conversion as far as the examples go: 12.5 has two
    decimals and is stored as it is; NaN and the infinities are refused. *)
Definition to_decimal (x : Number) : option Number :=
  match x with
  | S754_nan | S754_infinity _ => None
  | _ => Some x
  end.

(** An identity provider that knows one account. *)
Definition signInWithPassword (email password : string) (b : Backend)
    : Result unit * Backend :=
  if String.eqb email "alice@example.com" && String.eqb password "secret1"
  then (Data tt, set_session (Some alice) b)
  else (Error "Invalid login credentials", b).
Definition signUp (email password full_name : string) (b : Backend)
    : Result unit * Backend :=
  (Error "Signups not allowed for this instance", b).
End Examples.

(* ===================================================================== *)
(** ** Facts about JavaScript numbers *)
(* ===================================================================== *)

Module JsNumberFacts.
Import JsNumber Dyadic.
Local Open Scope Z_scope.

Lemma digits2_pos_size p : digits2_pos p = Pos.size p.
Proof. induction p; simpl; congruence. Qed.

(** The number of binary digits is the binary logarithm plus one. *)
Lemma Zdigits2_log2 m : 0 < m -> Zdigits2 m = Z.log2 m + 1.
Proof.
  destruct m as [|p|p]; try lia. intros _. simpl. rewrite digits2_pos_size.
  destruct p; simpl; lia.
Qed.

Lemma Zdigits2_nonneg m : 0 <= Zdigits2 m.
Proof. destruct m; simpl; lia. Qed.

Lemma Zdigits2_le_scaled m b k :
  0 <= m -> 0 < b -> 0 <= k -> m <= b * 2 ^ k -> Zdigits2 m <= Zdigits2 b + k.
Proof.
  intros Hm Hb Hk Hle.
  destruct (Z.eq_dec m 0) as [->|Hne].
  { simpl. pose proof (Zdigits2_nonneg b). lia. }
  rewrite !Zdigits2_log2 by lia.
  assert (Z.log2 m <= Z.log2 (b * 2 ^ k)) by (apply Z.log2_le_mono; lia).
  rewrite Z.log2_mul_pow2 in H by lia. lia.
Qed.

Lemma Zdigits2_bound m d : 0 < m -> 0 <= d -> m < 2 ^ d -> Zdigits2 m <= d.
Proof.
  intros Hm Hd Hlt. rewrite Zdigits2_log2 by lia.
  apply Z.log2_lt_pow2 in Hlt; lia.
Qed.

Lemma Zdigits2_shift m k : 0 < m -> 0 <= k -> Zdigits2 (m * 2 ^ k) = Zdigits2 m + k.
Proof.
  intros Hm Hk. assert (0 < 2 ^ k) by (apply Z.pow_pos_nonneg; lia).
  rewrite !Zdigits2_log2 by lia. rewrite Z.log2_mul_pow2 by lia. lia.
Qed.

Lemma iter_xO_shift d m : Z.pos (Pos.iter xO m d) = Z.pos m * 2 ^ Z.pos d.
Proof.
  revert m. induction d as [|d IH] using Pos.peano_ind; intros m.
  - simpl. lia.
  - rewrite Pos.iter_succ, Pos2Z.inj_xO, IH, Pos2Z.inj_succ, Z.pow_succ_r by lia. lia.
Qed.

(** A mantissa of exactly 53 digits at an exponent in range is left alone
    by rounding. *)
Lemma binary_round_aux_canonical s m e :
  Zdigits2 (Z.pos m) = 53 -> -1074 <= e <= 971 ->
  binary_round_aux prec emax s (Z.pos m) e loc_Exact = S754_finite s m e.
Proof.
  intros Hd He. unfold binary_round_aux, shr_fexp, prec, emax.
  assert (Hs : fexp 53 1024 (Zdigits2 (Z.pos m) + e) - e = 0)
    by (rewrite Hd; unfold fexp, emin; lia).
  rewrite Hs. cbn [shr shr_record_of_loc loc_of_shr_record shr_m round_nearest_even].
  rewrite Hs. cbn [shr shr_record_of_loc shr_m].
  destruct (Z.leb_spec e (1024 - 53)); [done|lia].
Qed.

(** The mantissa and exponent of an integer below 2^53: the integer,
    shifted left to 53 digits. *)
Lemma binary_round_exact s (c : positive) :
  Z.pos c < 2 ^ 53 ->
  exists m, binary_round prec emax s c 0 = S754_finite s m (Zdigits2 (Z.pos c) - 53)
            /\ Z.pos m = Z.pos c * 2 ^ (53 - Zdigits2 (Z.pos c))
            /\ Zdigits2 (Z.pos m) = 53.
Proof.
  intros Hc.
  assert (Hd : 1 <= Zdigits2 (Z.pos c) <= 53).
  { split; [rewrite Zdigits2_log2 by lia; pose proof (Z.log2_nonneg (Z.pos c)); lia|].
    apply Zdigits2_bound; lia. }
  unfold binary_round, prec, emax.
  change (Z.pos (digits2_pos c)) with (Zdigits2 (Z.pos c)).
  set (d := Zdigits2 (Z.pos c)) in *.
  assert (Hf : fexp 53 1024 (d + 0) = d - 53) by (unfold fexp, emin; lia).
  rewrite Hf. unfold shl_align.
  destruct (d - 53 - 0) as [|q|q] eqn:Hq; try lia.
  - exists c. assert (d = 53) by lia.
    split; [|split].
    + replace (d - 53) with 0 by lia.
      apply (binary_round_aux_canonical s c 0); [fold d; lia|lia].
    + replace (53 - d) with 0 by lia. lia.
    + fold d. lia.
  - assert (Hm : Z.pos (Pos.iter xO c q) = Z.pos c * 2 ^ (53 - d)).
    { rewrite iter_xO_shift. f_equal. f_equal. lia. }
    assert (Hdm : Zdigits2 (Z.pos (Pos.iter xO c q)) = 53).
    { rewrite Hm, Zdigits2_shift by lia. fold d. lia. }
    exists (Pos.iter xO c q). split; [|done].
    apply (binary_round_aux_canonical s _ (d - 53)); [done|lia].
Qed.

(** Integers of magnitude below 2^53 are numbers: [ofZ] loses nothing. *)
Lemma intValue_ofZ z : - 2 ^ 53 < z < 2 ^ 53 -> intValue (ofZ z) = Some z.
Proof.
  intros Hz. unfold ofZ, binary_normalize.
  destruct z as [|c|c]; [done| |].
  - destruct (binary_round_exact false c) as (m & -> & Hm & Hd); [lia|].
    assert (Hdc : Zdigits2 (Z.pos c) <= 53) by (apply Zdigits2_bound; lia).
    unfold intValue. destruct (Z.leb_spec 0 (Zdigits2 (Z.pos c) - 53)).
    + assert (He : Zdigits2 (Z.pos c) = 53) by lia.
      rewrite He in *. cbn [cond_Zopp]. f_equal. lia.
    + rewrite Hm. replace (- (Zdigits2 (Z.pos c) - 53)) with (53 - Zdigits2 (Z.pos c)) by lia.
      assert (0 < 2 ^ (53 - Zdigits2 (Z.pos c))) by (apply Z.pow_pos_nonneg; lia).
      rewrite Z.mod_mul, Z.div_mul by lia. simpl. done.
  - destruct (binary_round_exact true c) as (m & -> & Hm & Hd); [lia|].
    assert (Hdc : Zdigits2 (Z.pos c) <= 53) by (apply Zdigits2_bound; lia).
    unfold intValue. destruct (Z.leb_spec 0 (Zdigits2 (Z.pos c) - 53)).
    + assert (He : Zdigits2 (Z.pos c) = 53) by lia.
      rewrite He in *. cbn [cond_Zopp]. f_equal. lia.
    + rewrite Hm. replace (- (Zdigits2 (Z.pos c) - 53)) with (53 - Zdigits2 (Z.pos c)) by lia.
      assert (0 < 2 ^ (53 - Zdigits2 (Z.pos c))) by (apply Z.pow_pos_nonneg; lia).
      rewrite Z.mod_mul, Z.div_mul by lia. simpl. done.
Qed.

(** *** Rounding never passes a bound that is itself a number *)

Section UpperBound.
(** The bound is the dyadic number [b * 2^eb]. *)
Variables (b eb : Z).
Hypothesis Hb : 0 < b.

Lemma shr_1_below mrs e : e + 1 <= eb -> below b eb mrs e -> below b eb (shr_1 mrs) (e + 1).
Proof using Hb.
  intros He (Hm & _ & Hlt). unfold below.
  assert (Hpow : 2 ^ (eb - e) = 2 * 2 ^ (eb - (e + 1))).
  { rewrite <- Z.pow_succ_r by lia. f_equal. lia. }
  rewrite Hpow in Hlt.
  assert (0 < 2 ^ (eb - (e + 1))) by (apply Z.pow_pos_nonneg; lia).
  remember (b * 2 ^ (eb - (e + 1))) as u eqn:Eu.
  assert (Hu : b * (2 * 2 ^ (eb - (e + 1))) = 2 * u) by lia.
  assert (Hupos : 0 < u) by lia.
  rewrite Hu in Hlt. clear Hu Hpow Eu.
  destruct mrs as [m r s]; unfold inexact in *; simpl in *.
  destruct m as [|[p|p|]|p]; simpl; [| | | |lia].
  all: try pose proof (Pos2Z.inj_xI p); try pose proof (Pos2Z.inj_xO p).
  all: (split; [lia|split; [lia|]]).
  all: destruct r, s; simpl in *; lia.
Qed.

Lemma iter_shr_1_below p : forall mrs e,
  e + Z.pos p <= eb -> below b eb mrs e ->
  below b eb (SpecFloat.iter_pos shr_1 p mrs) (e + Z.pos p).
Proof using Hb.
  induction p as [p IH|p IH|]; intros mrs e He Hbel; simpl.
  - replace (e + Z.pos p~1) with ((e + 1 + Z.pos p) + Z.pos p) by lia.
    apply IH; [lia|]. apply IH; [lia|]. apply shr_1_below; [lia|done].
  - replace (e + Z.pos p~0) with ((e + Z.pos p) + Z.pos p) by lia.
    apply IH; [lia|]. apply IH; [lia|done].
  - apply shr_1_below; [lia|done].
Qed.

Hypothesis Hdig : Zdigits2 b <= 53.
Hypothesis Heb : -1074 <= eb <= 971.

Lemma shr_record_of_loc_m m l : shr_m (shr_record_of_loc m l) = m.
Proof. destruct l as [|[]]; reflexivity. Qed.

Lemma shr_fexp_below m e l :
  below b eb (shr_record_of_loc m l) e ->
  below b eb (fst (shr_fexp prec emax m e l)) (snd (shr_fexp prec emax m e l)).
Proof using Hb Hdig Heb.
  intros Hbel. unfold shr_fexp, shr, prec, emax.
  destruct (fexp 53 1024 (Zdigits2 m + e) - e) as [|p|p] eqn:Hs; simpl; try done.
  apply iter_shr_1_below; [|done].
  destruct Hbel as (Hm & He & Hle). rewrite shr_record_of_loc_m in Hm, Hle.
  assert (Hle' : m <= b * 2 ^ (eb - e)) by (destruct (inexact _); lia).
  pose proof (Zdigits2_le_scaled m b (eb - e) Hm Hb ltac:(lia) Hle').
  unfold fexp, emin in Hs. lia.
Qed.

Lemma round_nearest_even_below mrs e :
  below b eb mrs e ->
  below b eb (shr_record_of_loc
           (round_nearest_even (shr_m mrs) (loc_of_shr_record mrs)) loc_Exact) e.
Proof using Hb.
  intros (Hm & He & Hle). destruct mrs as [m r s]. unfold below, inexact in *.
  simpl in *.
  destruct r, s; simpl in *; try (destruct (Z.even m)); lia.
Qed.

Lemma binary_round_aux_le mx ex lx :
  below b eb (shr_record_of_loc mx lx) ex ->
  le_dyadic b eb (binary_round_aux prec emax false mx ex lx).
Proof using Hb Hdig Heb.
  intros Hbel. unfold binary_round_aux.
  pose proof (shr_fexp_below _ _ _ Hbel) as H1.
  destruct (shr_fexp prec emax mx ex lx) as [mrs' e']. simpl in H1.
  apply round_nearest_even_below in H1.
  apply shr_fexp_below in H1.
  destruct (shr_fexp prec emax _ e' loc_Exact) as [mrs'' e'']. simpl in H1.
  destruct H1 as (Hm & He & Hle).
  destruct (shr_m mrs'') as [|m|m] eqn:Em; simpl; [done| |lia].
  unfold emax, prec. destruct (Z.leb_spec e'' (1024 - 53)); [|lia].
  simpl. split; [done|]. destruct (inexact mrs''); lia.
Qed.
End UpperBound.

Lemma new_location_exact n r : new_location n r = loc_Exact <-> r = 0.
Proof.
  unfold new_location, new_location_even, new_location_odd.
  destruct (Z.even n), (Z.eqb_spec r 0); split; intros; try done.
Qed.

(** A quotient of two integers with [c <= p] is a number in [[0, 1]]. *)
Lemma div_ofZ_le_one c p :
  0 <= c <= p -> 0 < p < 2 ^ 53 -> le_dyadic 1 0 (div (ofZ c) (ofZ p)).
Proof.
  intros Hc Hp. unfold ofZ, binary_normalize, div.
  destruct p as [|p|p]; try lia.
  destruct (binary_round_exact false p) as (mp & -> & Hmp & Hdp); [lia|].
  destruct c as [|c|c]; [done| |lia].
  destruct (binary_round_exact false c) as (mc & -> & Hmc & Hdc); [lia|].
  assert (Hdc' : 1 <= Zdigits2 (Z.pos c) <= 53).
  { split; [rewrite Zdigits2_log2 by lia; pose proof (Z.log2_nonneg (Z.pos c)); lia|].
    apply Zdigits2_bound; lia. }
  assert (Hdp' : 1 <= Zdigits2 (Z.pos p) <= 53).
  { split; [rewrite Zdigits2_log2 by lia; pose proof (Z.log2_nonneg (Z.pos p)); lia|].
    apply Zdigits2_bound; lia. }
  assert (Hcp : Zdigits2 (Z.pos c) <= Zdigits2 (Z.pos p)).
  { rewrite !Zdigits2_log2 by lia. pose proof (Z.log2_le_mono (Z.pos c) (Z.pos p)). lia. }
  set (dc := Zdigits2 (Z.pos c)) in *. set (dp := Zdigits2 (Z.pos p)) in *.
  unfold SFdiv, SFdiv_core_binary, prec, emax. rewrite Hdc, Hdp.
  assert (He : Z.min (fexp 53 1024 (53 + (dc - 53) - (53 + (dp - 53))))
                     (dc - 53 - (dp - 53)) = dc - dp - 53)
    by (unfold fexp, emin; lia).
  rewrite He.
  replace (dc - 53 - (dp - 53) - (dc - dp - 53)) with 53 by lia.
  rewrite Z.shiftl_mul_pow2 by lia.
  pose proof (Z_div_mod (Z.pos mc * 2 ^ 53) (Z.pos mp) ltac:(lia)) as Hdiv.
  destruct (Z.div_eucl (Z.pos mc * 2 ^ 53) (Z.pos mp)) as [q r].
  destruct Hdiv as [Hqr Hr].
  apply (binary_round_aux_le 1 0); [lia|done|lia|].
  assert (Hq : 0 <= q) by nia.
  assert (Hpow : 2 ^ (0 - (dc - dp - 53)) = 2 ^ (dp - dc) * 2 ^ 53).
  { rewrite <- Z.pow_add_r by lia. f_equal. lia. }
  assert (Hbound : Z.pos mc * 2 ^ 53 <= Z.pos mp * (2 ^ (dp - dc) * 2 ^ 53)).
  { rewrite Hmc, Hmp.
    assert (E : 2 ^ (53 - dc) = 2 ^ (53 - dp) * 2 ^ (dp - dc)).
    { rewrite <- Z.pow_add_r by lia. f_equal. lia. }
    rewrite E.
    assert (0 < 2 ^ (53 - dp)) by (apply Z.pow_pos_nonneg; lia).
    assert (0 < 2 ^ (dp - dc)) by (apply Z.pow_pos_nonneg; lia).
    nia. }
  unfold below. rewrite shr_record_of_loc_m. split; [done|]. split; [lia|].
  rewrite Hpow. rewrite Z.mul_1_l.
  destruct (new_location (Z.pos mp) r) as [|cmp] eqn:Hloc.
  - apply new_location_exact in Hloc. subst r. simpl.
    assert (Z.pos mp * q <= Z.pos mp * (2 ^ (dp - dc) * 2 ^ 53)) by lia.
    apply Z.mul_le_mono_pos_l in H; lia.
  - assert (r <> 0) by (intros ->; pose proof (proj2 (new_location_exact (Z.pos mp) 0) eq_refl); congruence).
    assert (Hinex : inexact (shr_record_of_loc q (loc_Inexact cmp)) = true)
      by (destruct cmp; done).
    rewrite Hinex.
    assert (Z.pos mp * q < Z.pos mp * (2 ^ (dp - dc) * 2 ^ 53)) by lia.
    apply Z.mul_lt_mono_pos_l in H0; lia.
Qed.

(** Times one hundred, a number in [[0, 1]] stays in [[0, 100]]. *)
Lemma mul_100_le x : le_dyadic 1 0 x -> le_dyadic 25 2 (mul x (ofZ 100)).
Proof.
  intros Hx. destruct x as [[]|[]| |[] m e]; try done.
  destruct Hx as [He Hm].
  change (ofZ 100) with (S754_finite false 7036874417766400 (-46)).
  unfold mul, SFmul. cbn [xorb].
  apply (binary_round_aux_le 25 2); [lia|done|lia|].
  unfold below. simpl. split; [lia|]. split; [lia|].
  rewrite Pos2Z.inj_mul.
  assert (E : 2 ^ (2 - (e + -46)) = 2 ^ (0 - e) * 2 ^ 48).
  { rewrite <- Z.pow_add_r by lia. f_equal. lia. }
  rewrite E. change (Z.pos 7036874417766400) with (25 * 2 ^ 48).
  assert (0 < 2 ^ 48) by lia. nia.
Qed.

(** Rounded to an integer, a number in [[0, 100]] is an integer of
    [[0, 100]]. *)
Lemma Math_round_percent y :
  le_dyadic 25 2 y -> exists k, intValue (Math_round y) = Some k /\ 0 <= k <= 100.
Proof.
  intros Hy. destruct y as [[]|[]| |[] m e]; try done.
  { exists 0. done. }
  destruct Hy as [He Hm]. unfold Math_round.
  destruct (Z.leb_spec 0 e) as [Hpos|Hneg].
  - exists (Z.pos m * 2 ^ e). unfold intValue.
    destruct (Z.leb_spec 0 e); [|lia]. split; [done|].
    assert (E : 2 ^ 2 = 2 ^ e * 2 ^ (2 - e)).
    { rewrite <- Z.pow_add_r by lia. f_equal. lia. }
    assert (0 < 2 ^ e) by (apply Z.pow_pos_nonneg; lia).
    assert (0 < 2 ^ (2 - e)) by (apply Z.pow_pos_nonneg; lia).
    assert (Z.pos m * 2 ^ e <= 25 * 2 ^ 2) by (rewrite E; nia).
    lia.
  - cbn [cond_Zopp].
    set (d := 2 ^ (- e)).
    assert (Hd : 0 < d) by (apply Z.pow_pos_nonneg; lia).
    assert (E : 25 * 2 ^ (2 - e) = 100 * d).
    { unfold d. replace (2 - e) with (2 + - e) by lia. rewrite Z.pow_add_r by lia. lia. }
    rewrite E in Hm.
    assert (Hk : 0 <= (2 * Z.pos m + d) / (2 * d) <= 100).
    { split; [apply Z.div_pos; lia|].
      assert ((2 * Z.pos m + d) / (2 * d) < 101); [|lia].
      apply Z.div_lt_upper_bound; lia. }
    exists ((2 * Z.pos m + d) / (2 * d)). split; [|done].
    apply intValue_ofZ. lia.
Qed.

(** [Math.round((c / p) * 100)] for integers [0 <= c <= p], [p > 0]. *)
Lemma percent_range c p :
  0 <= c <= p -> 0 < p < 2 ^ 53 ->
  exists k, intValue (Math_round (mul (div (ofZ c) (ofZ p)) (ofZ 100))) = Some k
            /\ 0 <= k <= 100.
Proof.
  intros Hc Hp. apply Math_round_percent, mul_100_le, div_ofZ_le_one; done.
Qed.
End JsNumberFacts.

(* ===================================================================== *)
(** ** stats-cards.tsx: the derived metrics *)
(* ===================================================================== *)

Module StatsCardsFacts.
Import JsNumber DateFns Schema StatsCards JsNumberFacts.

Lemma completedOn_spec date h :
  completedOn date h = true <-> Spec.hasCompletedLog date h.
Proof.
  unfold completedOn, Spec.hasCompletedLog.
  rewrite existsb_exists, Exists_exists. split.
  - intros (log & Hin & Hb). apply andb_true_iff in Hb as [Hd Hc].
    apply String.eqb_eq in Hd. exists log. by rewrite list_elem_of_In.
  - intros (log & Hin & Hd & Hc). exists log. split; [by apply list_elem_of_In|].
    apply andb_true_iff. split; [by apply String.eqb_eq|done].
Qed.

Lemma filter_completedOn_length date hs :
  length (List.filter (completedOn date) hs) = Spec.completedCount date hs.
Proof.
  unfold Spec.completedCount. induction hs as [|h hs IH]; [done|].
  simpl. rewrite filter_cons.
  destruct (completedOn date h) eqn:E, (decide (Spec.hasCompletedLog date h)) as [H|H];
    simpl; try lia.
  - exfalso. apply H. by apply completedOn_spec.
  - apply completedOn_spec in H. congruence.
Qed.

Lemma some_completedOn_spec c hs i :
  existsb (completedOn (format_subDays c i)) hs = true <-> Spec.streakActive c hs i.
Proof.
  unfold Spec.streakActive. rewrite existsb_exists, Exists_exists. split.
  - intros (h & Hin & Hc). exists h. rewrite list_elem_of_In.
    by rewrite <- completedOn_spec.
  - intros (h & Hin & Hc). exists h. rewrite <- list_elem_of_In.
    by rewrite completedOn_spec.
Qed.

Lemma format_subDays_0 c : format_subDays c 0 = format_today c.
Proof. unfold format_subDays, format_today. f_equal. lia. Qed.

(** *** The fields of [calculateStats] *)

Lemma totalHabits_eq c hs : totalHabits (calculateStats c hs) = length hs.
Proof. unfold calculateStats. by destruct (weekLoop _ _ _ _ _ _). Qed.

Lemma completedToday_eq c hs :
  completedToday (calculateStats c hs)
  = length (List.filter (completedOn (format_today c)) hs).
Proof. unfold calculateStats. by destruct (weekLoop _ _ _ _ _ _). Qed.

Lemma currentStreak_eq c hs :
  currentStreak (calculateStats c hs) = length (streakLoop c hs 30 0 []).
Proof. unfold calculateStats. by destruct (weekLoop _ _ _ _ _ _). Qed.

Lemma weeklyCompletion_eq c hs :
  weeklyCompletion (calculateStats c hs)
  = let '(totalPossible, totalCompleted) := weekLoop c hs 7 0 0%nat 0%nat in
    if (0 <? totalPossible)%nat
    then Math_round (mul (div (ofNat totalCompleted) (ofNat totalPossible)) (ofZ 100))
    else ofZ 0.
Proof. unfold calculateStats. by destruct (weekLoop _ _ _ _ _ _). Qed.

(** *** The streak loop *)

(** From [i] with [left] iterations to go, the loop adds [k] days: the
    days [i .. i+k-1] are all active, and it stopped either at the bound
    or at the inactive day [i+k]. *)
Lemma streakLoop_spec c hs left : forall i acc,
  exists k, length (streakLoop c hs left i acc) = (length acc + k)%nat
            /\ (k <= left)%nat
            /\ (forall j, (j < k)%nat -> Spec.streakActive c hs (i + j))
            /\ ((k < left)%nat -> ~ Spec.streakActive c hs (i + k)).
Proof.
  induction left as [|left IH]; intros i acc; simpl.
  - exists 0%nat. repeat split; intros; lia.
  - destruct (existsb (completedOn (format_subDays c i)) hs) eqn:E.
    + destruct (IH (S i) (format_subDays c i :: acc)) as (k & Hlen & Hk & Hact & Hstop).
      exists (S k). simpl in Hlen. split; [lia|]. split; [lia|]. split.
      * intros [|j] Hj.
        -- rewrite Nat.add_0_r. by apply some_completedOn_spec.
        -- replace (i + S j)%nat with (S i + j)%nat by lia. apply Hact. lia.
      * intros Hlt. replace (i + S k)%nat with (S i + k)%nat by lia. apply Hstop. lia.
    + exists 0%nat. split; [lia|]. split; [lia|]. split; [intros; lia|].
      intros _ Hact. rewrite Nat.add_0_r in Hact.
      apply some_completedOn_spec in Hact. congruence.
Qed.

(** *** The weekly loop *)

Lemma weekLoop_spec c hs left : forall i p q,
  weekLoop c hs left i p q
  = ((p + left * length hs)%nat,
     (q + sum_list (map (fun j => Spec.completedCount (format_subDays c j) hs)
                        (seq i left)))%nat).
Proof.
  induction left as [|left IH]; intros i p q; simpl.
  - f_equal; lia.
  - rewrite IH, filter_completedOn_length. f_equal; lia.
Qed.

Lemma completedCount_le date hs : (Spec.completedCount date hs <= length hs)%nat.
Proof. unfold Spec.completedCount. apply length_filter. Qed.

Lemma weekCompleted_le c hs : (Spec.weekCompleted c hs <= length hs * 7)%nat.
Proof.
  unfold Spec.weekCompleted. simpl.
  pose proof (completedCount_le (format_subDays c 0) hs).
  pose proof (completedCount_le (format_subDays c 1) hs).
  pose proof (completedCount_le (format_subDays c 2) hs).
  pose proof (completedCount_le (format_subDays c 3) hs).
  pose proof (completedCount_le (format_subDays c 4) hs).
  pose proof (completedCount_le (format_subDays c 5) hs).
  pose proof (completedCount_le (format_subDays c 6) hs).
  lia.
Qed.

(** The closed form of the weekly completion rate. *)
Lemma weeklyCompletion_closed c hs :
  weeklyCompletion (calculateStats c hs)
  = if (length hs =? 0)%nat then ofZ 0
    else Math_round (mul (div (ofNat (Spec.weekCompleted c hs))
                              (ofNat (length hs * 7)))
                         (ofZ 100)).
Proof.
  rewrite weeklyCompletion_eq, weekLoop_spec. cbv beta iota.
  change (sum_list _) with (Spec.weekCompleted c hs).
  rewrite !Nat.add_0_l.
  replace (7 * length hs)%nat with (length hs * 7)%nat by lia.
  destruct (length hs) as [|n]; [done|].
  destruct (Nat.ltb_spec 0 (S n * 7)); [done|lia].
Qed.
End StatsCardsFacts.

(* ===================================================================== *)
(** ** The hosted store: what requests change and what they leave *)
(* ===================================================================== *)

Module SupabaseFacts.
Import Schema Supabase Frame.

Lemma same_data_refl b : same_data b b.
Proof. by repeat split. Qed.

Lemma same_data_trans b1 b2 b3 : same_data b1 b2 -> same_data b2 b3 -> same_data b1 b3.
Proof.
  intros (?&?&?&?&?&?) (?&?&?&?&?&?). repeat split; congruence.
Qed.

Lemma same_data_set_faults f b : same_data b (set_faults f b).
Proof. by repeat split. Qed.

(** The three ways a request can go. *)
Lemma request_cases {A} (run : Backend -> Result A * Backend) b :
  (exists msg rest, faults b = Some msg :: rest
                    /\ request run b = (Error msg, set_faults rest b))
  \/ (exists rest, faults b = None :: rest
                   /\ request run b = run (set_faults rest b))
  \/ (faults b = [] /\ request run b = run b).
Proof.
  unfold request. destruct (faults b) as [|[msg|] rest]; eauto 6.
Qed.

(** A request whose own refusals leave the store alone leaves it alone
    whenever it answers with an error. *)
Lemma request_error_frame {A} (run : Backend -> Result A * Backend) b msg b' :
  (forall b0 m b1, run b0 = (Error m, b1) -> b1 = b0) ->
  request run b = (Error msg, b') -> same_data b b'.
Proof.
  intros Hrun. destruct (request_cases run b) as
    [(m & rest & Hf & ->)|[(rest & Hf & ->)|(Hf & ->)]].
  - intros [= <- <-]. apply same_data_set_faults.
  - intros H. apply Hrun in H as ->. apply same_data_set_faults.
  - intros H. apply Hrun in H as ->. apply same_data_refl.
Qed.

Lemma getUser_same_data b u b' : getUser b = (u, b') -> same_data b b'.
Proof.
  unfold getUser, request.
  destruct (faults b) as [|[msg|] rest]; simpl; intros [= <- <-]; by repeat split.
Qed.

(** Without a pending fault [getUser] answers with the session. *)
Lemma getUser_session b : faults b = [] -> getUser b = (session b, b).
Proof. unfold getUser, request. by intros ->. Qed.

Lemma insert_log_error_frame id ts hid uid date completed b msg b' :
  insert_log id ts hid uid date completed b = (Error msg, b') -> same_data b b'.
Proof.
  apply request_error_frame. intros b0 m b1.
  repeat (match goal with |- context [if ?c then _ else _] => destruct c end);
    by intros [= <-].
Qed.

Lemma delete_log_error_frame hid uid date b msg b' :
  delete_log hid uid date b = (Error msg, b') -> same_data b b'.
Proof. apply request_error_frame. intros b0 m b1. by intros [=]. Qed.

Lemma archive_habit_error_frame hid b msg b' :
  archive_habit hid b = (Error msg, b') -> same_data b b'.
Proof. apply request_error_frame. intros b0 m b1. by intros [=]. Qed.

(** A second log for the same habit, user and date is refused, whatever
    else holds. *)
Lemma insert_log_duplicate id ts hid uid date completed b :
  (exists l, l ∈ db_habit_logs b /\ log_habit_id l = hid /\ log_user_id l = uid
             /\ log_date l = date) ->
  exists msg b', insert_log id ts hid uid date completed b = (Error msg, b').
Proof.
  intros (l & Hin & Hh & Hu & Hd).
  assert (Hdup : forall b0, db_habit_logs b0 = db_habit_logs b ->
    existsb (fun l => String.eqb (log_habit_id l) hid
                      && String.eqb (log_user_id l) uid
                      && String.eqb (log_date l) date) (db_habit_logs b0) = true).
  { intros b0 ->. apply existsb_exists. exists l. split; [by apply list_elem_of_In|].
    rewrite !andb_true_iff, !String.eqb_eq. done. }
  unfold insert_log.
  destruct (request_cases
    (fun b => if negb (is_uid b uid) then (Error (rls_violation "habit_logs"), b)
     else if existsb (fun l => String.eqb (log_id l) id) (db_habit_logs b)
     then (Error (pkey_violation "habit_logs"), b)
     else if existsb (fun l => String.eqb (log_habit_id l) hid
                              && String.eqb (log_user_id l) uid
                              && String.eqb (log_date l) date) (db_habit_logs b)
     then (Error unique_violation, b)
     else if negb (existsb (fun h => String.eqb (habit_id h) hid) (db_habits b))
     then (Error (fkey_violation "habit_logs" "habit_id"), b)
     else if negb (has_profile b uid)
     then (Error (fkey_violation "habit_logs" "user_id"), b)
     else (Data tt,
           set_habit_logs
             (db_habit_logs b ++ [mkHabitLog id hid uid date completed None ts]) b)) b)
    as [(m & rest & Hf & ->)|[(rest & Hf & ->)|(Hf & ->)]]; [eauto| |].
  - rewrite (Hdup (set_faults rest b)) by done.
    destruct (negb _); [eauto|]. destruct (existsb _ _); eauto.
  - rewrite (Hdup b) by done.
    destruct (negb _); [eauto|]. destruct (existsb _ _); eauto.
Qed.

(** With the caller signed in as [uid], a fresh id and the transport up,
    the refusal is the one of the uniqueness constraint. *)
Lemma insert_log_unique_violation id ts hid uid date completed b :
  faults b = [] -> session b = Some uid ->
  (forall l, l ∈ db_habit_logs b -> log_id l <> id) ->
  (exists l, l ∈ db_habit_logs b /\ log_habit_id l = hid /\ log_user_id l = uid
             /\ log_date l = date) ->
  insert_log id ts hid uid date completed b = (Error unique_violation, b).
Proof.
  intros Hf Hs Hfresh (l & Hin & Hh & Hu & Hd).
  unfold insert_log, request. rewrite Hf. unfold is_uid. rewrite Hs, String.eqb_refl.
  simpl.
  assert (existsb (fun l => String.eqb (log_id l) id) (db_habit_logs b) = false) as ->.
  { apply not_true_is_false. rewrite existsb_exists. intros (l' & Hin' & He).
    apply String.eqb_eq in He. apply (Hfresh l'); [by apply list_elem_of_In|done]. }
  assert (existsb (fun l => String.eqb (log_habit_id l) hid
                      && String.eqb (log_user_id l) uid
                      && String.eqb (log_date l) date) (db_habit_logs b) = true) as ->.
  { apply existsb_exists. exists l. split; [by apply list_elem_of_In|].
    rewrite !andb_true_iff, !String.eqb_eq. done. }
  done.
Qed.
End SupabaseFacts.

(* ===================================================================== *)
(** ** Handlers *)
(* ===================================================================== *)

Module HandlerFacts.
Import JsNumber DateFns Schema Supabase Js Frame SupabaseFacts.

Section HabitTrackerHandlers.
Import HabitTracker.

(** [fetchHabits] with nobody signed in: a redirect, and no data
    request. *)
Lemma fetchHabits_no_user (w : World App) b' :
  getUser (backend w) = (None, b') ->
  fetchHabits w
  = (Normal tt,
     mkWorld b'
       (with_page (fun p => mkPage (habits p) false (showCreateDialog p)) (ui w))
       (trace w ++ [AuthGetUser; RouterPush "/login"])).
Proof.
  intros Hu. unfold fetchHabits, setLoading. run.
  rewrite Hu. cbn [backend ui trace fst snd]. by rewrite <- app_assoc.
Qed.

(** [fetchHabits] with a user: one select on [habits] after the identity
    fetch; the rows go to [habits], or a toast reports the failure. *)
Lemma fetchHabits_user (w : World App) uid b1 :
  getUser (backend w) = (Some uid, b1) ->
  fetchHabits w
  = match select_active_habits uid b1 with
    | (Data data, b2) =>
        (Normal tt,
         mkWorld b2 (with_page (fun _ => mkPage data false
                                           (showCreateDialog (page (ui w)))) (ui w))
                 (trace w ++ [AuthGetUser; DataRequest "habits" "select"]))
    | (Error _, b2) =>
        (Normal tt,
         mkWorld b2 (with_page (fun p => mkPage (habits p) false (showCreateDialog p))
                               (ui w))
                 (trace w ++ [AuthGetUser; DataRequest "habits" "select";
                              ToastError "Failed to load habits";
                              ConsoleError "Error fetching habits:"]))
    end.
Proof.
  intros Hu. unfold fetchHabits, setLoading, setHabits. run.
  rewrite Hu. cbn [backend ui trace fst snd].
  destruct (select_active_habits uid b1) as [[data|msg] b2];
    cbn [backend ui trace fst snd]; by rewrite <- !app_assoc.
Qed.

(** [toggleHabit] when its write is refused. *)
Lemma toggleHabit_write_failure env onUpdate habitId (w : World App) uid b1 msg b2 :
  getUser (backend w) = (Some uid, b1) ->
  (if isCompleted (ui w) habitId
   then delete_log habitId uid (today env) b1
   else insert_log (uuid env) (now_ms (clock env)) habitId uid (today env) true b1)
  = (Error msg, b2) ->
  toggleHabit env onUpdate habitId w
  = (Normal tt,
     mkWorld b2 (ui w)
       (trace w ++ [AuthGetUser;
                    DataRequest "habit_logs"
                      (if isCompleted (ui w) habitId then "delete" else "insert");
                    ToastError msg])).
Proof.
  intros Hu Hw. unfold toggleHabit. run. rewrite Hu. cbn [backend ui trace fst snd].
  destruct (isCompleted (ui w) habitId); cbn [backend ui trace fst snd];
    rewrite Hw; cbn [backend ui trace fst snd];
    by rewrite <- !app_assoc.
Qed.

(** [handleDelete] when the update is refused: nothing but the toast, and
    neither callback runs. *)
Lemma handleDelete_failure habitId onOpenChange onSuccess (w : World App) msg b' :
  archive_habit habitId (backend w) = (Error msg, b') ->
  handleDelete habitId onOpenChange onSuccess w
  = (Normal tt,
     mkWorld b' (with_archiving false (ui w))
       (trace w ++ [DataRequest "habits" "update"; ToastError msg])).
Proof.
  intros Ha. unfold handleDelete, setArchiving. run. rewrite Ha.
  cbn [backend ui trace fst snd]. by rewrite <- !app_assoc.
Qed.
End HabitTrackerHandlers.

Section FinanceHandlers.
Import Finance.

Lemma loadTransactions_no_user (w : World Dashboard) b' :
  getUser (backend w) = (None, b') ->
  loadTransactions w = (Normal tt, mkWorld b' (ui w) (trace w ++ [AuthGetUser])).
Proof. intros Hu. unfold loadTransactions. run. by rewrite Hu. Qed.

Lemma loadTransactions_user (w : World Dashboard) uid b1 :
  getUser (backend w) = (Some uid, b1) ->
  loadTransactions w
  = (Normal tt,
     mkWorld (snd (select_transactions uid b1))
       (mkDashboard
          (match fst (select_transactions uid b1) with
           | Data data => data
           | Error _ => []
           end)
          (showAddForm (ui w)) false (formData (ui w)))
       (trace w ++ [AuthGetUser; DataRequest "transactions" "select"])).
Proof.
  intros Hu. unfold loadTransactions, setTransactions, setLoading. run.
  rewrite Hu. cbn [backend ui trace fst snd].
  destruct (select_transactions uid b1) as [r b2]. cbn [backend ui trace fst snd].
  by rewrite <- !app_assoc.
Qed.
End FinanceHandlers.
End HandlerFacts.

(* ===================================================================== *)
(** ** The derived metrics of the specification *)
(* ===================================================================== *)

Section DerivedMetrics.
Import JsNumber DateFns Schema StatsCards JsNumberFacts StatsCardsFacts.

(** C1.  The weekly completion rate is the sum, over the seven trailing days
    (today included), of the number of habits with a completed log on that
    day, divided by seven times the number of habits and expressed as a
    rounded integer percentage: [Math.round((sum / (count * 7)) * 100)] on
    JavaScript numbers.  With no habit the rate is 0 and no division takes
    place. *)
Theorem weekly_completion_rate (c : Clock) (habits : list Habit) :
  weeklyCompletion (calculateStats c habits)
  = (if (length habits =? 0)%nat then ofZ 0
     else Math_round (mul (div (ofNat (Spec.weekCompleted c habits))
                               (ofNat (length habits * 7)))
                          (ofZ 100)))
  /\ (totalHabits (calculateStats c habits) = 0%nat ->
      weeklyCompletion (calculateStats c habits) = ofZ 0).
Proof.
  split; [apply weeklyCompletion_closed|].
  rewrite totalHabits_eq, weeklyCompletion_closed. by intros ->.
Qed.

Lemma weekly_completion_rate_witness :
  totalHabits (calculateStats Examples.noonUTC []) = 0%nat
  /\ weeklyCompletion (calculateStats Examples.noonUTC []) = ofZ 0.
Proof.
  split; [reflexivity|].
  apply (proj2 (weekly_completion_rate Examples.noonUTC [])). reflexivity.
Defined.

(** C2.  The global current streak is the number of consecutive
    streak-active days counted back from today, stopping at the first day
    without a completion and after 30 days at the latest.  With
    completions today, yesterday and the day before and none three days ago
    it is exactly 3; it never exceeds 30. *)
Theorem global_streak_consecutive_days (c : Clock) (habits : list Habit) :
  let s := currentStreak (calculateStats c habits) in
  (s <= 30)%nat
  /\ (forall i, (i < s)%nat -> Spec.streakActive c habits i)
  /\ ((s < 30)%nat -> ~ Spec.streakActive c habits s)
  /\ (Spec.streakActive c habits 0 -> Spec.streakActive c habits 1 ->
      Spec.streakActive c habits 2 -> ~ Spec.streakActive c habits 3 -> s = 3%nat).
Proof.
  cbv zeta. rewrite currentStreak_eq.
  destruct (streakLoop_spec c habits 30 0 []) as (k & -> & Hk & Hact & Hstop).
  simpl. split; [done|]. split; [done|]. split; [done|].
  intros H0 H1 H2 H3.
  destruct (Nat.lt_trichotomy k 3) as [Hlt|[->|Hgt]]; [|done|].
  - exfalso. apply (Hstop ltac:(lia)).
    destruct k as [|[|[|k]]]; simpl; [done|done|done|lia].
  - exfalso. apply H3, (Hact 3%nat). lia.
Qed.

Lemma global_streak_consecutive_days_witness :
  currentStreak (calculateStats Examples.noonUTC Examples.twoHabits) = 3%nat.
Proof.
  apply (global_streak_consecutive_days Examples.noonUTC Examples.twoHabits).
  - apply some_completedOn_spec. vm_compute. reflexivity.
  - apply some_completedOn_spec. vm_compute. reflexivity.
  - apply some_completedOn_spec. vm_compute. reflexivity.
  - intros H. apply some_completedOn_spec in H. vm_compute in H. discriminate.
Defined.

(** C5.  [completedToday] is the number of habits with at least one log
    entry dated today (the local calendar date) whose completed flag is
    true; hence it is at most [totalHabits]. *)
Theorem completed_today_count (c : Clock) (habits : list Habit) :
  completedToday (calculateStats c habits)
  = Spec.completedCount (format_today c) habits
  /\ (completedToday (calculateStats c habits)
      <= totalHabits (calculateStats c habits))%nat.
Proof.
  rewrite completedToday_eq, totalHabits_eq, filter_completedOn_length.
  split; [done|apply completedCount_le].
Qed.

(** C6.  The weekly completion percentage is an integer between 0 and 100,
    and it is exactly 0 when there is no habit.  (An array holds fewer than
    2^32 habits.) *)
Theorem weekly_completion_in_range (c : Clock) (habits : list Habit) :
  (Z.of_nat (length habits) < 2 ^ 32)%Z ->
  (exists k, intValue (weeklyCompletion (calculateStats c habits)) = Some k
             /\ (0 <= k <= 100)%Z)
  /\ (totalHabits (calculateStats c habits) = 0%nat ->
      weeklyCompletion (calculateStats c habits) = ofZ 0).
Proof.
  intros Hlen. rewrite totalHabits_eq, weeklyCompletion_closed. split.
  - destruct (Nat.eqb_spec (length habits) 0) as [E|E].
    + exists 0%Z. done.
    + pose proof (weekCompleted_le c habits). unfold ofNat.
      apply percent_range; lia.
  - by intros ->.
Qed.

Lemma weekly_completion_in_range_witness :
  (Z.of_nat (length Examples.twoHabits) < 2 ^ 32)%Z
  /\ (exists k, intValue (weeklyCompletion
                            (calculateStats Examples.noonUTC Examples.twoHabits)) = Some k
                /\ (0 <= k <= 100)%Z).
Proof.
  split; [reflexivity|].
  apply (weekly_completion_in_range Examples.noonUTC Examples.twoHabits). reflexivity.
Defined.

(** C10.  The global current streak is at least 1 exactly when
    [completedToday] is at least 1; it is 0 exactly when no habit has a
    completed log dated today. *)
Theorem streak_positive_iff_completed_today (c : Clock) (habits : list Habit) :
  ((1 <= currentStreak (calculateStats c habits))%nat
   <-> (1 <= completedToday (calculateStats c habits))%nat)
  /\ (currentStreak (calculateStats c habits) = 0%nat
      <-> ~ exists h, h ∈ habits /\ Spec.hasCompletedLog (format_today c) h).
Proof.
  rewrite currentStreak_eq, completedToday_eq, filter_completedOn_length.
  destruct (streakLoop_spec c habits 30 0 []) as (k & -> & Hk & Hact & Hstop).
  simpl.
  assert (Hactive : Spec.streakActive c habits 0
                    <-> exists h, h ∈ habits /\ Spec.hasCompletedLog (format_today c) h).
  { unfold Spec.streakActive. by rewrite format_subDays_0, Exists_exists. }
  assert (Hcount : (1 <= Spec.completedCount (format_today c) habits)%nat
                   <-> exists h, h ∈ habits /\ Spec.hasCompletedLog (format_today c) h).
  { unfold Spec.completedCount. split.
    - intros Hlen.
      destruct (filter (Spec.hasCompletedLog (format_today c)) habits) as [|h l] eqn:E;
        [simpl in Hlen; lia|].
      assert (Hin : h ∈ filter (Spec.hasCompletedLog (format_today c)) habits)
        by (rewrite E; left).
      apply list_elem_of_filter in Hin as [Hc Hin]. eauto.
    - intros (h & Hin & Hc).
      assert (h ∈ filter (Spec.hasCompletedLog (format_today c)) habits)
        by (by apply list_elem_of_filter).
      destruct (filter _ habits); [by apply elem_of_nil in H|simpl; lia]. }
  assert (Hk0 : (1 <= k)%nat <-> Spec.streakActive c habits 0).
  { split.
    - intros H1. apply (Hact 0%nat). lia.
    - intros Ha. destruct k; [|lia]. exfalso. apply Hstop; [lia|done]. }
  split.
  - rewrite Hk0, Hcount. done.
  - rewrite <- Hactive, <- Hk0. lia.
Qed.
End DerivedMetrics.

(* ===================================================================== *)
(** ** Income, expenses and balance *)
(* ===================================================================== *)

Module FinanceFacts.
Import JsNumber Schema Finance.

Lemma fold_filter_sumWhere ty ts : forall acc,
  fold_left (fun sum t => add sum (tx_amount t))
            (List.filter (fun t => TxType_eqb (tx_type t) ty) ts) acc
  = Spec.sumWhere ty acc ts.
Proof.
  induction ts as [|t ts IH]; intros acc; [done|]. simpl.
  destruct (TxType_eqb (tx_type t) ty); simpl; apply IH.
Qed.
End FinanceFacts.

Section Totals.
Import JsNumber Schema Finance FinanceFacts.

(** C4.  Total income is the sum of the amounts of the income
    transactions, total expenses the sum of the amounts of the expense
    transactions, and the balance is the former minus the latter; for 100
    of income and expenses of 40 and 10 they are 100, 50 and 50. *)
Theorem income_expense_balance_totals :
  (forall ts : list Transaction,
      totalIncome ts = Spec.sumWhere income (ofZ 0) ts
      /\ totalExpenses ts = Spec.sumWhere expense (ofZ 0) ts
      /\ balance ts = sub (totalIncome ts) (totalExpenses ts))
  /\ totalIncome Examples.threeTransactions = ofZ 100
  /\ totalExpenses Examples.threeTransactions = ofZ 50
  /\ balance Examples.threeTransactions = ofZ 50.
Proof.
  split.
  - intros ts. split; [apply fold_filter_sumWhere|].
    split; [apply fold_filter_sumWhere|reflexivity].
  - repeat split; vm_compute; reflexivity.
Qed.
End Totals.

(* ===================================================================== *)
(** ** The per-habit streak *)
(* ===================================================================== *)

Module StreakFacts.
Import JsNumber DateFns Schema HabitTracker.

(** Entered with [streak], the loop advances over [k] logs: log [j] of
    them is exactly [streak + j] days old, and the loop stops at the end of
    the list or at the first log that is not. *)
Lemma streakOver_spec c logs : forall streak,
  exists k, streakOver c logs streak = (streak + k)%nat
            /\ (k <= length logs)%nat
            /\ (forall j log, (j < k)%nat -> logs !! j = Some log ->
                  strict_eq (diffDays c log) (ofNat (streak + j)) = true)
            /\ (forall log, logs !! k = Some log ->
                  strict_eq (diffDays c log) (ofNat (streak + k)) = false).
Proof.
  induction logs as [|log logs IH]; intros streak; simpl.
  - exists 0%nat. split; [lia|]. split; [lia|]. split; [intros; lia|done].
  - destruct (strict_eq (diffDays c log) (ofNat streak)) eqn:E.
    + destruct (IH (S streak)) as (k & -> & Hk & Hhit & Hstop).
      exists (S k). split; [lia|]. split; [lia|]. split.
      * intros [|j] l Hj Hl; simpl in Hl.
        -- injection Hl as <-. by rewrite Nat.add_0_r.
        -- replace (streak + S j)%nat with (S streak + j)%nat by lia.
           apply (Hhit j); [lia|done].
      * intros l Hl. simpl in Hl.
        replace (streak + S k)%nat with (S streak + k)%nat by lia. by apply Hstop.
    + exists 0%nat. split; [lia|]. split; [lia|]. split; [intros; lia|].
      intros l [= <-]. by rewrite Nat.add_0_r.
Qed.
End StreakFacts.

(* ===================================================================== *)
(** ** Archiving *)
(* ===================================================================== *)

Module ArchiveFacts.
Import Schema Supabase Frame SupabaseFacts.

Lemma archived_same_but_archived h : same_but_archived h (archived h).
Proof. by repeat split. Qed.

(** What a successful archive request does to the store. *)
Lemma archive_habit_data hid b b' :
  archive_habit hid b = (Data tt, b') ->
  db_habits b' = map (fun h => if is_uid b (habit_user_id h) && String.eqb (habit_id h) hid
                            then archived h else h) (db_habits b)
  /\ session b' = session b /\ db_profiles b' = db_profiles b
  /\ db_habit_logs b' = db_habit_logs b /\ db_habit_categories b' = db_habit_categories b
  /\ db_transactions b' = db_transactions b.
Proof.
  unfold archive_habit.
  destruct (request_cases
    (fun b => (Data tt,
       set_habits
         (map (fun h => if is_uid b (habit_user_id h) && String.eqb (habit_id h) hid
                        then archived h else h) (db_habits b)) b)) b)
    as [(m & rest & Hf & ->)|[(rest & Hf & ->)|(Hf & ->)]];
    intros [= <-]; by repeat split.
Qed.

(** What the dashboard's select can return. *)
Lemma select_active_habits_elem uid b hs b' h :
  select_active_habits uid b = (Data hs, b') -> h ∈ hs ->
  habit_row h ∈ db_habits b
  /\ is_uid b (habit_user_id (habit_row h)) = true
  /\ habit_user_id (habit_row h) = uid
  /\ habit_is_archived (habit_row h) = false
  /\ habit_logs h = nested_logs b (habit_row h).
Proof.
  unfold select_active_habits.
  destruct (request_cases
    (fun b => (Data (map (fun h => mkHabit h (nested_logs b h))
             (merge_sort newer_habit
                (List.filter (fun h => is_uid b (habit_user_id h)
                                       && String.eqb (habit_user_id h) uid
                                       && negb (habit_is_archived h))
                             (db_habits b)))), b)) b)
    as [(m & rest & Hf & ->)|[(rest & Hf & ->)|(Hf & ->)]];
    intros [= <- <-]; intros Hin;
    apply list_elem_of_fmap in Hin as (r & -> & Hin);
    rewrite merge_sort_Permutation in Hin;
    apply list_elem_of_In, filter_In in Hin as [Hin Hc];
    apply andb_true_iff in Hc as [Hc Ha]; apply andb_true_iff in Hc as [Hu He];
    apply String.eqb_eq in He; apply negb_true_iff in Ha;
    simpl; by rewrite list_elem_of_In.
Qed.

Lemma select_completed_logs_data hid f b b' :
  session b' = session b -> db_habit_logs b' = db_habit_logs b ->
  fst (select_completed_logs hid (set_faults f b'))
  = fst (select_completed_logs hid (set_faults f b)).
Proof.
  intros Hs Hl. unfold select_completed_logs, request. simpl.
  destruct f as [|[m|] rest]; simpl; unfold is_uid; simpl; by rewrite ?Hs, ?Hl.
Qed.
End ArchiveFacts.

Section PerHabitStreak.
Import JsNumber DateFns Schema Supabase Js HabitTracker.

(** C3.  At half past midnight in a browser at UTC+1, a habit whose
    completed logs are on exactly today and yesterday (the local dates the
    list itself writes) gets the per-habit streak 0, not 2: the loop takes
    the day difference between [now] and midnight UTC of the log's date,
    and midnight UTC of the local today is still half an hour ahead, so the
    first difference is -1 and the loop stops at once.  The same holds for
    the streak [calculateStreaks] stores after the page has loaded.  At noon
    on UTC the same logs give 2. *)
Theorem per_habit_streak_after_local_midnight :
  map log_date Examples.walkLogs
  = [format_subDays Examples.halfPastMidnightCET 0;
     format_subDays Examples.halfPastMidnightCET 1]
  /\ intValue (diffDays Examples.halfPastMidnightCET
                        (Examples.logOn "l5" "h-walk" "2025-01-15")) = Some (-1)%Z
  /\ streakOver Examples.halfPastMidnightCET Examples.walkLogs 0 = 0%nat
  /\ streaks (hlist (ui (exec (calculateStreaks (mkEnv Examples.halfPastMidnightCET "u" Examples.halfPastMidnightCET))
                              (exec fetchHabits
                                    (mkWorld Examples.store initialApp [])))))
       !! "h-walk" = Some 0%nat
  /\ streakOver Examples.noonUTC Examples.walkLogs 0 = 2%nat.
Proof. repeat split; vm_compute; reflexivity. Qed.
End PerHabitStreak.

Section AuthenticationGate.
Import Schema Supabase Js HandlerFacts.

(** The finance dashboard loaded with nobody signed in: the identity fetch
    yields no user, and the page issues no redirect. *)
Lemma finance_dashboard_no_redirect :
  fst (getUser Examples.signedOut) = None
  /\ ~ In (RouterPush "/login")
          (trace (exec Finance.loadTransactions
                       (mkWorld Examples.signedOut Finance.initialDashboard []))).
Proof.
  split; [reflexivity|]. vm_compute. intros [H|[]]. discriminate.
Qed.

(** C7, amended.  On a page load of either dashboard the current identity
    is fetched before any data query, and when the fetch yields no user no
    data query is sent.  The habit tracker then redirects to the login
    view; the finance dashboard issues no redirect. *)
Theorem identity_fetched_before_data :
  (forall w : World HabitTracker.App,
      trace (exec HabitTracker.fetchHabits w)
      = trace w ++ AuthGetUser ::
          match fst (getUser (backend w)) with
          | None => [RouterPush "/login"]
          | Some uid =>
              DataRequest "habits" "select" ::
                match fst (select_active_habits uid (snd (getUser (backend w)))) with
                | Data _ => []
                | Error _ => [ToastError "Failed to load habits";
                              ConsoleError "Error fetching habits:"]
                end
          end)
  /\ (forall w : World Finance.Dashboard,
         trace (exec Finance.loadTransactions w)
         = trace w ++ AuthGetUser ::
             match fst (getUser (backend w)) with
             | None => []
             | Some _ => [DataRequest "transactions" "select"]
             end).
Proof.
  split; intros w; unfold exec; destruct (getUser (backend w)) as [[uid|] b1] eqn:Hu;
    cbn [fst snd].
  - rewrite (fetchHabits_user w uid b1 Hu).
    by destruct (select_active_habits uid b1) as [[data|msg] b2].
  - by rewrite (fetchHabits_no_user w b1 Hu).
  - by rewrite (loadTransactions_user w uid b1 Hu).
  - by rewrite (loadTransactions_no_user w b1 Hu).
Qed.
End AuthenticationGate.

Section WriteFailures.
Import DateFns Schema Supabase Js Frame SupabaseFacts HandlerFacts HabitTracker.

(** C8.  When the write of [toggleHabit] is refused, the message is shown
    as an error toast, the handler completes normally, nothing else happens
    (neither the streaks are recomputed nor the list refetched), and the
    state of the components, with today's completion map and the streaks,
    is the one before; the store keeps its rows.  A second completion log
    for the same habit, user and date is such a refusal.  When the archive
    request of the delete dialog is refused, the error is shown and the
    dialog stays open over an unchanged list. *)
Theorem write_failure_aborts_action :
  (forall env onUpdate habitId (w : World App) uid b1 msg b2,
      getUser (backend w) = (Some uid, b1) ->
      (if isCompleted (ui w) habitId
       then delete_log habitId uid (today env) b1
       else insert_log (uuid env) (now_ms (clock env)) habitId uid (today env) true b1)
      = (Error msg, b2) ->
      toggleHabit env onUpdate habitId w
      = (Normal tt,
         mkWorld b2 (ui w)
           (trace w ++ [AuthGetUser;
                        DataRequest "habit_logs"
                          (if isCompleted (ui w) habitId then "delete" else "insert");
                        ToastError msg]))
      /\ same_data (backend w) b2)
  /\ (forall id ts hid uid date b,
         (exists l, l ∈ db_habit_logs b /\ log_habit_id l = hid
                    /\ log_user_id l = uid /\ log_date l = date) ->
         exists msg b', insert_log id ts hid uid date true b = (Error msg, b')
                        /\ same_data b b')
  /\ (forall habitId (w : World App) msg b',
         archive_habit habitId (backend w) = (Error msg, b') ->
         DeleteHabitDialog_handleDelete habitId w
         = (Normal tt,
            mkWorld b' (with_archiving false (ui w))
              (trace w ++ [DataRequest "habits" "update"; ToastError msg]))
         /\ deleteDialogOpen (with_archiving false (ui w)) habitId
            = deleteDialogOpen (ui w) habitId
         /\ same_data (backend w) b').
Proof.
  split; [|split].
  - intros env onUpdate habitId w uid b1 msg b2 Hu Hw. split.
    + by apply toggleHabit_write_failure with (uid := uid) (b1 := b1).
    + apply same_data_trans with b1; [by apply getUser_same_data in Hu|].
      destruct (isCompleted (ui w) habitId).
      * by apply delete_log_error_frame in Hw.
      * by apply insert_log_error_frame in Hw.
  - intros id ts hid uid date b Hdup.
    destruct (insert_log_duplicate id ts hid uid date true b Hdup) as (msg & b' & H).
    exists msg, b'. split; [done|]. by apply insert_log_error_frame in H.
  - intros habitId w msg b' Ha. split; [|split].
    + by apply handleDelete_failure.
    + done.
    + by apply archive_habit_error_frame in Ha.
Qed.

(** Alice ticks "Run" on a list that does not know yet that today's log
    exists. *)
Lemma write_failure_aborts_action_witness :
  toggleHabit (mkEnv Examples.noonUTC "l9" Examples.noonUTC) (ret tt) "h-run"
              (mkWorld Examples.store initialApp [])
  = (Normal tt,
     mkWorld Examples.store initialApp
       [AuthGetUser; DataRequest "habit_logs" "insert"; ToastError unique_violation])
  /\ same_data Examples.store Examples.store.
Proof.
  apply (proj1 write_failure_aborts_action (mkEnv Examples.noonUTC "l9" Examples.noonUTC) (ret tt) "h-run"
           (mkWorld Examples.store initialApp []) Examples.alice Examples.store
           unique_violation Examples.store).
  - reflexivity.
  - vm_compute. reflexivity.
Defined.
End WriteFailures.

(* ===================================================================== *)
(** ** More on the stats cards *)
(* ===================================================================== *)

Module PercentFacts.
Import JsNumber Dyadic JsNumberFacts.
Local Open Scope Z_scope.

Lemma div_eucl_pair a b : Z.div_eucl a b = (a / b, a mod b).
Proof. unfold Z.div, Z.modulo. by destruct (Z.div_eucl a b). Qed.

(** [p / p] is 1. *)
Lemma div_self p : 0 < p < 2 ^ 53 -> div (ofZ p) (ofZ p) = ofZ 1.
Proof.
  intros Hp. unfold ofZ at 1 2, binary_normalize.
  destruct p as [|p|p]; try lia.
  destruct (binary_round_exact false p) as (m & -> & Hm & Hd); [lia|].
  assert (Hdp : 1 <= Zdigits2 (Z.pos p) <= 53).
  { split; [rewrite Zdigits2_log2 by lia; pose proof (Z.log2_nonneg (Z.pos p)); lia|].
    apply Zdigits2_bound; lia. }
  set (e := Zdigits2 (Z.pos p) - 53) in *.
  unfold div, SFdiv, SFdiv_core_binary, prec, emax. rewrite Hd.
  replace (53 + e - (53 + e)) with 0 by lia. replace (e - e) with 0 by lia.
  change (Z.min (fexp 53 1024 0) 0) with (-53). change (0 - -53) with 53.
  rewrite Z.shiftl_mul_pow2 by lia. rewrite div_eucl_pair.
  replace (Z.pos m * 2 ^ 53 / Z.pos m) with (2 ^ 53)
    by (rewrite Z.mul_comm, Z.div_mul; lia).
  replace ((Z.pos m * 2 ^ 53) mod Z.pos m) with 0
    by (rewrite Z.mul_comm, Z.mod_mul; lia).
  rewrite (proj2 (new_location_exact (Z.pos m) 0) eq_refl).
  vm_compute. reflexivity.
Qed.

(** [0 / p] is +0. *)
Lemma div_zero p : 0 < p < 2 ^ 53 -> div (ofZ 0) (ofZ p) = ofZ 0.
Proof.
  intros Hp. unfold ofZ at 2, binary_normalize.
  destruct p as [|p|p]; try lia.
  by destruct (binary_round_exact false p) as (m & -> & Hm & Hd); [lia|].
Qed.
End PercentFacts.

Module StatsCardsMore.
Import JsNumber DateFns Schema StatsCards JsNumberFacts StatsCardsFacts PercentFacts.

Lemma completedCount_all date hs :
  (forall h, h ∈ hs -> Spec.hasCompletedLog date h) ->
  Spec.completedCount date hs = length hs.
Proof.
  unfold Spec.completedCount. induction hs as [|h hs IH]; intros Hall; [done|].
  rewrite filter_cons. destruct (decide (Spec.hasCompletedLog date h)) as [Hh|Hh].
  - simpl. f_equal. apply IH. intros h' Hin. apply Hall. by right.
  - exfalso. apply Hh, Hall. by left.
Qed.

(** With no habit every card shows zero. *)
Lemma calculateStats_no_habit c : calculateStats c [] = initialStats.
Proof. reflexivity. Qed.

(** X1.  A week without any completion shows 0%, a week in which every habit was
    completed on each of the seven days shows 100%. *)
Lemma weeklyCompletion_extremes c hs :
  (Z.of_nat (length hs) < 2 ^ 32)%Z ->
  (Spec.weekCompleted c hs = 0%nat ->
   weeklyCompletion (calculateStats c hs) = ofZ 0)
  /\ (hs <> [] ->
      (forall i h, (i < 7)%nat -> h ∈ hs -> Spec.hasCompletedLog (format_subDays c i) h) ->
      weeklyCompletion (calculateStats c hs) = ofZ 100).
Proof.
  intros Hlen. rewrite weeklyCompletion_closed. split.
  - intros ->. destruct (Nat.eqb_spec (length hs) 0); [done|].
    unfold ofNat. change (Z.of_nat 0) with 0%Z. rewrite div_zero by lia. reflexivity.
  - intros Hne Hall.
    assert (Hday : forall i, (i < 7)%nat ->
              Spec.completedCount (format_subDays c i) hs = length hs).
    { intros i Hi. apply completedCount_all. intros h Hin. by apply Hall. }
    assert (Hweek : Spec.weekCompleted c hs = (length hs * 7)%nat).
    { unfold Spec.weekCompleted. simpl. rewrite !Hday by lia. lia. }
    rewrite Hweek.
    destruct (Nat.eqb_spec (length hs) 0) as [E|E];
      [by destruct hs|].
    unfold ofNat. rewrite div_self by lia. reflexivity.
Qed.

(** *** What the loops depend on *)

Lemma streakLoop_ext c hs hs' left : forall i acc,
  (forall j, (i <= j < i + left)%nat ->
     existsb (completedOn (format_subDays c j)) hs
     = existsb (completedOn (format_subDays c j)) hs') ->
  streakLoop c hs left i acc = streakLoop c hs' left i acc.
Proof.
  induction left as [|left IH]; intros i acc Hext; [done|]. simpl.
  rewrite <- (Hext i) by lia.
  destruct (existsb (completedOn (format_subDays c i)) hs); [|done].
  apply IH. intros j Hj. apply Hext. lia.
Qed.

Lemma weekLoop_ext c hs hs' left : forall i p q,
  length hs' = length hs ->
  (forall j, (i <= j < i + left)%nat ->
     length (List.filter (completedOn (format_subDays c j)) hs)
     = length (List.filter (completedOn (format_subDays c j)) hs')) ->
  weekLoop c hs left i p q = weekLoop c hs' left i p q.
Proof.
  induction left as [|left IH]; intros i p q Hlen Hext; [done|]. simpl.
  rewrite <- (Hext i), Hlen by lia. apply IH; [done|]. intros j Hj. apply Hext. lia.
Qed.

(** *** The streak does not tell habits apart *)

Lemma some_completedOn_pooled date row hs :
  existsb (completedOn date) hs
  = completedOn date (mkHabit row (concat (map habit_logs hs))).
Proof.
  unfold completedOn. simpl. induction hs as [|h hs IH]; [done|].
  simpl. by rewrite existsb_app, IH.
Qed.

(** The global streak of a list of habits is that of one habit holding
    all their logs. *)
Lemma currentStreak_pooled c row hs :
  currentStreak (calculateStats c hs)
  = currentStreak (calculateStats c [mkHabit row (concat (map habit_logs hs))]).
Proof.
  rewrite !currentStreak_eq. f_equal. apply streakLoop_ext. intros j _.
  rewrite (some_completedOn_pooled _ row). simpl. by rewrite orb_false_r.
Qed.

(** *** More logs never lower a card *)

Lemma completedCount_covers date hs hs' :
  Spec.covers hs hs' -> (Spec.completedCount date hs <= Spec.completedCount date hs')%nat.
Proof.
  unfold Spec.completedCount. induction 1 as [|h h' hs hs' Hh _ IH]; [done|].
  rewrite !filter_cons.
  destruct (decide (Spec.hasCompletedLog date h)) as [H1|H1],
           (decide (Spec.hasCompletedLog date h')) as [H2|H2]; simpl; try lia.
  exfalso. by apply H2, Hh.
Qed.

Lemma streakActive_covers c hs hs' i :
  Spec.covers hs hs' -> Spec.streakActive c hs i -> Spec.streakActive c hs' i.
Proof.
  unfold Spec.streakActive. induction 1 as [|h h' hs hs' Hh _ IH]; [done|].
  rewrite !Exists_cons. intros [H|H]; [left; by apply Hh|right; by apply IH].
Qed.

Lemma currentStreak_le c hs hs' :
  (forall i, Spec.streakActive c hs i -> Spec.streakActive c hs' i) ->
  (currentStreak (calculateStats c hs) <= currentStreak (calculateStats c hs'))%nat.
Proof.
  intros Himp. rewrite !currentStreak_eq.
  destruct (streakLoop_spec c hs 30 0 []) as (k & -> & Hk & Hact & Hstop).
  destruct (streakLoop_spec c hs' 30 0 []) as (k' & -> & Hk' & Hact' & Hstop').
  simpl. destruct (Nat.le_gt_cases k k') as [|Hlt]; [done|].
  exfalso. apply Hstop'; [lia|]. apply Himp, Hact. lia.
Qed.

(** X2.  When logs are added to habits, neither the completed-today count nor
    the current streak goes down; the same holds when a habit is added. *)
Lemma more_logs_never_lower c :
  (forall hs hs', Spec.covers hs hs' ->
     (completedToday (calculateStats c hs) <= completedToday (calculateStats c hs'))%nat
     /\ (currentStreak (calculateStats c hs) <= currentStreak (calculateStats c hs'))%nat)
  /\ (forall h hs,
        (completedToday (calculateStats c hs)
         <= completedToday (calculateStats c (h :: hs)))%nat
        /\ (currentStreak (calculateStats c hs)
            <= currentStreak (calculateStats c (h :: hs)))%nat).
Proof.
  split.
  - intros hs hs' Hc. split.
    + rewrite !completedToday_eq, !filter_completedOn_length.
      by apply completedCount_covers.
    + apply currentStreak_le. intros i. by apply streakActive_covers.
  - intros h hs. split.
    + rewrite !completedToday_eq. simpl. destruct (completedOn _ h); simpl; lia.
    + apply currentStreak_le. intros i Ha. unfold Spec.streakActive.
      rewrite Exists_cons. by right.
Qed.

(** *** Logs that no card reads *)

Lemma completedOn_prune c i h :
  (i < 30)%nat ->
  completedOn (format_subDays c i) (Spec.prune c h) = completedOn (format_subDays c i) h.
Proof.
  intros Hi. unfold completedOn, Spec.prune. simpl.
  apply eq_true_iff_eq. rewrite !existsb_exists. split.
  - intros (log & Hin & Hb). apply filter_In in Hin as [Hin _]. eauto.
  - intros (log & Hin & Hb). exists log. split; [|done].
    apply filter_In. split; [done|].
    apply andb_true_iff in Hb as [Hd Hc]. apply String.eqb_eq in Hd.
    unfold Spec.counted. rewrite Hc, andb_true_l. apply existsb_exists.
    exists (format_subDays c i). split; [|by apply String.eqb_eq].
    apply in_map, in_seq. lia.
Qed.

Lemma filter_completedOn_prune c i hs :
  (i < 30)%nat ->
  length (List.filter (completedOn (format_subDays c i)) (map (Spec.prune c) hs))
  = length (List.filter (completedOn (format_subDays c i)) hs).
Proof.
  intros Hi. induction hs as [|h hs IH]; [done|]. simpl.
  rewrite completedOn_prune by done.
  destruct (completedOn (format_subDays c i) h); simpl; by rewrite IH.
Qed.

Lemma some_completedOn_prune c i hs :
  (i < 30)%nat ->
  existsb (completedOn (format_subDays c i)) (map (Spec.prune c) hs)
  = existsb (completedOn (format_subDays c i)) hs.
Proof.
  intros Hi. induction hs as [|h hs IH]; [done|]. simpl.
  by rewrite completedOn_prune, IH.
Qed.

(** X3.  Dropping every log that is not completed, or that is dated outside the
    thirty trailing days, changes no card. *)
Lemma calculateStats_prune c hs :
  calculateStats c (map (Spec.prune c) hs) = calculateStats c hs.
Proof.
  unfold calculateStats. rewrite length_map.
  rewrite <- (format_subDays_0 c).
  rewrite (filter_completedOn_prune c 0 hs) by lia.
  rewrite (streakLoop_ext c (map (Spec.prune c) hs) hs 30 0 [])
    by (intros j Hj; apply some_completedOn_prune; lia).
  rewrite (weekLoop_ext c (map (Spec.prune c) hs) hs 7 0 0 0);
    [done|by rewrite length_map|].
  intros j Hj. apply filter_completedOn_prune. lia.
Qed.
End StatsCardsMore.

(* ===================================================================== *)
(** ** The store when the transport is up *)
(* ===================================================================== *)

Module TransportUp.
Import Schema Supabase Invariants Views.

Lemma request_up {A} (run : Backend -> Result A * Backend) b :
  transport_up b -> request run b = run b.
Proof. unfold transport_up, request. by intros ->. Qed.

Lemma getUser_up b : transport_up b -> getUser b = (session b, b).
Proof. apply SupabaseFacts.getUser_session. Qed.

Lemma select_active_habits_up uid b :
  transport_up b -> select_active_habits uid b = (Data (activeHabits b uid), b).
Proof. intros H. unfold select_active_habits. by rewrite request_up. Qed.

Lemma select_completed_logs_up hid b :
  transport_up b -> select_completed_logs hid b = (Data (completedLogs b hid), b).
Proof. intros H. unfold select_completed_logs. by rewrite request_up. Qed.

Lemma select_logs_on_up uid date b :
  transport_up b -> select_logs_on uid date b = (Data (logsOn b uid date), b).
Proof. intros H. unfold select_logs_on. by rewrite request_up. Qed.

Lemma select_transactions_up uid b :
  transport_up b -> select_transactions uid b = (Data (transactionsOf b uid), b).
Proof. intros H. unfold select_transactions. by rewrite request_up. Qed.

(** The transport stays up under a change of the rows. *)
Lemma transport_up_set_habit_logs l b : transport_up b -> transport_up (set_habit_logs l b).
Proof. done. Qed.
Lemma transport_up_set_habits l b : transport_up b -> transport_up (set_habits l b).
Proof. done. Qed.
Lemma transport_up_set_transactions l b :
  transport_up b -> transport_up (set_transactions l b).
Proof. done. Qed.
End TransportUp.

(* ===================================================================== *)
(** ** The dashboard page and the habit list *)
(* ===================================================================== *)

Module HabitListFacts.
Import JsNumber DateFns Schema Supabase Js Frame Invariants Views.
Import SupabaseFacts HandlerFacts TransportUp HabitTracker.

(** [fetchHabits] completes normally and ends the loading state, whatever
    the store answers. *)
Lemma fetchHabits_settles (w : World App) :
  exists w', fetchHabits w = (Normal tt, w') /\ loading (page (ui w')) = false.
Proof.
  destruct (getUser (backend w)) as [[uid|] b1] eqn:Hu.
  - rewrite (fetchHabits_user w uid b1 Hu).
    destruct (select_active_habits uid b1) as [[data|msg] b2]; eauto.
  - rewrite (fetchHabits_no_user w b1 Hu). eauto.
Qed.

(** With the transport up and [uid] signed in, [fetchHabits] stores what
    the store shows. *)
Lemma fetchHabits_up (w : World App) uid :
  transport_up (backend w) -> session (backend w) = Some uid ->
  fetchHabits w
  = (Normal tt,
     mkWorld (backend w)
       (with_page (fun _ => mkPage (activeHabits (backend w) uid) false
                                   (showCreateDialog (page (ui w)))) (ui w))
       (trace w ++ [AuthGetUser; DataRequest "habits" "select"])).
Proof.
  intros Hup Hs.
  rewrite (fetchHabits_user w uid (backend w)) by (by rewrite getUser_up, Hs).
  by rewrite select_active_habits_up.
Qed.

Global Instance newer_habit_total : Total newer_habit.
Proof. intros x y. unfold newer_habit. lia. Qed.

(** What the dashboard lists: the habits of the signed-in user that are
    not archived, all of them, newest first, each with the logs that
    reference it. *)
Lemma activeHabits_spec b uid :
  session b = Some uid ->
  (forall row, row ∈ map habit_row (activeHabits b uid)
               <-> row ∈ db_habits b /\ habit_user_id row = uid
                   /\ habit_is_archived row = false)
  /\ Sorted newer_habit (map habit_row (activeHabits b uid))
  /\ (forall h, h ∈ activeHabits b uid ->
        forall l, l ∈ habit_logs h
                  <-> l ∈ db_habit_logs b /\ log_habit_id l = habit_id (habit_row h)
                      /\ log_user_id l = uid).
Proof.
  intros Hs.
  assert (Huid : forall o, is_uid b o = true <-> o = uid).
  { intros o. unfold is_uid. rewrite Hs. rewrite String.eqb_eq. split; congruence. }
  assert (Hrows : map habit_row (activeHabits b uid)
                  = merge_sort newer_habit
                      (List.filter (fun h => is_uid b (habit_user_id h)
                                             && String.eqb (habit_user_id h) uid
                                             && negb (habit_is_archived h))
                                   (db_habits b))).
  { unfold activeHabits. rewrite map_map. simpl. apply map_id. }
  split; [|split].
  - intros row. rewrite Hrows, merge_sort_Permutation, list_elem_of_In, filter_In.
    rewrite <- list_elem_of_In, !andb_true_iff, Huid, String.eqb_eq, negb_true_iff.
    tauto.
  - rewrite Hrows. apply Sorted_merge_sort. apply _.
  - intros h Hin l. unfold activeHabits in Hin.
    apply list_elem_of_fmap in Hin as (row & -> & _). simpl.
    unfold nested_logs. rewrite list_elem_of_In, filter_In, <- list_elem_of_In.
    rewrite andb_true_iff, String.eqb_eq, Huid. tauto.
Qed.

(** [toggleHabit] with nobody signed in: one identity fetch, and nothing
    else, not even a message. *)
Lemma toggleHabit_signed_out env onUpdate habitId (w : World App) b' :
  getUser (backend w) = (None, b') ->
  toggleHabit env onUpdate habitId w
  = (Normal tt, mkWorld b' (ui w) (trace w ++ [AuthGetUser])).
Proof. intros Hu. unfold toggleHabit. run. by rewrite Hu. Qed.

(** *** [calculateStreaks] *)

Lemma calculateStreaks_loop c (hs : list Habit) : forall (acc : gmap string nat) (w : World App),
  transport_up (backend w) ->
  forOf hs acc
    (fun streaksMap habit =>
       bind (await (DataRequest "habit_logs" "select")
               (select_completed_logs (habit_id (habit_row habit))))
            (fun r =>
               ret (<[habit_id (habit_row habit)
                      := match r with
                         | Data logs => streakOver c logs 0
                         | Error _ => 0%nat
                         end]> streaksMap))) w
  = (Normal (streaksOf c (backend w) hs acc),
     mkWorld (backend w) (ui w)
       (trace w ++ replicate (length hs) (DataRequest "habit_logs" "select"))).
Proof.
  induction hs as [|h hs IH]; intros acc w Hup; simpl.
  - unfold ret. rewrite app_nil_r. by destruct w.
  - unfold bind at 1. unfold bind at 1. unfold await at 1.
    rewrite select_completed_logs_up by done. unfold ret at 1.
    rewrite IH by done. cbn [backend ui trace].
    by rewrite <- app_assoc.
Qed.

(** With the transport up and a user signed in, [calculateStreaks] stores,
    for every habit of the list, the streak of its completed logs taken
    latest first. *)
Lemma calculateStreaks_up env (w : World App) uid :
  transport_up (backend w) -> session (backend w) = Some uid ->
  calculateStreaks env w
  = (Normal tt,
     mkWorld (backend w)
       (with_hlist
          (fun l => mkList (todayLogs l)
                      (streaksOf (clock env) (backend w) (habits (page (ui w))) ∅)
                      (editingHabit l) (deletingHabit l)) (ui w))
       (trace w ++ AuthGetUser
          :: replicate (length (habits (page (ui w)))) (DataRequest "habit_logs" "select"))).
Proof.
  intros Hup Hs. unfold calculateStreaks, try_catch.
  unfold bind at 1. unfold await at 1. rewrite getUser_up, Hs by done.
  unfold bind at 1. unfold getState at 1. cbn [ui].
  unfold bind at 1.
  rewrite (calculateStreaks_loop (clock env) (habits (page (ui w))) ∅
             (mkWorld (backend w) (ui w) (trace w ++ [AuthGetUser]))) by done.
  unfold setStreaks, modify. cbn [backend ui trace].
  by rewrite <- app_assoc.
Qed.

Lemma streaksOf_lookup c b hs : forall acc hid,
  streaksOf c b hs acc !! hid
  = if existsb (fun h => String.eqb (habit_id (habit_row h)) hid) hs
    then Some (streakOver c (completedLogs b hid) 0)
    else acc !! hid.
Proof.
  unfold streaksOf. induction hs as [|h hs IH]; intros acc hid; [done|].
  simpl. rewrite IH.
  destruct (existsb _ hs) eqn:E; [by rewrite orb_true_r|].
  rewrite orb_false_r. destruct (String.eqb_spec (habit_id (habit_row h)) hid) as [->|Hne].
  - by rewrite lookup_insert_eq.
  - by rewrite lookup_insert_ne.
Qed.
End HabitListFacts.

Module ToggleFacts.
Import JsNumber DateFns Schema Supabase Js Frame Invariants Views.
Import SupabaseFacts HandlerFacts TransportUp HabitTracker HabitListFacts.

(** When the insert of a log is accepted. *)
Lemma insert_log_up id ts hid uid date completed b :
  transport_up b -> session b = Some uid ->
  (forall l, l ∈ db_habit_logs b -> log_id l <> id) ->
  (forall l, l ∈ db_habit_logs b ->
     ~ (log_habit_id l = hid /\ log_user_id l = uid /\ log_date l = date)) ->
  (exists h, h ∈ db_habits b /\ habit_id h = hid) ->
  has_profile b uid = true ->
  insert_log id ts hid uid date completed b
  = (Data tt,
     set_habit_logs (db_habit_logs b ++ [mkHabitLog id hid uid date completed None ts]) b).
Proof.
  intros Hup Hs Hfresh Hnew (h & Hh & Hid) Hp.
  unfold insert_log. rewrite request_up by done.
  unfold is_uid. rewrite Hs, String.eqb_refl. simpl.
  assert (existsb (fun l => String.eqb (log_id l) id) (db_habit_logs b) = false) as ->.
  { apply not_true_is_false. rewrite existsb_exists. intros (l & Hin & He).
    apply String.eqb_eq in He. apply (Hfresh l); [by apply list_elem_of_In|done]. }
  assert (existsb (fun l => String.eqb (log_habit_id l) hid
                      && String.eqb (log_user_id l) uid
                      && String.eqb (log_date l) date) (db_habit_logs b) = false) as ->.
  { apply not_true_is_false. rewrite existsb_exists. intros (l & Hin & He).
    rewrite !andb_true_iff, !String.eqb_eq in He.
    apply (Hnew l); [by apply list_elem_of_In|tauto]. }
  assert (existsb (fun h => String.eqb (habit_id h) hid) (db_habits b) = true) as ->.
  { apply existsb_exists. exists h. split; [by apply list_elem_of_In|by apply String.eqb_eq]. }
  by rewrite Hp.
Qed.

Lemma delete_log_up hid uid date b :
  transport_up b ->
  delete_log hid uid date b
  = (Data tt,
     set_habit_logs
       (List.filter (fun l => negb (is_uid b (log_user_id l)
                                    && String.eqb (log_habit_id l) hid
                                    && String.eqb (log_user_id l) uid
                                    && String.eqb (log_date l) date))
                    (db_habit_logs b)) b).
Proof. intros Hup. unfold delete_log. by rewrite request_up. Qed.

Lemma refresh_up env uid b app tr :
  transport_up b -> session b = Some uid ->
  bind (spawn (calculateStreaks env)) (fun _ => spawn fetchHabits) (mkWorld b app tr)
  = (Normal tt, afterRefresh env uid b app tr).
Proof.
  intros Hup Hs. unfold bind, spawn.
  rewrite (calculateStreaks_up env (mkWorld b app tr) uid) by done.
  cbn [snd backend ui trace].
  rewrite (fetchHabits_up _ uid) by done. cbn [snd backend ui trace].
  unfold afterRefresh. f_equal. f_equal.
  by rewrite <- !app_assoc.
Qed.

(** Ticking a habit that is not ticked: the log of today is stored, the
    box is ticked, the success toast shown, and the list refreshed. *)
Lemma toggleHabit_tick env habitId (w : World App) uid :
  transport_up (backend w) -> session (backend w) = Some uid ->
  isCompleted (ui w) habitId = false ->
  (forall l, l ∈ db_habit_logs (backend w) -> log_id l <> uuid env) ->
  (forall l, l ∈ db_habit_logs (backend w) ->
     ~ (log_habit_id l = habitId /\ log_user_id l = uid /\ log_date l = today env)) ->
  (exists h, h ∈ db_habits (backend w) /\ habit_id h = habitId) ->
  has_profile (backend w) uid = true ->
  HabitList_toggleHabit env habitId w
  = (Normal tt,
     afterRefresh env uid
       (set_habit_logs
          (db_habit_logs (backend w)
             ++ [mkHabitLog (uuid env) habitId uid (today env) true None
                            (now_ms (clock env))]) (backend w))
       (with_hlist (fun l => mkList (<[habitId := true]> (todayLogs l)) (streaks l)
                               (editingHabit l) (deletingHabit l)) (ui w))
       (trace w ++ [AuthGetUser; DataRequest "habit_logs" "insert";
                    ToastSuccess "Great job! Habit completed!"])).
Proof.
  intros Hup Hs Hc Hfresh Hnew Hh Hp.
  unfold HabitList_toggleHabit, toggleHabit, try_catch.
  unfold bind at 1. unfold await at 1. rewrite getUser_up, Hs by done.
  unfold bind at 1. unfold getState at 1. cbn [ui].
  rewrite Hc. unfold bind at 1. unfold bind at 1. unfold await at 1.
  cbn [backend ui trace].
  rewrite (insert_log_up _ _ _ uid) by done.
  unfold bind at 1. unfold setTodayLogs, modify, toastSuccess, emit.
  cbn [backend ui trace].
  rewrite (refresh_up env uid) by done.
  by rewrite <- !app_assoc.
Qed.

(** Unticking a ticked habit: the logs of today for it are deleted, the box
    is cleared, and the list refreshed. *)
Lemma toggleHabit_untick env habitId (w : World App) uid :
  transport_up (backend w) -> session (backend w) = Some uid ->
  isCompleted (ui w) habitId = true ->
  HabitList_toggleHabit env habitId w
  = (Normal tt,
     afterRefresh env uid
       (set_habit_logs
          (List.filter (fun l => negb (is_uid (backend w) (log_user_id l)
                                       && String.eqb (log_habit_id l) habitId
                                       && String.eqb (log_user_id l) uid
                                       && String.eqb (log_date l) (today env)))
                       (db_habit_logs (backend w))) (backend w))
       (with_hlist (fun l => mkList (<[habitId := false]> (todayLogs l)) (streaks l)
                               (editingHabit l) (deletingHabit l)) (ui w))
       (trace w ++ [AuthGetUser; DataRequest "habit_logs" "delete";
                    ToastSuccess "Habit unchecked for today"])).
Proof.
  intros Hup Hs Hc.
  unfold HabitList_toggleHabit, toggleHabit, try_catch.
  unfold bind at 1. unfold await at 1. rewrite getUser_up, Hs by done.
  unfold bind at 1. unfold getState at 1. cbn [ui].
  rewrite Hc. unfold bind at 1. unfold bind at 1. unfold await at 1.
  cbn [backend ui trace].
  rewrite delete_log_up by done.
  unfold bind at 1. unfold setTodayLogs, modify, toastSuccess, emit.
  cbn [backend ui trace].
  rewrite (refresh_up env uid) by done.
  by rewrite <- !app_assoc.
Qed.

(** X13.  A tick and then an untick of the same habit.  Each click sends
    [today] of the render it came from.  When both renders were on the same
    local date, the delete removes the log the insert stored, and the logs
    of the store are as they were.  When midnight fell between the two
    renders, the delete asks for the new date and the log of the tick,
    dated the day before, stays in the store.  The box is cleared either
    way. *)
Lemma toggleHabit_tick_untick env env' habitId (w : World App) uid :
  transport_up (backend w) -> session (backend w) = Some uid ->
  isCompleted (ui w) habitId = false ->
  (forall l, l ∈ db_habit_logs (backend w) -> log_id l <> uuid env) ->
  (forall l, l ∈ db_habit_logs (backend w) ->
     ~ (log_habit_id l = habitId /\ log_user_id l = uid /\ log_date l = today env)) ->
  (exists h, h ∈ db_habits (backend w) /\ habit_id h = habitId) ->
  has_profile (backend w) uid = true ->
  let w' := exec (HabitList_toggleHabit env' habitId)
                 (exec (HabitList_toggleHabit env habitId) w) in
  isCompleted (ui w') habitId = false
  /\ (today env' = today env -> db_habit_logs (backend w') = db_habit_logs (backend w))
  /\ (today env' <> today env ->
      (forall l, l ∈ db_habit_logs (backend w) ->
         ~ (log_habit_id l = habitId /\ log_user_id l = uid
            /\ log_date l = today env')) ->
      db_habit_logs (backend w')
      = db_habit_logs (backend w)
          ++ [mkHabitLog (uuid env) habitId uid (today env) true None
                         (now_ms (clock env))]).
Proof.
  intros Hup Hs Hc Hfresh Hnew Hh Hp. cbv zeta. unfold exec.
  rewrite (toggleHabit_tick env habitId w uid) by done. cbn [snd].
  rewrite (toggleHabit_untick env' habitId _ uid);
    [| done | done
     | unfold isCompleted, afterRefresh, with_page, with_hlist;
       cbn [ui hlist todayLogs]; by rewrite lookup_insert_eq].
  cbn [snd]. unfold afterRefresh, with_page, with_hlist.
  cbn [backend ui hlist todayLogs db_habit_logs set_habit_logs session].
  assert (Hset : forall l b, session (set_habit_logs l b) = session b) by done.
  split; [|split].
  - unfold isCompleted. cbn [ui hlist todayLogs]. by rewrite lookup_insert_eq.
  - intros Hday. rewrite List.filter_app.
    cbn [List.filter log_habit_id log_user_id log_date].
    unfold is_uid.
    rewrite !Hset, Hs, Hday, !String.eqb_refl.
    cbn [andb negb]. rewrite app_nil_r.
    apply forallb_filter_id, forallb_forall. intros l Hin.
    apply negb_true_iff, not_true_is_false. rewrite !andb_true_iff, !String.eqb_eq.
    intros [[[_ H1] H2] H3]. apply (Hnew l); [by apply list_elem_of_In|done].
  - intros Hday Hnew'. rewrite List.filter_app.
    cbn [List.filter log_habit_id log_user_id log_date].
    unfold is_uid.
    rewrite !Hset, Hs, !String.eqb_refl.
    destruct (String.eqb_spec (today env) (today env')) as [E|_]; [by rewrite E in Hday|].
    cbn [andb negb]. f_equal.
    apply forallb_filter_id, forallb_forall. intros l Hin.
    apply negb_true_iff, not_true_is_false. rewrite !andb_true_iff, !String.eqb_eq.
    intros [[[_ H1] H2] H3]. apply (Hnew' l); [by apply list_elem_of_In|done].
Qed.

End ToggleFacts.

Module TodayLogsFacts.
Import JsNumber DateFns Schema Supabase Js Frame Invariants Views.
Import SupabaseFacts HandlerFacts TransportUp HabitTracker.

(** With the transport up and [uid] signed in, [fetchTodayLogs] stores the
    map of the logs of today. *)
Lemma fetchTodayLogs_up env (w : World App) uid :
  transport_up (backend w) -> session (backend w) = Some uid ->
  fetchTodayLogs env w
  = (Normal tt,
     mkWorld (backend w)
       (with_hlist (fun l => mkList (todayLogsOf (logsOn (backend w) uid (today env)))
                               (streaks l) (editingHabit l) (deletingHabit l)) (ui w))
       (trace w ++ [AuthGetUser; DataRequest "habit_logs" "select"])).
Proof.
  intros Hup Hs. unfold fetchTodayLogs, try_catch.
  unfold bind at 1. unfold await at 1. rewrite getUser_up, Hs by done.
  unfold bind at 1. unfold await at 1. cbn [backend ui trace].
  rewrite select_logs_on_up by done.
  unfold setTodayLogs, modify. cbn [backend ui trace].
  by rewrite <- !app_assoc.
Qed.

Lemma fold_insert_lookup (l : list HabitLog) : forall (acc : gmap string bool) k c,
  NoDup (map log_habit_id l) ->
  fold_left (fun m log => <[log_habit_id log := log_completed log]> m) l acc !! k = Some c
  <-> (exists x, x ∈ l /\ log_habit_id x = k /\ log_completed x = c)
      \/ ((forall x, x ∈ l -> log_habit_id x <> k) /\ acc !! k = Some c).
Proof.
  induction l as [|x r IH]; intros acc k c Hnd; simpl.
  - split; [intros H; right; split; [intros x Hx; by apply elem_of_nil in Hx|done]|].
    intros [(x & Hx & _)|[_ H]]; [by apply elem_of_nil in Hx|done].
  - apply NoDup_cons in Hnd as [Hx Hnd]. rewrite (IH _ k c Hnd).
    destruct (decide (log_habit_id x = k)) as [<-|Hne].
    + rewrite lookup_insert_eq. split.
      * intros [(y & Hy & Hk & Hc)|[_ [= <-]]].
        -- exfalso. apply Hx. rewrite <- Hk. apply list_elem_of_fmap. eauto.
        -- left. exists x. split; [left|done].
      * intros [(y & Hy & Hk & Hc)|[Hnone _]].
        -- apply elem_of_cons in Hy as [->|Hy]; [right; split; [|by rewrite Hc]|].
           ++ intros z Hz Hzk. apply Hx. rewrite <- Hzk. apply list_elem_of_fmap. eauto.
           ++ exfalso. apply Hx. rewrite <- Hk. apply list_elem_of_fmap. eauto.
        -- exfalso. apply (Hnone x); [left|done].
    + rewrite lookup_insert_ne by done. split.
      * intros [(y & Hy & Hk & Hc)|[Hnone Hacc]].
        -- left. exists y. split; [by right|done].
        -- right. split; [|done]. intros z Hz.
           apply elem_of_cons in Hz as [->|Hz]; [done|by apply Hnone].
      * intros [(y & Hy & Hk & Hc)|[Hnone Hacc]].
        -- apply elem_of_cons in Hy as [->|Hy]; [done|]. left. eauto.
        -- right. split; [|done]. intros z Hz. apply Hnone. by right.
Qed.

Lemma logsOn_NoDup b uid date :
  unique_logs b -> NoDup (map log_habit_id (logsOn b uid date)).
Proof.
  unfold unique_logs, logsOn. induction (db_habit_logs b) as [|x r IH]; simpl.
  - intros _. apply NoDup_nil_2.
  - intros Hnd. apply NoDup_cons in Hnd as [Hx Hnd].
    destruct (is_uid b (log_user_id x) && String.eqb (log_user_id x) uid
              && String.eqb (log_date x) date) eqn:E; [|by apply IH].
    simpl. apply NoDup_cons. split; [|by apply IH].
    intros Hin. apply list_elem_of_fmap in Hin as (y & Hk & Hy).
    apply list_elem_of_In, filter_In in Hy as [Hy Ey].
    apply Hx. apply list_elem_of_fmap. exists y. split; [|by apply list_elem_of_In].
    rewrite !andb_true_iff, !String.eqb_eq in E, Ey.
    destruct E as [[_ Eu] Ed], Ey as [[_ Eyu] Eyd]. unfold log_key. congruence.
Qed.

(** In a store that keeps the uniqueness constraint, the map of today's
    logs has a habit at [c] exactly when the user's log of that habit for
    that date has completed flag [c]. *)
Lemma todayLogsOf_spec b uid date hid c :
  unique_logs b -> session b = Some uid ->
  todayLogsOf (logsOn b uid date) !! hid = Some c
  <-> exists l, l ∈ db_habit_logs b /\ log_habit_id l = hid /\ log_user_id l = uid
                /\ log_date l = date /\ log_completed l = c.
Proof.
  intros Hu Hs. unfold todayLogsOf.
  rewrite fold_insert_lookup by (by apply logsOn_NoDup).
  rewrite lookup_empty.
  assert (Hin : forall l, l ∈ logsOn b uid date
                <-> l ∈ db_habit_logs b /\ log_user_id l = uid /\ log_date l = date).
  { intros l. unfold logsOn. rewrite list_elem_of_In, filter_In, <- list_elem_of_In.
    rewrite !andb_true_iff, !String.eqb_eq. unfold is_uid. rewrite Hs, String.eqb_eq.
    split; [tauto|]. intros (H1 & H2 & H3). repeat split; congruence. }
  split.
  - intros [(x & Hx & Hk & Hc)|[_ ?]]; [|done].
    apply Hin in Hx as (H1 & H2 & H3). eauto 10.
  - intros (l & H1 & Hk & H2 & H3 & Hc). left. exists l. split; [|done].
    apply Hin. done.
Qed.
End TodayLogsFacts.

Module DialogFacts.
Import JsNumber DateFns Schema Supabase Js Frame Invariants Views.
Import SupabaseFacts HandlerFacts TransportUp ArchiveFacts HabitTracker HabitListFacts.

(** A habit that has just been archived is not among the habits the store
    shows. *)
Lemma archived_not_shown hid b uid h :
  session b = Some uid ->
  h ∈ activeHabits
        (set_habits
           (map (fun h => if is_uid b (habit_user_id h) && String.eqb (habit_id h) hid
                          then archived h else h) (db_habits b)) b) uid ->
  habit_id (habit_row h) <> hid.
Proof.
  intros Hs Hin Hid. unfold activeHabits in Hin.
  apply list_elem_of_fmap in Hin as (row & -> & Hin).
  rewrite merge_sort_Permutation in Hin.
  apply list_elem_of_In, filter_In in Hin as [Hin Hc]. simpl in Hid, Hin.
  apply in_map_iff in Hin as (h0 & Hrow & Hin).
  rewrite !andb_true_iff, negb_true_iff in Hc. destruct Hc as [[Hown _] Harch].
  change (is_uid (set_habits _ b) (habit_user_id row))
    with (is_uid b (habit_user_id row)) in Hown.
  destruct (is_uid b (habit_user_id h0) && String.eqb (habit_id h0) hid) eqn:E.
  - subst row. simpl in Harch. discriminate.
  - subst row. rewrite Hown in E. simpl in E. apply String.eqb_neq in E. done.
Qed.

(** The run of the dialog's [handleDelete] with the transport up: one
    update on [habits], then the refetch of [onSuccess]. *)
Lemma handleDelete_run habitId (w : World App) uid :
  transport_up (backend w) -> session (backend w) = Some uid ->
  exists w',
    DeleteHabitDialog_handleDelete habitId w = (Normal tt, w')
    /\ backend w'
       = set_habits
           (map (fun h => if is_uid (backend w) (habit_user_id h)
                             && String.eqb (habit_id h) habitId
                          then archived h else h) (db_habits (backend w)))
           (backend w)
    /\ habits (page (ui w')) = activeHabits (backend w') uid.
Proof.
  intros Hup Hs. eexists. split.
  - unfold DeleteHabitDialog_handleDelete, handleDelete, deleteDialog_onSuccess,
      deleteDialog_onOpenChange, setArchiving, setDeletingHabit, try_finally, try_catch.
    unfold bind at 1. unfold modify at 1. unfold bind at 1. unfold await at 1.
    cbn [backend ui trace]. unfold archive_habit. rewrite request_up by done.
    unfold bind at 1. unfold toastSuccess, emit. cbn [backend ui trace].
    unfold bind at 1. unfold bind at 1. unfold modify at 1. cbn [backend ui trace].
    unfold spawn.
    rewrite (fetchHabits_up _ uid) by done. cbn [snd negb backend ui trace].
    unfold modify. cbn [backend ui trace]. reflexivity.
  - cbn [backend ui trace]. unfold with_archiving, with_hlist, with_page.
    cbn [page habits]. done.
Qed.

(** X15.  The delete dialog, confirmed with the transport up: the habit is
    archived, the success toast shown, the list refetched without the
    habit, and the dialog closed; ticks and streaks are not touched. *)
Lemma handleDelete_up habitId (w : World App) uid :
  transport_up (backend w) -> session (backend w) = Some uid ->
  exists w',
    DeleteHabitDialog_handleDelete habitId w = (Normal tt, w')
    /\ db_habits (backend w')
       = map (fun h => if is_uid (backend w) (habit_user_id h)
                          && String.eqb (habit_id h) habitId
                       then archived h else h) (db_habits (backend w))
    /\ db_habit_logs (backend w') = db_habit_logs (backend w)
    /\ trace w' = trace w ++ [DataRequest "habits" "update";
                              ToastSuccess "Habit archived successfully";
                              AuthGetUser; DataRequest "habits" "select"]
    /\ habits (page (ui w')) = activeHabits (backend w') uid
    /\ (forall h, h ∈ habits (page (ui w')) -> habit_id (habit_row h) <> habitId)
    /\ deletingHabit (hlist (ui w')) = None
    /\ archiving (ui w') = false
    /\ todayLogs (hlist (ui w')) = todayLogs (hlist (ui w))
    /\ streaks (hlist (ui w')) = streaks (hlist (ui w)).
Proof.
  intros Hup Hs. eexists. split.
  - unfold DeleteHabitDialog_handleDelete, handleDelete, deleteDialog_onSuccess,
      deleteDialog_onOpenChange, setArchiving, setDeletingHabit, try_finally, try_catch.
    unfold bind at 1. unfold modify at 1. unfold bind at 1. unfold await at 1.
    cbn [backend ui trace]. unfold archive_habit. rewrite request_up by done.
    unfold bind at 1. unfold toastSuccess, emit. cbn [backend ui trace].
    unfold bind at 1. unfold bind at 1. unfold modify at 1. cbn [backend ui trace].
    unfold spawn.
    rewrite (fetchHabits_up _ uid) by done. cbn [snd negb backend ui trace].
    unfold modify. cbn [backend ui trace]. reflexivity.
  - cbn [backend ui trace]. unfold with_archiving, with_hlist, with_page.
    cbn [page hlist archiving habits deletingHabit todayLogs streaks
         db_habits db_habit_logs set_habits backend].
    repeat split; try done.
    + by rewrite <- !app_assoc.
    + intros h Hin. by apply (archived_not_shown habitId (backend w) uid h).
Qed.

(** Closing the dialog without confirming sends nothing. *)
Lemma deleteDialog_cancel (w : World App) :
  deleteDialog_onOpenChange false w
  = (Normal tt,
     mkWorld (backend w)
       (with_hlist (fun l => mkList (todayLogs l) (streaks l) (editingHabit l) None) (ui w))
       (trace w)).
Proof. reflexivity. Qed.
End DialogFacts.

(* ===================================================================== *)
(** ** Archiving a habit *)
(* ===================================================================== *)

Section Archiving.
Import JsNumber DateFns Schema Supabase Js Frame Invariants Views.
Import SupabaseFacts HandlerFacts TransportUp ArchiveFacts HabitTracker HabitListFacts.
Import DialogFacts.

(** C9.  Archiving is a soft delete.  The delete dialog of [habitId] is
    confirmed by the signed-in user, with the transport up; [w'] is the
    world its [handleDelete] leaves, the refetch of [onSuccess] included.
    No habit row is added or removed, and a row is either as before or a
    row of that habit and of the user, set to archived with every other
    column as before; every row of that habit and the user is archived.
    The logs are all there, unchanged.  The habit is not on the list the
    dialog has refetched, nor on the list of the next [fetchHabits]; and
    the select of completed logs by habit id still answers with the
    user's completed logs of the habit, all of them. *)
Theorem archive_is_soft_delete (habitId : string) (w : World App) (uid : string) :
  transport_up (backend w) -> session (backend w) = Some uid ->
  let w' := exec (DeleteHabitDialog_handleDelete habitId) w in
  Forall2 (fun h h' => h' = h
                       \/ (habit_id h = habitId /\ habit_user_id h = uid
                           /\ habit_is_archived h' = true /\ same_but_archived h h'))
          (db_habits (backend w)) (db_habits (backend w'))
  /\ (forall h', h' ∈ db_habits (backend w') -> habit_id h' = habitId ->
        habit_user_id h' = uid -> habit_is_archived h' = true)
  /\ db_habit_logs (backend w') = db_habit_logs (backend w)
  /\ (forall h, h ∈ habits (page (ui w')) -> habit_id (habit_row h) <> habitId)
  /\ (forall h, h ∈ habits (page (ui (exec fetchHabits w'))) ->
        habit_id (habit_row h) <> habitId)
  /\ (exists logs,
        select_completed_logs habitId (backend w') = (Data logs, backend w')
        /\ forall l, l ∈ logs
                     <-> l ∈ db_habit_logs (backend w) /\ log_habit_id l = habitId
                         /\ log_user_id l = uid /\ log_completed l = true).
Proof.
  intros Hup Hs. cbv zeta.
  destruct (handleDelete_run habitId w uid Hup Hs) as (w' & Hrun & Hb & Hlist).
  assert (Hw : exec (DeleteHabitDialog_handleDelete habitId) w = w')
    by (unfold exec; by rewrite Hrun).
  rewrite Hw. clear Hw Hrun.
  assert (Hup' : transport_up (backend w')) by (by rewrite Hb).
  assert (Hs' : session (backend w') = Some uid) by (by rewrite Hb).
  assert (Huid : forall o, is_uid (backend w) o = true <-> o = uid).
  { intros o. unfold is_uid. rewrite Hs, String.eqb_eq. split; congruence. }
  assert (Hshown : forall h, h ∈ activeHabits (backend w') uid ->
                             habit_id (habit_row h) <> habitId).
  { intros h Hin. rewrite Hb in Hin.
    by apply (archived_not_shown habitId (backend w) uid h). }
  split; [|split; [|split; [|split; [|split]]]].
  - rewrite Hb. cbn [db_habits set_habits].
    apply Forall2_fmap_r, Forall_Forall2_diag, Forall_forall.
    intros h _. unfold compose.
    destruct (is_uid (backend w) (habit_user_id h) && String.eqb (habit_id h) habitId)
      eqn:E; [|by left].
    right. apply andb_true_iff in E as [Eu E].
    apply String.eqb_eq in E. apply Huid in Eu.
    split; [done|]. split; [done|]. split; [done|]. apply archived_same_but_archived.
  - intros h' Hin Hid Hown. rewrite Hb in Hin. cbn [db_habits set_habits] in Hin.
    apply list_elem_of_fmap in Hin as (h & -> & Hin).
    destruct (is_uid (backend w) (habit_user_id h) && String.eqb (habit_id h) habitId)
      eqn:E; [reflexivity|].
    apply andb_false_iff in E as [E|E].
    + apply Huid in Hown. congruence.
    + apply String.eqb_neq in E. done.
  - by rewrite Hb.
  - rewrite Hlist. apply Hshown.
  - unfold exec. rewrite (fetchHabits_up w' uid) by done.
    cbn [snd ui]. unfold with_page. cbn [page habits]. apply Hshown.
  - exists (completedLogs (backend w') habitId).
    split; [by apply select_completed_logs_up|].
    intros l. rewrite Hb. unfold completedLogs. cbn [db_habit_logs set_habits].
    rewrite merge_sort_Permutation, list_elem_of_In, filter_In, <- list_elem_of_In.
    change (is_uid (set_habits _ (backend w))) with (is_uid (backend w)).
    rewrite !andb_true_iff, String.eqb_eq, Huid. tauto.
Qed.

(** Alice archives "Run" from the loaded dashboard. *)
Lemma archive_is_soft_delete_witness :
  let w := mkWorld Examples.store Examples.loadedApp [] in
  let w' := exec (DeleteHabitDialog_handleDelete "h-run") w in
  Forall2 (fun h h' => h' = h
                       \/ (habit_id h = "h-run" /\ habit_user_id h = Examples.alice
                           /\ habit_is_archived h' = true /\ same_but_archived h h'))
          (db_habits (backend w)) (db_habits (backend w'))
  /\ (forall h', h' ∈ db_habits (backend w') -> habit_id h' = "h-run" ->
        habit_user_id h' = Examples.alice -> habit_is_archived h' = true)
  /\ db_habit_logs (backend w') = db_habit_logs (backend w)
  /\ (forall h, h ∈ habits (page (ui w')) -> habit_id (habit_row h) <> "h-run")
  /\ (forall h, h ∈ habits (page (ui (exec fetchHabits w'))) ->
        habit_id (habit_row h) <> "h-run")
  /\ (exists logs,
        select_completed_logs "h-run" (backend w') = (Data logs, backend w')
        /\ forall l, l ∈ logs
                     <-> l ∈ db_habit_logs (backend w) /\ log_habit_id l = "h-run"
                         /\ log_user_id l = Examples.alice /\ log_completed l = true).
Proof.
  apply (archive_is_soft_delete "h-run" (mkWorld Examples.store Examples.loadedApp [])
           Examples.alice).
  - reflexivity.
  - reflexivity.
Defined.
End Archiving.

Module FormDialogFacts.
Import JsNumber DateFns Schema Supabase Js Frame Invariants Views.
Import SupabaseFacts HandlerFacts TransportUp HabitTracker HabitListFacts.

(** The create dialog submitted with nobody signed in, or without a
    category of the list selected: an error toast, no write, and the
    dialog stays as it is. *)
Lemma createHabit_guards env (w : World App) :
  (forall b', getUser (backend w) = (None, b') ->
     CreateHabitDialog_handleSubmit env w
     = (Normal tt,
        mkWorld b' (with_createDlg (setSubmitting false) (ui w))
          (trace w ++ [AuthGetUser; ToastError "You must be logged in"])))
  /\ (forall uid b1, getUser (backend w) = (Some uid, b1) ->
        selectedCategory (ui w) = None ->
        CreateHabitDialog_handleSubmit env w
        = (Normal tt,
           mkWorld b1 (with_createDlg (setSubmitting false) (ui w))
             (trace w ++ [AuthGetUser; ToastError "Please select a category"]))).
Proof.
  split.
  - intros b' Hu. unfold CreateHabitDialog_handleSubmit, createHabit_handleSubmit. run.
    rewrite Hu. cbn [backend ui trace fst snd]. by rewrite <- !app_assoc.
  - intros uid b1 Hu Hc. unfold CreateHabitDialog_handleSubmit, createHabit_handleSubmit.
    run. rewrite Hu. cbn [backend ui trace fst snd].
    unfold selectedCategory in Hc. cbn [ui with_createDlg createDlg categories formData
                                          setSubmitting] in *.
    rewrite Hc. cbn [backend ui trace fst snd]. by rewrite <- !app_assoc.
Qed.

Lemma insert_habit_error_frame id ts uid name descr cat color icon freq tc b msg b' :
  insert_habit id ts uid name descr cat color icon freq tc b = (Error msg, b') ->
  same_data b b'.
Proof.
  apply request_error_frame. intros b0 m b1.
  repeat (match goal with |- context [if ?c then _ else _] => destruct c end);
    by intros [= <-].
Qed.

(** X18.  The create dialog when the insert is refused: the message is shown,
    the dialog stays open with its form, and the rows are as before. *)
Lemma createHabit_refused env (w : World App) uid b1 cat msg b2 :
  getUser (backend w) = (Some uid, b1) ->
  selectedCategory (ui w) = Some cat ->
  createRequest env uid (formData (createDlg (ui w))) cat b1 = (Error msg, b2) ->
  CreateHabitDialog_handleSubmit env w
  = (Normal tt,
     mkWorld b2 (with_createDlg (setSubmitting false) (ui w))
       (trace w ++ [AuthGetUser; DataRequest "habits" "insert"; ToastError msg]))
  /\ same_data (backend w) b2.
Proof.
  intros Hu Hc Hr. split.
  - unfold CreateHabitDialog_handleSubmit, createHabit_handleSubmit. run.
    rewrite Hu. cbn [backend ui trace fst snd].
    unfold selectedCategory in Hc. unfold createRequest in Hr.
    cbn [ui with_createDlg createDlg categories formData setSubmitting] in *.
    rewrite Hc. cbn [backend ui trace fst snd]. rewrite Hr.
    cbn [backend ui trace fst snd]. by rewrite <- !app_assoc.
  - apply same_data_trans with b1; [by apply getUser_same_data in Hu|].
    by apply insert_habit_error_frame in Hr.
Qed.

(** The foreign key of [habits.user_id] refuses the row of a user who has
    no row in [profiles]. *)
Lemma insert_habit_without_profile id ts uid name descr cat color icon freq tc b :
  transport_up b -> session b = Some uid -> frequency_ok freq = true ->
  (forall h, h ∈ db_habits b -> habit_id h <> id) ->
  has_profile b uid = false ->
  insert_habit id ts uid name descr cat color icon freq tc b
  = (Error (fkey_violation "habits" "user_id"), b).
Proof.
  intros Hup Hs Hf Hfresh Hp. unfold insert_habit. rewrite request_up by done.
  unfold is_uid. rewrite Hs, String.eqb_refl, Hf, Hp. simpl.
  assert (existsb (fun h => String.eqb (habit_id h) id) (db_habits b) = false) as ->; [|done].
  apply not_true_is_false. rewrite existsb_exists. intros (h & Hin & He).
  apply String.eqb_eq in He. apply (Hfresh h); [by apply list_elem_of_In|done].
Qed.

Lemma insert_habit_up id ts uid name descr cat color icon freq tc b :
  transport_up b -> session b = Some uid -> frequency_ok freq = true ->
  (forall h, h ∈ db_habits b -> habit_id h <> id) ->
  has_profile b uid = true ->
  insert_habit id ts uid name descr cat color icon freq tc b
  = (Data tt,
     set_habits (db_habits b ++ [mkHabitRow id uid name descr cat color icon freq tc
                                            false ts ts]) b).
Proof.
  intros Hup Hs Hf Hfresh Hp. unfold insert_habit. rewrite request_up by done.
  unfold is_uid. rewrite Hs, String.eqb_refl, Hf, Hp. simpl.
  assert (existsb (fun h => String.eqb (habit_id h) id) (db_habits b) = false) as ->; [|done].
  apply not_true_is_false. rewrite existsb_exists. intros (h & Hin & He).
  apply String.eqb_eq in He. apply (Hfresh h); [by apply list_elem_of_In|done].
Qed.

(** X20.  The create dialog submitted with the transport up by a user with a
    profile: the habit is stored with the colour and icon of its category,
    not archived; the toast is shown, the list refetched with the new habit
    on it, the dialog closed and the form emptied. *)
Lemma createHabit_up env (w : World App) uid cat :
  transport_up (backend w) -> session (backend w) = Some uid ->
  selectedCategory (ui w) = Some cat ->
  frequency_ok (form_frequency (formData (createDlg (ui w)))) = true ->
  (forall h, h ∈ db_habits (backend w) -> habit_id h <> uuid env) ->
  has_profile (backend w) uid = true ->
  exists w',
    CreateHabitDialog_handleSubmit env w = (Normal tt, w')
    /\ db_habits (backend w')
       = db_habits (backend w) ++ [createdRow env uid (formData (createDlg (ui w))) cat]
    /\ trace w' = trace w ++ [AuthGetUser; DataRequest "habits" "insert";
                              ToastSuccess "Habit created successfully!";
                              AuthGetUser; DataRequest "habits" "select"]
    /\ habits (page (ui w')) = activeHabits (backend w') uid
    /\ createdRow env uid (formData (createDlg (ui w))) cat
         ∈ map habit_row (habits (page (ui w')))
    /\ showCreateDialog (page (ui w')) = false
    /\ formData (createDlg (ui w')) = emptyForm
    /\ submitting (createDlg (ui w')) = false.
Proof.
  intros Hup Hs Hc Hf Hfresh Hp. eexists. split.
  - unfold CreateHabitDialog_handleSubmit, createHabit_handleSubmit,
      try_finally, try_catch, setShowCreateDialog.
    unfold bind at 1. unfold modify at 1. unfold bind at 1. unfold await at 1.
    cbn [backend ui trace]. rewrite getUser_up, Hs by done.
    unfold bind at 1. unfold getState at 1. cbn [ui].
    unfold selectedCategory in Hc.
    cbn [ui with_createDlg createDlg categories formData setSubmitting] in *.
    rewrite Hc. unfold bind at 1. unfold await at 1. cbn [backend ui trace].
    rewrite (insert_habit_up _ _ uid) by done.
    unfold bind at 1. unfold toastSuccess, emit. cbn [backend ui trace].
    unfold bind at 1. unfold spawn.
    rewrite (fetchHabits_up _ uid) by done. cbn [snd backend ui trace].
    unfold bind at 1. unfold modify. cbn [backend ui trace]. reflexivity.
  - cbn [backend ui trace]. unfold with_createDlg, with_page, setFormData, setSubmitting.
    cbn [page createDlg habits showCreateDialog formData submitting
         db_habits set_habits backend].
    split; [done|]. split; [by rewrite <- !app_assoc|]. split; [done|].
    split; [|done].
    apply (activeHabits_spec _ uid); [done|].
    cbn [db_habits set_habits]. split; [|done].
    apply elem_of_app. right. apply list_elem_of_singleton. reflexivity.
Qed.

(** X19.  The create dialog submitted by a signed-in user who has no row in
    [profiles], the form valid and a category selected: the insert is
    sent and the foreign key of [habits.user_id] refuses it.  The server's
    message is shown as the error toast; no row is stored, no success
    toast shown, the list not refetched, and the dialog stays open with
    what was typed. *)
Lemma createHabit_without_profile env (w : World App) uid cat :
  transport_up (backend w) -> session (backend w) = Some uid ->
  selectedCategory (ui w) = Some cat ->
  frequency_ok (form_frequency (formData (createDlg (ui w)))) = true ->
  (forall h, h ∈ db_habits (backend w) -> habit_id h <> uuid env) ->
  has_profile (backend w) uid = false ->
  CreateHabitDialog_handleSubmit env w
  = (Normal tt,
     mkWorld (backend w) (with_createDlg (setSubmitting false) (ui w))
       (trace w ++ [AuthGetUser; DataRequest "habits" "insert";
                    ToastError (fkey_violation "habits" "user_id")])).
Proof.
  intros Hup Hs Hc Hf Hfresh Hp.
  unfold CreateHabitDialog_handleSubmit, createHabit_handleSubmit,
    try_finally, try_catch, setShowCreateDialog.
  unfold bind at 1. unfold modify at 1. unfold bind at 1. unfold await at 1.
  cbn [backend ui trace]. rewrite getUser_up, Hs by done.
  unfold bind at 1. unfold getState at 1. cbn [ui].
  unfold selectedCategory in Hc.
  cbn [ui with_createDlg createDlg categories formData setSubmitting] in *.
  rewrite Hc. unfold bind at 1. unfold await at 1. cbn [backend ui trace].
  rewrite (insert_habit_without_profile _ _ uid) by done.
  unfold throw, toastError, emit, modify. cbn [backend ui trace].
  by rewrite <- !app_assoc.
Qed.
End FormDialogFacts.

Module EditFacts.
Import JsNumber DateFns Schema Supabase Js Frame Invariants Views.
Import SupabaseFacts HandlerFacts TransportUp HabitTracker HabitListFacts.

(** The edit dialog, saved with the transport up: the row is rewritten,
    the toast shown, the list refetched and the dialog closed. *)
Lemma editHabit_up habitId (w : World App) uid cat :
  transport_up (backend w) -> session (backend w) = Some uid ->
  List.find (fun c => String.eqb (cat_name c) (form_category (formData (editDlg (ui w)))))
            (categories (editDlg (ui w))) = Some cat ->
  frequency_ok (form_frequency (formData (editDlg (ui w)))) = true ->
  exists w',
    EditHabitDialog_handleSubmit habitId w = (Normal tt, w')
    /\ db_habits (backend w')
       = map (fun h => if is_uid (backend w) (habit_user_id h)
                          && String.eqb (habit_id h) habitId
                       then edited (form_name (formData (editDlg (ui w))))
                              (description_or_null
                                 (form_description (formData (editDlg (ui w)))))
                              (form_category (formData (editDlg (ui w))))
                              (cat_color cat) (cat_icon cat)
                              (form_frequency (formData (editDlg (ui w))))
                              (form_target_count (formData (editDlg (ui w)))) h
                       else h) (db_habits (backend w))
    /\ trace w' = trace w ++ [DataRequest "habits" "update";
                              ToastSuccess "Habit updated successfully!";
                              AuthGetUser; DataRequest "habits" "select"]
    /\ habits (page (ui w')) = activeHabits (backend w') uid
    /\ editingHabit (hlist (ui w')) = None
    /\ submitting (editDlg (ui w')) = false.
Proof.
  intros Hup Hs Hc Hf. eexists. split.
  - unfold EditHabitDialog_handleSubmit, editHabit_handleSubmit, editDialog_onSuccess,
      editDialog_onOpenChange, setEditingHabit, try_finally, try_catch.
    unfold bind at 1. unfold modify at 1. unfold bind at 1. unfold getState at 1.
    cbn [backend ui trace].
    cbn [ui with_editDlg editDlg categories formData setSubmitting] in *.
    rewrite Hc. unfold bind at 1. unfold await at 1. cbn [backend ui trace].
    unfold update_habit. rewrite request_up by done. rewrite Hf, andb_false_r.
    unfold bind at 1. unfold toastSuccess, emit. cbn [backend ui trace].
    unfold bind at 1. unfold bind at 1. unfold modify at 1. cbn [backend ui trace].
    unfold spawn. rewrite (fetchHabits_up _ uid) by done. cbn [snd negb backend ui trace].
    unfold modify. cbn [backend ui trace]. reflexivity.
  - cbn [backend ui trace]. unfold with_editDlg, with_hlist, with_page, setSubmitting.
    cbn [page hlist editDlg habits editingHabit submitting db_habits set_habits backend].
    repeat split; try done. by rewrite <- !app_assoc.
Qed.

(** The run of the edit dialog's [handleSubmit] with the transport up: one
    update on [habits], then the refetch of [onSuccess]. *)
Lemma editHabit_run habitId (w : World App) uid cat :
  transport_up (backend w) -> session (backend w) = Some uid ->
  List.find (fun c => String.eqb (cat_name c) (form_category (formData (editDlg (ui w)))))
            (categories (editDlg (ui w))) = Some cat ->
  frequency_ok (form_frequency (formData (editDlg (ui w)))) = true ->
  exists w',
    EditHabitDialog_handleSubmit habitId w = (Normal tt, w')
    /\ backend w'
       = set_habits
           (map (fun h => if is_uid (backend w) (habit_user_id h)
                             && String.eqb (habit_id h) habitId
                          then edited (form_name (formData (editDlg (ui w))))
                                 (description_or_null
                                    (form_description (formData (editDlg (ui w)))))
                                 (form_category (formData (editDlg (ui w))))
                                 (cat_color cat) (cat_icon cat)
                                 (form_frequency (formData (editDlg (ui w))))
                                 (form_target_count (formData (editDlg (ui w)))) h
                          else h) (db_habits (backend w)))
           (backend w)
    /\ habits (page (ui w')) = activeHabits (backend w') uid.
Proof.
  intros Hup Hs Hc Hf. eexists. split.
  - unfold EditHabitDialog_handleSubmit, editHabit_handleSubmit, editDialog_onSuccess,
      editDialog_onOpenChange, setEditingHabit, try_finally, try_catch.
    unfold bind at 1. unfold modify at 1. unfold bind at 1. unfold getState at 1.
    cbn [backend ui trace].
    cbn [ui with_editDlg editDlg categories formData setSubmitting] in *.
    rewrite Hc. unfold bind at 1. unfold await at 1. cbn [backend ui trace].
    unfold update_habit. rewrite request_up by done. rewrite Hf, andb_false_r.
    unfold bind at 1. unfold toastSuccess, emit. cbn [backend ui trace].
    unfold bind at 1. unfold bind at 1. unfold modify at 1. cbn [backend ui trace].
    unfold spawn. rewrite (fetchHabits_up _ uid) by done. cbn [snd negb backend ui trace].
    unfold modify. cbn [backend ui trace]. reflexivity.
  - cbn [backend ui trace]. unfold with_editDlg, with_hlist, with_page, setSubmitting.
    cbn [page habits]. done.
Qed.

(** X21.  The edit dialog saved by the signed-in user, the transport up, the
    category of the form in the list and its frequency one the schema
    allows.  On the rows of the habit that are the user's, the seven
    columns of the update carry the form: name, description (null when
    left empty), category, the colour and icon of that category, frequency
    and target count.  Every other row is as before.  On every row the id,
    the owner, the archived flag and both timestamps stay, [updated_at]
    too; no log changes, and the user stays signed in. *)
Lemma editHabit_rewrites habitId (w : World App) uid cat :
  transport_up (backend w) -> session (backend w) = Some uid ->
  List.find (fun c => String.eqb (cat_name c) (form_category (formData (editDlg (ui w)))))
            (categories (editDlg (ui w))) = Some cat ->
  frequency_ok (form_frequency (formData (editDlg (ui w)))) = true ->
  let form := formData (editDlg (ui w)) in
  let w' := exec (EditHabitDialog_handleSubmit habitId) w in
  Forall2 (fun h h' =>
             habit_id h' = habit_id h /\ habit_user_id h' = habit_user_id h
             /\ habit_is_archived h' = habit_is_archived h
             /\ habit_created_at h' = habit_created_at h
             /\ habit_updated_at h' = habit_updated_at h
             /\ ((habit_id h = habitId /\ habit_user_id h = uid
                  /\ habit_name h' = form_name form
                  /\ habit_description h' = description_or_null (form_description form)
                  /\ habit_category h' = form_category form
                  /\ habit_color h' = cat_color cat
                  /\ habit_icon h' = cat_icon cat
                  /\ habit_frequency h' = form_frequency form
                  /\ habit_target_count h' = form_target_count form)
                 \/ (~ (habit_id h = habitId /\ habit_user_id h = uid) /\ h' = h)))
          (db_habits (backend w)) (db_habits (backend w'))
  /\ db_habit_logs (backend w') = db_habit_logs (backend w)
  /\ session (backend w') = session (backend w)
  /\ habits (page (ui w')) = activeHabits (backend w') uid.
Proof.
  intros Hup Hs Hc Hf. cbv zeta.
  destruct (editHabit_run habitId w uid cat Hup Hs Hc Hf) as (w' & Hrun & Hb & Hlist).
  assert (Hw : exec (EditHabitDialog_handleSubmit habitId) w = w')
    by (unfold exec; by rewrite Hrun).
  rewrite Hw. clear Hw Hrun.
  assert (Huid : forall o, is_uid (backend w) o = true <-> o = uid).
  { intros o. unfold is_uid. rewrite Hs, String.eqb_eq. split; congruence. }
  split; [|split; [by rewrite Hb|split; [by rewrite Hb|done]]].
  rewrite Hb. cbn [db_habits set_habits].
  apply Forall2_fmap_r, Forall_Forall2_diag, Forall_forall. intros h _. unfold compose.
  destruct (is_uid (backend w) (habit_user_id h) && String.eqb (habit_id h) habitId)
    eqn:E.
  - apply andb_true_iff in E as [Eu E]. apply String.eqb_eq in E. apply Huid in Eu.
    unfold edited. cbn. repeat split; try done. left. done.
  - repeat split; try done. right. split; [|done]. intros [Hid Hown].
    apply andb_false_iff in E as [E|E].
    + apply Huid in Hown. congruence.
    + apply String.eqb_neq in E. done.
Qed.

(** X23.  [handleSignOut] always ends on the login view; with the transport up
    the session is over. *)
Lemma handleSignOut_spec (w : World App) :
  (exists w', handleSignOut w = (Normal tt, w')
              /\ trace w' = trace w ++ [AuthSignOut; RouterPush "/login"]
              /\ ui w' = ui w)
  /\ (transport_up (backend w) -> session (backend (exec handleSignOut w)) = None).
Proof.
  split.
  - unfold handleSignOut. run. destruct (signOut (backend w)) as [r b'].
    eexists. split; [reflexivity|]. cbn [trace ui]. by rewrite <- !app_assoc.
  - intros Hup. unfold handleSignOut, exec. run. unfold signOut.
    by rewrite request_up.
Qed.
End EditFacts.

(* ===================================================================== *)
(** ** The finance dashboard *)
(* ===================================================================== *)

Module FinanceMore.
Import JsNumber DateFns Schema Supabase Js Frame Invariants Views.
Import SupabaseFacts HandlerFacts TransportUp Finance.

Global Instance later_tx_total : Total later_tx.
Proof.
  intros x y. unfold later_tx.
  destruct (String.leb (tx_date y) (tx_date x)) eqn:E; [by left|right].
  unfold String.leb in *. rewrite String.compare_antisym.
  destruct (String.compare (tx_date y) (tx_date x)); done.
Qed.

(** What the dashboard lists: the transactions of the signed-in user, all
    of them, latest date first. *)
Lemma transactionsOf_spec b uid :
  session b = Some uid ->
  (forall t, t ∈ transactionsOf b uid <-> t ∈ db_transactions b /\ tx_user_id t = uid)
  /\ Sorted later_tx (transactionsOf b uid).
Proof.
  intros Hs. split.
  - intros t. unfold transactionsOf.
    rewrite merge_sort_Permutation, list_elem_of_In, filter_In, <- list_elem_of_In.
    rewrite andb_true_iff, String.eqb_eq. unfold is_uid. rewrite Hs, String.eqb_eq.
    split; [tauto|]. intros [H1 H2]. repeat split; congruence.
  - apply Sorted_merge_sort. apply _.
Qed.

(** [loadTransactions] with the transport up. *)
Lemma loadTransactions_up (w : World Dashboard) uid :
  transport_up (backend w) -> session (backend w) = Some uid ->
  loadTransactions w
  = (Normal tt,
     mkWorld (backend w)
       (mkDashboard (transactionsOf (backend w) uid) (showAddForm (ui w)) false
                    (formData (ui w)))
       (trace w ++ [AuthGetUser; DataRequest "transactions" "select"])).
Proof.
  intros Hup Hs.
  rewrite (loadTransactions_user w uid (backend w)) by (by rewrite getUser_up, Hs).
  by rewrite select_transactions_up.
Qed.

(** X25.  When the select fails, the list is emptied and the spinner removed,
    and no message tells the failure from an empty account. *)
Lemma loadTransactions_select_failure (w : World Dashboard) uid b1 msg b2 :
  getUser (backend w) = (Some uid, b1) ->
  select_transactions uid b1 = (Error msg, b2) ->
  loadTransactions w
  = (Normal tt,
     mkWorld b2 (mkDashboard [] (showAddForm (ui w)) false (formData (ui w)))
       (trace w ++ [AuthGetUser; DataRequest "transactions" "select"])).
Proof.
  intros Hu Hsel. rewrite (loadTransactions_user w uid b1 Hu). by rewrite Hsel.
Qed.

(** [handleDelete] never shows a message: whatever the store answers, it
    sends the delete and reloads. *)
Lemma handleDelete_trace id (w : World Dashboard) :
  exists w', handleDelete id w = (Normal tt, w')
    /\ trace w'
       = trace w ++ DataRequest "transactions" "delete" :: AuthGetUser ::
           match fst (getUser (snd (delete_transaction id (backend w)))) with
           | None => []
           | Some _ => [DataRequest "transactions" "select"]
           end.
Proof.
  unfold handleDelete, bind, await, spawn.
  destruct (delete_transaction id (backend w)) as [r b1]. cbn [snd fst].
  destruct (getUser b1) as [[uid|] b2] eqn:Hu.
  - rewrite (loadTransactions_user _ uid b2) by done. eexists. split; [reflexivity|].
    cbn [trace snd fst]. by rewrite <- !app_assoc.
  - rewrite (loadTransactions_no_user _ b2) by done. eexists. split; [reflexivity|].
    cbn [trace snd fst]. by rewrite <- !app_assoc.
Qed.

(** X26.  Deleting is permanent: with the transport up, the caller's row with
    that id is gone from the table and from the reloaded list; rows of
    other ids stay. *)
Lemma handleDelete_removes_row id (w : World Dashboard) uid :
  transport_up (backend w) -> session (backend w) = Some uid ->
  let w' := exec (handleDelete id) w in
  (forall t, t ∈ db_transactions (backend w')
             <-> t ∈ db_transactions (backend w)
                 /\ ~ (tx_user_id t = uid /\ tx_id t = id))
  /\ transactions (ui w') = transactionsOf (backend w') uid
  /\ (forall t, t ∈ transactions (ui w') -> tx_id t <> id).
Proof.
  intros Hup Hs. cbv zeta. unfold exec, handleDelete, bind, await, spawn.
  unfold delete_transaction. rewrite request_up by done. cbn [snd fst].
  rewrite (loadTransactions_up _ uid) by done. cbn [snd backend ui transactions].
  assert (Hrows : forall t,
    t ∈ List.filter (fun t => negb (is_uid (backend w) (tx_user_id t)
                                    && String.eqb (tx_id t) id))
                    (db_transactions (backend w))
    <-> t ∈ db_transactions (backend w) /\ ~ (tx_user_id t = uid /\ tx_id t = id)).
  { intros t. rewrite list_elem_of_In, filter_In, <- list_elem_of_In.
    rewrite negb_true_iff, andb_false_iff. unfold is_uid. rewrite Hs.
    rewrite <- !not_true_iff_false, !String.eqb_eq.
    split; intros [H1 H2]; (split; [done|]).
    - intros [H3 H4]. destruct H2 as [H2|H2]; congruence.
    - destruct (decide (uid = tx_user_id t)); [right|left; done].
      intros H4. apply H2. split; congruence. }
  split; [|split].
  - intros t. cbn [db_transactions set_transactions]. apply Hrows.
  - done.
  - intros t Hin Hid.
    apply (transactionsOf_spec _ uid) in Hin as [Hin Hown]; [|done].
    cbn [db_transactions set_transactions] in Hin. apply Hrows in Hin as [_ Hn].
    by apply Hn.
Qed.

End FinanceMore.

Module AddTransactionFacts.
Import JsNumber DateFns Schema Supabase Js Frame Invariants Views.
Import SupabaseFacts HandlerFacts TransportUp Finance FinanceMore.

Section AddTransaction.
Variable parseFloat : string -> Number.
Variable to_decimal : Number -> option Number.

(** X27.  [handleAddTransaction] with nobody signed in, or refused by the
    store: the form stays open as typed, nothing is reloaded, and no
    message is shown. *)
Lemma handleAddTransaction_quiet env (w : World Dashboard) :
  (forall b', getUser (backend w) = (None, b') ->
     handleAddTransaction parseFloat to_decimal env w
     = (Normal tt, mkWorld b' (ui w) (trace w ++ [AuthGetUser])))
  /\ (forall uid b1 msg b2,
        getUser (backend w) = (Some uid, b1) ->
        insert_transaction to_decimal (uuid env) (now_ms (clock env)) uid
          (parseFloat (form_amount (formData (ui w))))
          (form_description (formData (ui w))) (form_category (formData (ui w)))
          (form_type (formData (ui w))) (isoDate (clock env)) b1 = (Error msg, b2) ->
        handleAddTransaction parseFloat to_decimal env w
        = (Normal tt,
           mkWorld b2 (ui w)
             (trace w ++ [AuthGetUser; DataRequest "transactions" "insert"]))).
Proof using Type.
  split.
  - intros b' Hu. unfold handleAddTransaction. run. by rewrite Hu.
  - intros uid b1 msg b2 Hu Hi. unfold handleAddTransaction. run. rewrite Hu.
    cbn [backend ui trace fst snd]. rewrite Hi. cbn [backend ui trace fst snd].
    by rewrite <- !app_assoc.
Qed.

(** An amount the server cannot store (the empty form field parses to
    NaN) is refused. *)
Lemma insert_transaction_bad_amount id ts uid amount descr cat ty date b :
  transport_up b -> session b = Some uid -> to_decimal amount = None ->
  exists msg, insert_transaction to_decimal id ts uid amount descr cat ty date b
              = (Error msg, b).
Proof using Type.
  intros Hup Hs Hd. unfold insert_transaction. rewrite request_up by done.
  unfold is_uid. rewrite Hs, String.eqb_refl, Hd. simpl. eauto.
Qed.

(** X28.  [handleAddTransaction] accepted: the row is stored for the signed-in
    user under the UTC date of the clock, with the amount as the server
    stores it; the form is emptied and hidden and the list reloaded with
    the new row on it. *)
Lemma handleAddTransaction_up env (w : World Dashboard) uid stored :
  transport_up (backend w) -> session (backend w) = Some uid ->
  to_decimal (parseFloat (form_amount (formData (ui w)))) = Some stored ->
  (forall t, t ∈ db_transactions (backend w) -> tx_id t <> uuid env) ->
  has_profile (backend w) uid = true ->
  let row := mkTransaction (uuid env) uid stored
               (form_description (formData (ui w))) (form_category (formData (ui w)))
               (form_type (formData (ui w))) (isoDate (clock env))
               (now_ms (clock env)) in
  let w' := exec (handleAddTransaction parseFloat to_decimal env) w in
  db_transactions (backend w') = db_transactions (backend w) ++ [row]
  /\ transactions (ui w') = transactionsOf (backend w') uid
  /\ row ∈ transactions (ui w')
  /\ formData (ui w') = emptyForm
  /\ showAddForm (ui w') = false
  /\ trace w' = trace w ++ [AuthGetUser; DataRequest "transactions" "insert";
                            AuthGetUser; DataRequest "transactions" "select"].
Proof using Type.
  intros Hup Hs Hd Hfresh Hp. cbv zeta.
  assert (Hrun : exists w', handleAddTransaction parseFloat to_decimal env w
                            = (Normal tt, w')
            /\ w' = mkWorld
                 (set_transactions
                    (db_transactions (backend w)
                       ++ [mkTransaction (uuid env) uid stored
                             (form_description (formData (ui w)))
                             (form_category (formData (ui w)))
                             (form_type (formData (ui w))) (isoDate (clock env))
                             (now_ms (clock env))]) (backend w))
                 (mkDashboard
                    (transactionsOf
                       (set_transactions
                          (db_transactions (backend w)
                             ++ [mkTransaction (uuid env) uid stored
                                   (form_description (formData (ui w)))
                                   (form_category (formData (ui w)))
                                   (form_type (formData (ui w))) (isoDate (clock env))
                                   (now_ms (clock env))]) (backend w)) uid)
                    false false emptyForm)
                 (trace w ++ [AuthGetUser; DataRequest "transactions" "insert";
                              AuthGetUser; DataRequest "transactions" "select"])).
  { eexists. split.
    - unfold handleAddTransaction.
      unfold bind at 1. unfold await at 1. rewrite getUser_up, Hs by done.
      unfold bind at 1. unfold getState at 1. cbn [ui].
      unfold bind at 1. unfold await at 1. cbn [backend ui trace].
      unfold insert_transaction. rewrite request_up by done.
      unfold is_uid. rewrite Hs, String.eqb_refl, Hd, Hp. cbn [negb].
      assert (existsb (fun t => String.eqb (tx_id t) (uuid env))
                      (db_transactions (backend w)) = false) as ->.
      { apply not_true_is_false. rewrite existsb_exists. intros (t & Hin & He).
        apply String.eqb_eq in He. apply (Hfresh t); [by apply list_elem_of_In|done]. }
      unfold bind at 1. unfold setFormData, modify at 1. cbn [backend ui trace].
      unfold bind at 1. unfold setShowAddForm, modify at 1. cbn [backend ui trace].
      unfold spawn. rewrite (loadTransactions_up _ uid) by done.
      cbn [snd]. reflexivity.
    - cbn [backend ui trace transactions formData showAddForm].
      rewrite <- !app_assoc. reflexivity. }
  destruct Hrun as (w' & Hrun & ->). unfold exec. rewrite Hrun.
  cbn [snd backend ui trace transactions formData showAddForm
       db_transactions set_transactions].
  split; [done|]. split; [done|]. split; [|done].
  apply (transactionsOf_spec _ uid); [done|].
  cbn [db_transactions set_transactions]. split; [|done].
  apply elem_of_app. right. apply list_elem_of_singleton. reflexivity.
Qed.
End AddTransaction.
End AddTransactionFacts.

(* ===================================================================== *)
(** ** The login page *)
(* ===================================================================== *)

Module LoginFacts.
Import Supabase Js Login.

Section IdentityProvider.
Variable signUp : string -> string -> string -> Backend -> Result unit * Backend.
Variable signInWithPassword : string -> string -> Backend -> Result unit * Backend.

(** X29.  [handleAuth] navigates to the dashboard exactly when its one call
    to the identity provider answers without error; otherwise it shows
    the message (or "Authentication failed" if there is none) and stays.
    Either way it ends the loading state. *)
Lemma handleAuth_spec (w : World Page) :
  handleAuth signUp signInWithPassword w
  = (Normal tt,
     match authCall signUp signInWithPassword (ui w) (backend w) with
     | (Data _, b') =>
         mkWorld b' (mkPage (email (ui w)) (password (ui w)) (isSignUp (ui w)) false "")
           (trace w ++ [if isSignUp (ui w) then AuthSignUp else AuthSignIn;
                        RouterPush "/dashboard"])
     | (Error message, b') =>
         mkWorld b'
           (mkPage (email (ui w)) (password (ui w)) (isSignUp (ui w)) false
                   (orElse message "Authentication failed"))
           (trace w ++ [if isSignUp (ui w) then AuthSignUp else AuthSignIn])
     end).
Proof using Type.
  unfold handleAuth, authCall, setLoading, setError. run.
  cbn [email password isSignUp loading error].
  destruct (isSignUp (ui w)); cbn [backend ui trace fst snd].
  - destruct (signUp _ _ _ (backend w)) as [[[]|msg] b'];
      cbn [backend ui trace fst snd email password isSignUp loading error];
      by rewrite <- ?app_assoc.
  - destruct (signInWithPassword _ _ (backend w)) as [[[]|msg] b'];
      cbn [backend ui trace fst snd email password isSignUp loading error];
      by rewrite <- ?app_assoc.
Qed.

(** X30.  [handleDemo] always ends on the dashboard and never shows an error,
    whatever the identity provider answers: the answers of the sign-up
    and of the second sign-in are not looked at. *)
Lemma handleDemo_always_navigates (w : World Page) :
  exists w' calls,
    handleDemo signUp signInWithPassword w = (Normal tt, w')
    /\ trace w' = trace w ++ calls ++ [RouterPush "/dashboard"]
    /\ (calls = [AuthSignIn] \/ calls = [AuthSignIn; AuthSignUp; AuthSignIn])
    /\ error (ui w') = "" /\ loading (ui w') = false.
Proof using Type.
  unfold handleDemo, setLoading, setError. run.
  cbn [email password isSignUp loading error].
  destruct (signInWithPassword "demo@example.com" "demo123" (backend w))
    as [[[]|msg] b1]; cbn [backend ui trace fst snd].
  - eexists _, [AuthSignIn]. split; [reflexivity|]. cbn [trace ui error loading].
    split; [by rewrite <- !app_assoc|]. split; [by left|done].
  - destruct (signUp "demo@example.com" "demo123" "Demo User" b1) as [r2 b2].
    cbn [backend ui trace fst snd].
    destruct (signInWithPassword "demo@example.com" "demo123" b2) as [r3 b3].
    cbn [backend ui trace fst snd].
    eexists _, [AuthSignIn; AuthSignUp; AuthSignIn]. split; [reflexivity|].
    cbn [trace ui error loading].
    split; [by rewrite <- !app_assoc|]. split; [by right|done].
Qed.
End IdentityProvider.
End LoginFacts.

Module DashboardShows.
Import JsNumber DateFns Schema Supabase Js Frame Invariants Views.
Import SupabaseFacts HandlerFacts TransportUp HabitTracker HabitListFacts TodayLogsFacts.


(** X8.  When the select of [fetchHabits] fails, the list on screen stays the
    one before, the failure is reported by a toast and on the console, and
    the loading state ends. *)
Lemma fetchHabits_select_failure (w : World App) uid b1 msg b2 :
  getUser (backend w) = (Some uid, b1) ->
  select_active_habits uid b1 = (Error msg, b2) ->
  fetchHabits w
  = (Normal tt,
     mkWorld b2
       (with_page (fun p => mkPage (habits p) false (showCreateDialog p)) (ui w))
       (trace w ++ [AuthGetUser; DataRequest "habits" "select";
                    ToastError "Failed to load habits";
                    ConsoleError "Error fetching habits:"])).
Proof. intros Hu Hsel. rewrite (fetchHabits_user w uid b1 Hu). by rewrite Hsel. Qed.

(** X10.  After [fetchTodayLogs] on a store that keeps the uniqueness
    constraint, a habit is in the map of today at [c] exactly when the
    user's log of that habit for today has completed flag [c]. *)
Lemma fetchTodayLogs_shows env (w : World App) uid hid c :
  transport_up (backend w) -> session (backend w) = Some uid ->
  unique_logs (backend w) ->
  todayLogs (hlist (ui (exec (fetchTodayLogs env) w))) !! hid = Some c
  <-> exists l, l ∈ db_habit_logs (backend w) /\ log_habit_id l = hid
                /\ log_user_id l = uid /\ log_date l = today env
                /\ log_completed l = c.
Proof.
  intros Hup Hs Hu. unfold exec. rewrite (fetchTodayLogs_up env w uid) by done.
  cbn [snd ui]. unfold with_hlist. cbn [hlist todayLogs].
  by apply todayLogsOf_spec.
Qed.

Global Instance later_log_total : Total later_log.
Proof.
  intros x y. unfold later_log.
  destruct (String.leb (log_date y) (log_date x)) eqn:E; [by left|right].
  unfold String.leb in *. rewrite String.compare_antisym.
  destruct (String.compare (log_date y) (log_date x)); done.
Qed.

(** X11.  After [calculateStreaks] with the transport up, every habit on the list
    has a streak, the one of the loop over the user's completed logs of
    that habit, latest date first; no other key is in the map. *)
Lemma calculateStreaks_shows env (w : World App) uid hid :
  transport_up (backend w) -> session (backend w) = Some uid ->
  streaks (hlist (ui (exec (calculateStreaks env) w))) !! hid
  = (if existsb (fun h => String.eqb (habit_id (habit_row h)) hid) (habits (page (ui w)))
     then Some (streakOver (clock env) (completedLogs (backend w) hid) 0)
     else None)
  /\ Sorted later_log (completedLogs (backend w) hid)
  /\ (forall l, l ∈ completedLogs (backend w) hid
                <-> l ∈ db_habit_logs (backend w) /\ log_habit_id l = hid
                    /\ log_user_id l = uid /\ log_completed l = true).
Proof.
  intros Hup Hs. split; [|split].
  - unfold exec. rewrite (calculateStreaks_up env w uid) by done.
    cbn [snd ui]. unfold with_hlist. cbn [hlist streaks].
    rewrite streaksOf_lookup. by rewrite lookup_empty.
  - apply Sorted_merge_sort. apply _.
  - intros l. unfold completedLogs.
    rewrite merge_sort_Permutation, list_elem_of_In, filter_In, <- list_elem_of_In.
    rewrite !andb_true_iff, String.eqb_eq. unfold is_uid. rewrite Hs, String.eqb_eq.
    split; [intros (H1 & (H2 & H3) & H4); repeat split; congruence|].
    intros (H1 & H2 & H3 & H4). repeat split; congruence.
Qed.
End DashboardShows.

(* ===================================================================== *)
(** ** The constraints of the schema are kept *)
(* ===================================================================== *)

Module ConstraintFacts.
Import Schema Supabase Frame Invariants SupabaseFacts.

Lemma NoDup_map_filter {A B} (f : A -> B) (p : A -> bool) (l : list A) :
  NoDup (map f l) -> NoDup (map f (List.filter p l)).
Proof.
  induction l as [|x r IH]; simpl; [done|]. intros Hnd.
  apply NoDup_cons in Hnd as [Hx Hnd]. destruct (p x); [|by apply IH].
  simpl. apply NoDup_cons. split; [|by apply IH].
  intros Hin. apply Hx. apply list_elem_of_fmap in Hin as (y & -> & Hy).
  apply list_elem_of_fmap. exists y. split; [done|].
  apply list_elem_of_In, filter_In in Hy as [Hy _]. by apply list_elem_of_In.
Qed.

Lemma NoDup_map_snoc {A B} (f : A -> B) (l : list A) (x : A) :
  NoDup (map f l) -> (forall y, y ∈ l -> f y <> f x) -> NoDup (map f (l ++ [x])).
Proof.
  intros Hnd Hx. rewrite map_app. apply NoDup_app. split; [done|]. split.
  - intros z Hz Hz'. apply list_elem_of_singleton in Hz' as ->.
    apply list_elem_of_fmap in Hz as (y & Hy & Hin). by apply (Hx y).
  - apply NoDup_singleton.
Qed.

(** X14.  The uniqueness constraint of [habit_logs] holds after every log
    request if it held before. *)
Lemma unique_logs_kept b :
  unique_logs b ->
  (forall id ts hid uid date completed,
      unique_logs (snd (insert_log id ts hid uid date completed b)))
  /\ (forall hid uid date, unique_logs (snd (delete_log hid uid date b))).
Proof.
  intros Hu. split.
  - intros id ts hid uid date completed. unfold insert_log.
    destruct (request_cases
      (fun b => if negb (is_uid b uid) then (Error (rls_violation "habit_logs"), b)
       else if existsb (fun l => String.eqb (log_id l) id) (db_habit_logs b)
       then (Error (pkey_violation "habit_logs"), b)
       else if existsb (fun l => String.eqb (log_habit_id l) hid
                                && String.eqb (log_user_id l) uid
                                && String.eqb (log_date l) date) (db_habit_logs b)
       then (Error unique_violation, b)
       else if negb (existsb (fun h => String.eqb (habit_id h) hid) (db_habits b))
       then (Error (fkey_violation "habit_logs" "habit_id"), b)
       else if negb (has_profile b uid)
       then (Error (fkey_violation "habit_logs" "user_id"), b)
       else (Data tt,
             set_habit_logs
               (db_habit_logs b ++ [mkHabitLog id hid uid date completed None ts]) b)) b)
      as [(m & rest & Hf & ->)|[(rest & Hf & ->)|(Hf & ->)]]; [done| |].
    all: destruct (negb (is_uid _ uid)); [done|].
    all: destruct (existsb (fun l => String.eqb (log_id l) id) _); [done|].
    all: destruct (existsb (fun l => String.eqb (log_habit_id l) hid && _ && _) _) eqn:E;
         [done|].
    all: destruct (negb (existsb _ _)); [done|].
    all: destruct (negb (has_profile _ uid)); [done|].
    all: cbn [snd]; unfold unique_logs; cbn [db_habit_logs set_habit_logs set_faults].
    all: apply NoDup_map_snoc; [done|].
    all: intros y Hy Hk; apply not_true_iff_false in E; apply E.
    all: apply existsb_exists; exists y; split; [by apply list_elem_of_In|].
    all: unfold log_key in Hk; simpl in Hk; injection Hk as H1 H2 H3.
    all: rewrite !andb_true_iff, !String.eqb_eq; done.
  - intros hid uid date. unfold delete_log.
    destruct (request_cases
      (fun b => (Data tt,
         set_habit_logs
           (List.filter (fun l => negb (is_uid b (log_user_id l)
                                        && String.eqb (log_habit_id l) hid
                                        && String.eqb (log_user_id l) uid
                                        && String.eqb (log_date l) date))
                        (db_habit_logs b)) b)) b)
      as [(m & rest & Hf & ->)|[(rest & Hf & ->)|(Hf & ->)]]; [done| |].
    all: cbn [snd]; unfold unique_logs; cbn [db_habit_logs set_habit_logs set_faults].
    all: by apply NoDup_map_filter.
Qed.
End ConstraintFacts.

Module TotalsMore.
Import JsNumber Schema Finance FinanceFacts.

(** A transaction enters the total of its own type only: an expense
    anywhere in the list leaves the total income as it is, and an income
    the total expenses. *)
Lemma totals_by_type ts1 t ts2 :
  (tx_type t = expense -> totalIncome (ts1 ++ t :: ts2) = totalIncome (ts1 ++ ts2))
  /\ (tx_type t = income -> totalExpenses (ts1 ++ t :: ts2) = totalExpenses (ts1 ++ ts2)).
Proof.
  unfold totalIncome, totalExpenses. split; intros Ht.
  - rewrite !List.filter_app. simpl. by rewrite Ht.
  - rewrite !List.filter_app. simpl. by rewrite Ht.
Qed.

(** With no transaction all three figures are +0. *)
Lemma totals_empty :
  totalIncome [] = ofZ 0 /\ totalExpenses [] = ofZ 0 /\ balance [] = ofZ 0.
Proof. repeat split; vm_compute; reflexivity. Qed.
End TotalsMore.

(* ===================================================================== *)
(** ** Whole days between two instants, in JavaScript numbers *)
(* ===================================================================== *)

Module WholeDaysFacts.
Import JsNumber Dyadic DateFns JsNumberFacts PercentFacts.
Local Open Scope Z_scope.

(** *** Integers as numbers *)

Lemma Zdigits2_range (c : positive) :
  Z.pos c < 2 ^ 53 -> 1 <= Zdigits2 (Z.pos c) <= 53.
Proof.
  intros Hc. split.
  - rewrite Zdigits2_log2 by lia. pose proof (Z.log2_nonneg (Z.pos c)). lia.
  - apply Zdigits2_bound; lia.
Qed.

(** The number of a non-zero integer: its sign, and its magnitude shifted
    left to 53 digits. *)
Lemma ofZ_finite z :
  z <> 0 -> - 2 ^ 53 < z < 2 ^ 53 ->
  exists m, ofZ z = S754_finite (z <? 0) m (Zdigits2 z - 53)
            /\ Z.pos m = Z.abs z * 2 ^ (53 - Zdigits2 z)
            /\ Zdigits2 (Z.pos m) = 53.
Proof.
  intros Hz Hr. unfold ofZ, binary_normalize. destruct z as [|c|c]; [done| |].
  - destruct (binary_round_exact false c) as (m & E & Hm & Hd); [lia|]. eauto.
  - destruct (binary_round_exact true c) as (m & E & Hm & Hd); [lia|]. eauto.
Qed.

Lemma ofZ_opp z : - 2 ^ 53 < z < 2 ^ 53 -> z <> 0 -> ofZ (- z) = SFopp (ofZ z).
Proof.
  intros Hr Hz.
  destruct (ofZ_finite z Hz Hr) as (m & -> & Hm & _).
  destruct (ofZ_finite (- z)) as (m' & -> & Hm' & _); [lia|lia|].
  assert (Hd : Zdigits2 (- z) = Zdigits2 z) by (by destruct z).
  rewrite Hd, Z.abs_opp, <- Hm in Hm'. injection Hm' as ->. simpl.
  rewrite Hd. f_equal. by destruct z.
Qed.

(** *** Shifting out zeros loses nothing *)

Lemma shr_1_even m :
  0 <= m -> shr_1 (Build_shr_record (m * 2) false false) = Build_shr_record m false false.
Proof.
  intros Hm. destruct m as [|p|p]; try lia; [reflexivity|].
  replace (Z.pos p * 2) with (Z.pos p~0) by lia. reflexivity.
Qed.

Lemma iter_shr_1_exact p : forall m,
  0 <= m ->
  SpecFloat.iter_pos shr_1 p (Build_shr_record (m * 2 ^ Z.pos p) false false)
  = Build_shr_record m false false.
Proof.
  induction p as [p IH|p IH|]; intros m Hm; cbn [SpecFloat.iter_pos].
  - assert (0 < 2 ^ Z.pos p) by (apply Z.pow_pos_nonneg; lia).
    replace (m * 2 ^ Z.pos p~1) with (m * 2 ^ Z.pos p * 2 ^ Z.pos p * 2).
    + rewrite shr_1_even by nia. rewrite IH by nia. by apply IH.
    + pose proof (Pos2Z.inj_xI p) as E. rewrite E.
      rewrite Z.pow_add_r, Z.pow_mul_r by lia.
      replace (2 ^ 2) with 4 by done. rewrite Z.pow_1_r.
      assert (E4 : 4 ^ Z.pos p = 2 ^ Z.pos p * 2 ^ Z.pos p).
      { rewrite <- Z.pow_mul_l. done. }
      rewrite E4. lia.
  - assert (0 < 2 ^ Z.pos p) by (apply Z.pow_pos_nonneg; lia).
    replace (m * 2 ^ Z.pos p~0) with (m * 2 ^ Z.pos p * 2 ^ Z.pos p).
    + rewrite IH by nia. by apply IH.
    + pose proof (Pos2Z.inj_xO p) as E. rewrite E.
      rewrite Z.pow_mul_r by lia. replace (2 ^ 2) with 4 by done.
      assert (E4 : 4 ^ Z.pos p = 2 ^ Z.pos p * 2 ^ Z.pos p).
      { rewrite <- Z.pow_mul_l. done. }
      rewrite E4. lia.
  - rewrite Z.pow_1_r. by apply shr_1_even.
Qed.

(** An integer below 2^53 written with trailing zeros is the same
    number. *)
Lemma binary_round_scaled s (z m : positive) k :
  Z.pos z < 2 ^ 53 -> 0 <= k -> Z.pos m = Z.pos z * 2 ^ k ->
  binary_round prec emax s m (- k) = binary_round prec emax s z 0.
Proof.
  intros Hz Hk Hm.
  destruct (binary_round_exact s z Hz) as (m' & -> & Hm' & Hd').
  pose proof (Zdigits2_range z Hz) as Hd.
  assert (Hdm : Zdigits2 (Z.pos m) = Zdigits2 (Z.pos z) + k)
    by (rewrite Hm; apply Zdigits2_shift; lia).
  unfold binary_round, prec, emax.
  change (Z.pos (digits2_pos m)) with (Zdigits2 (Z.pos m)). rewrite Hdm.
  set (d := Zdigits2 (Z.pos z)) in *.
  assert (Hf : fexp 53 1024 (d + k + - k) = d - 53) by (unfold fexp, emin; lia).
  rewrite Hf. unfold shl_align.
  destruct (d - 53 - - k) as [|q|q] eqn:Hq.
  - (* already 53 digits *)
    assert (k = 53 - d) by lia. subst k.
    assert (m = m') by (apply Pos2Z.inj; lia). subst m'.
    replace (- (53 - d)) with (d - 53) by lia.
    apply binary_round_aux_canonical; [done|lia].
  - (* more than 53 digits: the zeros are shifted out *)
    assert (Hk' : k = 53 - d + Z.pos q) by lia.
    unfold binary_round_aux, shr_fexp, prec, emax. rewrite Hdm.
    assert (Hs : fexp 53 1024 (d + k + - k) - - k = Z.pos q) by (rewrite Hf; lia).
    rewrite Hs. cbn [shr shr_record_of_loc].
    assert (Hmq : Z.pos m = Z.pos m' * 2 ^ Z.pos q).
    { rewrite Hm, Hm', Hk', Z.pow_add_r by lia. lia. }
    rewrite Hmq, iter_shr_1_exact by lia.
    cbn [shr_m loc_of_shr_record round_nearest_even].
    rewrite Hd'.
    assert (Hs' : fexp 53 1024 (53 + (- k + Z.pos q)) - (- k + Z.pos q) = 0)
      by (unfold fexp, emin; lia).
    rewrite Hs'. cbn [shr shr_record_of_loc shr_m].
    destruct (Z.leb_spec (- k + Z.pos q) (1024 - 53)); [|lia].
    f_equal. lia.
  - (* fewer: the mantissa is shifted left *)
    assert (Hmq : Z.pos (Pos.iter xO m q) = Z.pos m').
    { rewrite iter_xO_shift, Hm, Hm'. rewrite <- Z.mul_assoc, <- Z.pow_add_r by lia.
      f_equal. f_equal. lia. }
    apply Pos2Z.inj in Hmq. rewrite Hmq.
    apply binary_round_aux_canonical; [done|lia].
Qed.

Lemma binary_normalize_scaled z k :
  - 2 ^ 53 < z < 2 ^ 53 -> 0 <= k ->
  binary_normalize prec emax (z * 2 ^ k) (- k) false = ofZ z.
Proof.
  intros Hz Hk. assert (Hp : 0 < 2 ^ k) by (apply Z.pow_pos_nonneg; lia).
  unfold ofZ, binary_normalize. destruct z as [|c|c]; [done| |].
  - destruct (Z.pos c * 2 ^ k) as [|m|m] eqn:E; try nia.
    apply binary_round_scaled; [lia|done|lia].
  - destruct (Z.neg c * 2 ^ k) as [|m|m] eqn:E; try nia.
    apply binary_round_scaled; [lia|done|].
    pose proof (Pos2Z.opp_neg m). pose proof (Pos2Z.opp_neg c). nia.
Qed.

(** *** Subtraction of integers is exact *)

Lemma shl_align_fst m e e' :
  e' <= e -> Z.pos (fst (shl_align m e e')) = Z.pos m * 2 ^ (e - e').
Proof.
  intros He. unfold shl_align. destruct (e' - e) as [|q|q] eqn:Eq; try lia.
  - replace (e - e') with 0 by lia. simpl. lia.
  - simpl. rewrite iter_xO_shift. f_equal. f_equal. lia.
Qed.

Lemma cond_Zopp_abs z : cond_Zopp (z <? 0) (Z.abs z) = z.
Proof. destruct z; reflexivity. Qed.

Lemma cond_Zopp_mul s a b : cond_Zopp s (a * b) = cond_Zopp s a * b.
Proof. destruct s; simpl; lia. Qed.

(** [a - b] on integers whose difference is below 2^53. *)
Lemma sub_ofZ a b :
  - 2 ^ 53 < a < 2 ^ 53 -> - 2 ^ 53 < b < 2 ^ 53 -> - 2 ^ 53 < a - b < 2 ^ 53 ->
  sub (ofZ a) (ofZ b) = ofZ (a - b).
Proof.
  intros Ha Hb Hab.
  destruct (Z.eq_dec b 0) as [->|Hb0].
  { rewrite Z.sub_0_r. destruct (Z.eq_dec a 0) as [->|Ha0]; [done|].
    by destruct (ofZ_finite a Ha0 Ha) as (m & -> & _). }
  destruct (Z.eq_dec a 0) as [->|Ha0].
  { rewrite Z.sub_0_l, ofZ_opp by done.
    by destruct (ofZ_finite b Hb0 Hb) as (m & -> & _). }
  destruct (ofZ_finite a Ha0 Ha) as (ma & -> & Hma & _).
  destruct (ofZ_finite b Hb0 Hb) as (mb & -> & Hmb & _).
  assert (Hda : 1 <= Zdigits2 a <= 53).
  { destruct a as [|c|c]; [done| |]; apply Zdigits2_range; lia. }
  assert (Hdb : 1 <= Zdigits2 b <= 53).
  { destruct b as [|c|c]; [done| |]; apply Zdigits2_range; lia. }
  unfold sub, SFsub.
  set (ea := Zdigits2 a - 53) in *. set (eb := Zdigits2 b - 53) in *.
  set (ez := Z.min ea eb).
  rewrite !shl_align_fst by lia. rewrite Hma, Hmb.
  rewrite <- !Z.mul_assoc, <- !Z.pow_add_r by lia.
  replace (53 - Zdigits2 a + (ea - ez)) with (- ez) by lia.
  replace (53 - Zdigits2 b + (eb - ez)) with (- ez) by lia.
  rewrite !cond_Zopp_mul, !cond_Zopp_abs, <- Z.mul_sub_distr_r.
  rewrite <- (Z.opp_involutive ez) at 2.
  apply binary_normalize_scaled; lia.
Qed.

(** *** Rounding never passes below a bound that is itself a number *)

Section LowerBound.
(** The number stays in [[l * 2^el, b * 2^eb]]. *)
Variables (l el : Z).
Hypothesis Hl : 0 < l.

Lemma shr_1_above mrs e : e + 1 <= el -> above l el mrs e -> above l el (shr_1 mrs) (e + 1).
Proof using Hl.
  intros He (_ & Hle). unfold above. split; [done|].
  assert (Hpow : 2 ^ (el - e) = 2 * 2 ^ (el - (e + 1))).
  { rewrite <- Z.pow_succ_r by lia. f_equal. lia. }
  rewrite Hpow in Hle.
  assert (0 < 2 ^ (el - (e + 1))) by (apply Z.pow_pos_nonneg; lia).
  remember (l * 2 ^ (el - (e + 1))) as u eqn:Eu.
  assert (Hu : l * (2 * 2 ^ (el - (e + 1))) = 2 * u) by lia.
  assert (Hupos : 0 < u) by nia.
  rewrite Hu in Hle. clear Hu Hpow Eu.
  destruct mrs as [m r s]; simpl in *.
  destruct m as [|[p|p|]|p]; simpl; try lia.
  all: try pose proof (Pos2Z.inj_xI p); try pose proof (Pos2Z.inj_xO p); lia.
Qed.

Lemma iter_shr_1_above p : forall mrs e,
  e + Z.pos p <= el -> above l el mrs e ->
  above l el (SpecFloat.iter_pos shr_1 p mrs) (e + Z.pos p).
Proof using Hl.
  induction p as [p IH|p IH|]; intros mrs e He Hab; simpl.
  - replace (e + Z.pos p~1) with ((e + 1 + Z.pos p) + Z.pos p) by lia.
    apply IH; [lia|]. apply IH; [lia|]. apply shr_1_above; [lia|done].
  - replace (e + Z.pos p~0) with ((e + Z.pos p) + Z.pos p) by lia.
    apply IH; [lia|]. apply IH; [lia|done].
  - apply shr_1_above; [lia|done].
Qed.

Lemma round_nearest_even_above mrs e :
  above l el mrs e ->
  above l el (shr_record_of_loc
           (round_nearest_even (shr_m mrs) (loc_of_shr_record mrs)) loc_Exact) e.
Proof using Type.
  intros (He & Hle). destruct mrs as [m r s]. unfold above in *. simpl in *.
  split; [done|].
  destruct r, s; simpl in *; try (destruct (Z.even m)); lia.
Qed.

Variables (b eb : Z).
Hypothesis Hb : 0 < b.
Hypothesis Hdig : Zdigits2 b <= 53.
Hypothesis Heb : -1074 <= eb <= 971.
Hypothesis Hel : Zdigits2 b + eb - 53 <= el.
Hypothesis Hel' : -1074 <= el.

Lemma shr_fexp_above m e lx :
  below b eb (shr_record_of_loc m lx) e ->
  above l el (shr_record_of_loc m lx) e ->
  above l el (fst (shr_fexp prec emax m e lx)) (snd (shr_fexp prec emax m e lx)).
Proof using Hl Hb Hdig Heb Hel Hel'.
  intros Hbel Hab. unfold shr_fexp, shr, prec, emax.
  destruct (fexp 53 1024 (Zdigits2 m + e) - e) as [|p|p] eqn:Hs; simpl; try done.
  apply iter_shr_1_above; [|done].
  destruct Hbel as (Hm & He & Hle). rewrite shr_record_of_loc_m in Hm, Hle.
  assert (Hle' : m <= b * 2 ^ (eb - e)) by (destruct (inexact _); lia).
  pose proof (Zdigits2_le_scaled m b (eb - e) Hm Hb ltac:(lia) Hle').
  unfold fexp, emin in Hs. lia.
Qed.

(** Rounding a value of [[l * 2^el, b * 2^eb]] gives a number of that
    interval. *)
Lemma binary_round_aux_between mx ex lx :
  below b eb (shr_record_of_loc mx lx) ex ->
  above l el (shr_record_of_loc mx lx) ex ->
  ge_dyadic l el (binary_round_aux prec emax false mx ex lx)
  /\ le_dyadic b eb (binary_round_aux prec emax false mx ex lx).
Proof using Hl Hb Hdig Heb Hel Hel'.
  intros Hbel Hab. split; [|by apply binary_round_aux_le].
  unfold binary_round_aux.
  pose proof (shr_fexp_below b eb Hb Hdig Heb _ _ _ Hbel) as H1.
  pose proof (shr_fexp_above _ _ _ Hbel Hab) as A1.
  destruct (shr_fexp prec emax mx ex lx) as [mrs' e']. simpl in H1, A1.
  apply (round_nearest_even_below b eb Hb) in H1.
  apply round_nearest_even_above in A1.
  pose proof (shr_fexp_below b eb Hb Hdig Heb _ _ _ H1) as H2.
  pose proof (shr_fexp_above _ _ _ H1 A1) as A2.
  destruct (shr_fexp prec emax _ e' loc_Exact) as [mrs'' e'']. simpl in H2, A2.
  destruct H2 as (Hm & He & Hle). destruct A2 as (He' & Hge).
  assert (0 < 2 ^ (el - e'')) by (apply Z.pow_pos_nonneg; lia).
  destruct (shr_m mrs'') as [|m|m] eqn:Em; simpl; [nia| |lia].
  unfold emax, prec. destruct (Z.leb_spec e'' (1024 - 53)); [|lia].
  simpl. done.
Qed.
End LowerBound.

(** The sign of a rounded value is the one given; the magnitude does not
    depend on it. *)
Lemma binary_round_aux_sign m e lx :
  binary_round_aux prec emax true m e lx = SFopp (binary_round_aux prec emax false m e lx).
Proof.
  unfold binary_round_aux.
  destruct (shr_fexp prec emax m e lx) as [mrs' e'].
  destruct (shr_fexp prec emax _ e' loc_Exact) as [mrs'' e''].
  destruct (shr_m mrs''); [done| |done].
  by destruct (e'' <=? emax - prec).
Qed.

(** *** Division by the length of a day *)

Lemma ofZ_msPerDay : ofZ msPerDay = S754_finite false 5798205849600000 (-26).
Proof. vm_compute. reflexivity. Qed.

(** The quotient of a positive integer by the length of a day stays
    between two numbers that enclose the exact quotient. *)
Lemma div_day_between z l el b eb :
  0 < z < 2 ^ 53 -> 0 < l -> 0 < b -> Zdigits2 b <= 53 ->
  -27 <= eb <= 0 -> -27 <= el <= 0 -> Zdigits2 b + eb - 53 <= el ->
  l * msPerDay <= z * 2 ^ (- el) -> z * 2 ^ (- eb) <= b * msPerDay ->
  ge_dyadic l el (div (ofZ z) (ofZ msPerDay))
  /\ le_dyadic b eb (div (ofZ z) (ofZ msPerDay)).
Proof.
  intros Hz Hl Hb Hdig Heb Hel Hbl Hlo Hhi.
  rewrite ofZ_msPerDay.
  destruct (ofZ_finite z) as (mc & -> & Hmc & Hdc); [lia|lia|].
  assert (Hdz : 1 <= Zdigits2 z <= 53).
  { destruct z as [|c|c]; try lia. apply Zdigits2_range. lia. }
  replace (z <? 0) with false by (symmetry; apply Z.ltb_ge; lia).
  rewrite Z.abs_eq in Hmc by lia.
  set (dz := Zdigits2 z) in *.
  unfold div, SFdiv, SFdiv_core_binary, prec, emax. rewrite Hdc.
  change (Zdigits2 (Z.pos 5798205849600000)) with 53.
  assert (He : Z.min (fexp 53 1024 (53 + (dz - 53) - (53 + -26))) (dz - 53 - -26) = dz - 80)
    by (unfold fexp, emin; lia).
  rewrite He. replace (dz - 53 - -26 - (dz - 80)) with 53 by lia.
  rewrite Z.shiftl_mul_pow2 by lia.
  pose proof (Z_div_mod (Z.pos mc * 2 ^ 53) (Z.pos 5798205849600000) ltac:(lia)) as Hdiv.
  destruct (Z.div_eucl (Z.pos mc * 2 ^ 53) (Z.pos 5798205849600000)) as [q r].
  destruct Hdiv as [Hqr Hr]. cbn [xorb].
  assert (Hq : 0 <= q) by nia.
  change (Z.pos 5798205849600000) with (msPerDay * 2 ^ 26) in *.
  assert (HM : 0 < msPerDay * 2 ^ 26) by done.
  set (mp := msPerDay * 2 ^ 26) in *.
  (* the dividend, as the numerator scaled to either bound *)
  assert (Hpl : 0 < 2 ^ (el - (dz - 80))) by (apply Z.pow_pos_nonneg; lia).
  assert (Hpb : 0 < 2 ^ (eb - (dz - 80))) by (apply Z.pow_pos_nonneg; lia).
  assert (Hnl : 0 < 2 ^ (- el)) by (apply Z.pow_pos_nonneg; lia).
  assert (Hnb : 0 < 2 ^ (- eb)) by (apply Z.pow_pos_nonneg; lia).
  assert (El : Z.pos mc * 2 ^ 53 = z * 2 ^ (- el) * 2 ^ (el - (dz - 80)) * 2 ^ 26).
  { rewrite Hmc. rewrite <- !Z.mul_assoc, <- !Z.pow_add_r by lia. f_equal. f_equal. lia. }
  assert (Eb : Z.pos mc * 2 ^ 53 = z * 2 ^ (- eb) * 2 ^ (eb - (dz - 80)) * 2 ^ 26).
  { rewrite Hmc. rewrite <- !Z.mul_assoc, <- !Z.pow_add_r by lia. f_equal. f_equal. lia. }
  apply (binary_round_aux_between l el Hl b eb Hb Hdig); [lia|done|lia| |].
  - (* below *)
    unfold below. rewrite shr_record_of_loc_m. split; [done|]. split; [lia|].
    assert (Hle : Z.pos mc * 2 ^ 53 <= b * 2 ^ (eb - (dz - 80)) * mp).
    { rewrite Eb. unfold mp.
      assert (z * 2 ^ (- eb) * 2 ^ (eb - (dz - 80)) <= b * msPerDay * 2 ^ (eb - (dz - 80)))
        by (apply Z.mul_le_mono_nonneg_r; lia).
      assert (0 < 2 ^ 26) by done. nia. }
    destruct (new_location mp r) as [|cmp] eqn:Hloc.
    + apply new_location_exact in Hloc. subst r. simpl.
      assert (mp * q <= mp * (b * 2 ^ (eb - (dz - 80)))) by lia.
      apply Z.mul_le_mono_pos_l in H; lia.
    + assert (r <> 0)
        by (intros ->; pose proof (proj2 (new_location_exact mp 0) eq_refl); congruence).
      assert (Hinex : inexact (shr_record_of_loc q (loc_Inexact cmp)) = true)
        by (destruct cmp; done).
      rewrite Hinex.
      assert (mp * q < mp * (b * 2 ^ (eb - (dz - 80)))) by lia.
      apply Z.mul_lt_mono_pos_l in H0; lia.
  - (* above *)
    unfold above. rewrite shr_record_of_loc_m. split; [lia|].
    assert (Hge : l * 2 ^ (el - (dz - 80)) * mp <= Z.pos mc * 2 ^ 53).
    { rewrite El. unfold mp.
      assert (l * msPerDay * 2 ^ (el - (dz - 80)) <= z * 2 ^ (- el) * 2 ^ (el - (dz - 80)))
        by (apply Z.mul_le_mono_nonneg_r; lia).
      assert (0 < 2 ^ 26) by done. nia. }
    assert (mp * (l * 2 ^ (el - (dz - 80))) < mp * (q + 1)) by lia.
    apply Z.mul_lt_mono_pos_l in H; lia.
Qed.

(** The quotient of a positive integer below 2^52 by the length of a day,
    as a number: a positive mantissa whose integral part is the quotient
    of the integers, and with no fraction exactly when the division of the
    integers leaves no remainder. *)
Lemma div_day_positive z :
  0 < z < 2 ^ 52 ->
  exists m e, div (ofZ z) (ofZ msPerDay) = S754_finite false m e /\ e < 0
              /\ (if z mod msPerDay =? 0
                  then Z.pos m = z / msPerDay * 2 ^ (- e)
                  else z / msPerDay * 2 ^ (- e) < Z.pos m
                       < (z / msPerDay + 1) * 2 ^ (- e)).
Proof.
  intros Hz.
  pose proof (Z_div_mod_eq_full z msPerDay) as Hdm.
  pose proof (Z.mod_pos_bound z msPerDay ltac:(done)) as Ht.
  assert (HMv : msPerDay = 86400000) by done.
  set (j := z / msPerDay) in *. set (t := z mod msPerDay) in *.
  assert (Hj : 0 <= j < 52124996) by (change (2 ^ 52) with 4503599627370496 in Hz; lia).
  destruct (Z.eqb_spec t 0) as [Ht0|Ht0].
  - (* no remainder: the quotient is the integer *)
    assert (Hj1 : 1 <= j) by lia.
    assert (Hz53 : 0 < z < 2 ^ 53).
    { change (2 ^ 53) with 9007199254740992.
      change (2 ^ 52) with 4503599627370496 in Hz. lia. }
    assert (Hdj : Zdigits2 j <= 26) by (apply Zdigits2_bound; lia).
    assert (Hlo : j * 2 ^ 27 * msPerDay <= z * 2 ^ (- -27)) by (change (- -27) with 27; lia).
    assert (Hhi : z * 2 ^ (- 0) <= j * msPerDay) by (change (- 0) with 0; lia).
    destruct (div_day_between z (j * 2 ^ 27) (-27) j 0 Hz53 ltac:(lia) ltac:(lia)
                ltac:(lia) ltac:(lia) ltac:(lia) ltac:(lia) Hlo Hhi) as [Hge Hle].
    destruct (div (ofZ z) (ofZ msPerDay)) as [| | |[] m e]; try done.
    destruct Hge as [He Hge], Hle as [_ Hle].
    exists m, e. split; [done|]. split; [lia|].
    assert (E : 2 ^ 27 * 2 ^ (-27 - e) = 2 ^ (- e)).
    { rewrite <- Z.pow_add_r by lia. f_equal. lia. }
    replace (0 - e) with (- e) in Hle by lia.
    rewrite <- Z.mul_assoc, E in Hge. lia.
  - (* a remainder: strictly between the quotient and the next integer *)
    assert (Hz53 : 0 < z < 2 ^ 53).
    { change (2 ^ 53) with 9007199254740992.
      change (2 ^ 52) with 4503599627370496 in Hz. lia. }
    assert (Hdb : Zdigits2 ((j + 1) * 2 ^ 27 - 1) <= 53) by (apply Zdigits2_bound; lia).
    assert (Hlo : (j * 2 ^ 27 + 1) * msPerDay <= z * 2 ^ (- -27))
      by (change (- -27) with 27; lia).
    assert (Hhi : z * 2 ^ (- -27) <= ((j + 1) * 2 ^ 27 - 1) * msPerDay)
      by (change (- -27) with 27; lia).
    destruct (div_day_between z (j * 2 ^ 27 + 1) (-27) ((j + 1) * 2 ^ 27 - 1) (-27)
                Hz53 ltac:(lia) ltac:(lia) Hdb ltac:(lia) ltac:(lia) ltac:(lia) Hlo Hhi)
      as [Hge Hle].
    destruct (div (ofZ z) (ofZ msPerDay)) as [| | |[] m e]; try done.
    destruct Hge as [He Hge], Hle as [_ Hle].
    exists m, e. split; [done|]. split; [lia|].
    assert (E : 2 ^ 27 * 2 ^ (-27 - e) = 2 ^ (- e)).
    { rewrite <- Z.pow_add_r by lia. f_equal. lia. }
    assert (0 < 2 ^ (-27 - e)) by (apply Z.pow_pos_nonneg; lia).
    nia.
Qed.

Lemma binary_normalize_ofZ z s : z <> 0 \/ s = false -> binary_normalize prec emax z 0 s = ofZ z.
Proof. intros [H| ->]; [|done]. by destruct z. Qed.

(** [Math.floor(z / 86400000)] on an integer [z] of magnitude below 2^52
    is the quotient of the integers, rounded down. *)
Lemma floor_div_day z :
  - 2 ^ 52 < z < 2 ^ 52 -> Math_floor (div (ofZ z) (ofZ msPerDay)) = ofZ (z / msPerDay).
Proof.
  intros Hz. assert (HMv : msPerDay = 86400000) by done.
  destruct (Z.lt_trichotomy z 0) as [Hneg|[->|Hpos]].
  - (* negative: the magnitude is divided, the sign put back *)
    assert (Hop : ofZ z = SFopp (ofZ (- z))).
    { rewrite <- (Z.opp_involutive z) at 1. apply ofZ_opp; [|lia].
      change (2 ^ 53) with 9007199254740992.
      change (2 ^ 52) with 4503599627370496 in Hz. lia. }
    destruct (div_day_positive (- z) ltac:(lia)) as (m & e & Hy & He & Hm).
    rewrite Hop. rewrite ofZ_msPerDay in *.
    destruct (ofZ_finite (- z)) as (mz & Ez & _); [lia| |].
    { change (2 ^ 53) with 9007199254740992.
      change (2 ^ 52) with 4503599627370496 in Hz. lia. }
    rewrite Ez in *. replace (- z <? 0) with false in * by (symmetry; apply Z.ltb_ge; lia).
    unfold div, SFdiv in *. cbn [SFopp negb xorb] in *.
    destruct (SFdiv_core_binary _ _ _ _ _ _) as [[mq eq] lq].
    rewrite binary_round_aux_sign, Hy. cbn [SFopp negb].
    unfold Math_floor. destruct (Z.leb_spec 0 e); [lia|]. cbn [cond_Zopp].
    assert (Hd : 0 < 2 ^ (- e)) by (apply Z.pow_pos_nonneg; lia).
    pose proof (Z_div_mod_eq_full (- z) 86400000) as Hdm.
    pose proof (Z.mod_pos_bound (- z) 86400000 ltac:(done)) as Ht.
    rewrite HMv in *.
    set (j := - z / 86400000) in *. set (t := (- z) mod 86400000) in *.
    destruct (Z.eqb_spec t 0) as [Ht0|Ht0].
    + assert (Ez' : z = - j * 86400000) by lia.
      assert (Hq : z / 86400000 = - j) by (rewrite Ez'; apply Z.div_mul; lia).
      rewrite Hq, Hm. rewrite <- Z.mul_opp_l, Z.div_mul by lia.
      apply binary_normalize_ofZ. left. lia.
    + assert (Hq : z / 86400000 = - (j + 1)).
      { symmetry. apply (Z.div_unique_pos z 86400000 (- (j + 1)) (86400000 - t)); lia. }
      rewrite Hq.
      assert (Hf : - Z.pos m / 2 ^ (- e) = - (j + 1)).
      { symmetry. apply (Z.div_unique_pos _ _ _ ((j + 1) * 2 ^ (- e) - Z.pos m)); lia. }
      rewrite Hf. apply binary_normalize_ofZ. left. lia.
  - by vm_compute.
  - destruct (div_day_positive z ltac:(lia)) as (m & e & -> & He & Hm).
    unfold Math_floor. destruct (Z.leb_spec 0 e); [lia|]. cbn [cond_Zopp].
    assert (Hd : 0 < 2 ^ (- e)) by (apply Z.pow_pos_nonneg; lia).
    assert (Hf : Z.pos m / 2 ^ (- e) = z / msPerDay).
    { destruct (z mod msPerDay =? 0).
      - rewrite Hm. apply Z.div_mul. lia.
      - symmetry. apply (Z.div_unique_pos _ _ _ (Z.pos m - z / msPerDay * 2 ^ (- e))); lia. }
    rewrite Hf. apply binary_normalize_ofZ. by right.
Qed.

(** *** Strict equality of integers *)

Lemma strict_eq_ofZ a b :
  - 2 ^ 53 < a < 2 ^ 53 -> - 2 ^ 53 < b < 2 ^ 53 -> strict_eq (ofZ a) (ofZ b) = (a =? b).
Proof.
  intros Ha Hb. unfold strict_eq, SFeqb.
  destruct (Z.eqb_spec a b) as [->|Hne].
  { destruct (Z.eq_dec b 0) as [->|Hb0]; [done|].
    destruct (ofZ_finite b Hb0 Hb) as (mb & -> & _). cbn [SFcompare].
    rewrite Z.compare_refl, Pos.compare_cont_refl. by destruct (b <? 0). }
  destruct (Z.eq_dec a 0) as [->|Ha0]; [|destruct (ofZ_finite a Ha0 Ha) as (ma & -> & Hma & _)];
    (destruct (Z.eq_dec b 0) as [->|Hb0];
     [|destruct (ofZ_finite b Hb0 Hb) as (mb & -> & Hmb & _)]).
  - done.
  - change (ofZ 0) with (S754_zero false). cbn [SFcompare]. by destruct (b <? 0).
  - change (ofZ 0) with (S754_zero false). cbn [SFcompare]. by destruct (a <? 0).
  - cbn [SFcompare].
    assert (Hpa : 0 < 2 ^ (53 - Zdigits2 a)).
    { apply Z.pow_pos_nonneg; [lia|].
      destruct a as [|c|c]; try lia; pose proof (Zdigits2_range c ltac:(lia)); simpl in *; lia. }
    assert (Hm : Zdigits2 a = Zdigits2 b -> (a <? 0) = (b <? 0) -> ma <> mb).
    { intros Hd Hs Hm. subst mb. rewrite Hd in *.
      assert (Z.abs a = Z.abs b) by nia.
      destruct (Z.ltb_spec a 0), (Z.ltb_spec b 0); try done; lia. }
    change (Pos.compare_cont Eq ma mb) with (Pos.compare ma mb).
    destruct (a <? 0) eqn:Sa, (b <? 0) eqn:Sb; try done.
    + destruct (Z.compare_spec (Zdigits2 a - 53) (Zdigits2 b - 53)) as [E|E|E]; try done.
      specialize (Hm ltac:(lia) eq_refl).
      destruct (Pos.compare_spec ma mb); done.
    + destruct (Z.compare_spec (Zdigits2 a - 53) (Zdigits2 b - 53)) as [E|E|E]; try done.
      specialize (Hm ltac:(lia) eq_refl).
      destruct (Pos.compare_spec ma mb); done.
Qed.
End WholeDaysFacts.

(* ===================================================================== *)
(** ** Dates as text *)
(* ===================================================================== *)

Module DateFacts.
Import DateFns.
Local Open Scope Z_scope.

Lemma digit_value_range a v : digit_value a = Some v -> 0 <= v <= 9.
Proof.
  unfold digit_value. destruct (_ && _) eqn:E; [|done]. intros [= <-].
  apply andb_true_iff in E as [H1 H2]. lia.
Qed.

Lemma digits_value_step acc a r (v : Z) :
  digits_value acc (a :: r) = Some v ->
  exists x, digit_value a = Some x /\ digits_value (acc * 10 + x) r = Some v.
Proof. simpl. destruct (digit_value a); [eauto|done]. Qed.

Lemma days_from_civil_range y m d :
  0 <= y <= 9999 -> 1 <= m <= 12 -> 1 <= d <= 31 ->
  - 719528 <= days_from_civil y m d <= 2932899.
Proof.
  intros Hy Hm Hd. unfold days_from_civil.
  destruct (m <=? 2) eqn:E1, (2 <? m) eqn:E2; Z.div_mod_to_equations; lia.
Qed.

(** A date that parses is the midnight that starts a day between the years
    0000 and 9999. *)
Lemma parse_date_range s t :
  parse_date s = Some t ->
  exists d, t = d * msPerDay /\ - 719528 <= d <= 2932899.
Proof.
  unfold parse_date.
  destruct (list_ascii_of_string s)
    as [|y1 [|y2 [|y3 [|y4 [|h1 [|m1 [|m2 [|h2 [|d1 [|d2 [|x r]]]]]]]]]]]; try done.
  all: destruct h1 as [[] [] [] [] [] [] [] []]; try done.
  all: destruct h2 as [[] [] [] [] [] [] [] []]; try done.
  destruct (digits_value 0 [y1; y2; y3; y4]) as [y|] eqn:Ey; [|done].
  destruct (digits_value 0 [m1; m2]) as [m|] eqn:Em; [|done].
  destruct (digits_value 0 [d1; d2]) as [d|] eqn:Ed; [|done].
  destruct (_ && _) eqn:E; [|done]. intros [= <-].
  exists (days_from_civil y m d). split; [done|].
  rewrite !andb_true_iff in E. destruct E as [[[? ?] ?] ?].
  apply days_from_civil_range; try lia.
  apply digits_value_step in Ey as (a1 & D1 & Ey).
  apply digits_value_step in Ey as (a2 & D2 & Ey).
  apply digits_value_step in Ey as (a3 & D3 & Ey).
  apply digits_value_step in Ey as (a4 & D4 & Ey).
  simpl in Ey. injection Ey as <-.
  apply digit_value_range in D1, D2, D3, D4. lia.
Qed.

(** The calendar date of a day number names that day, and is a date of
    the calendar. *)
Lemma civil_from_days_spec z :
  - 719528 <= z <= 2932896 ->
  let '(y, m, d) := civil_from_days z in
  0 <= y <= 9999 /\ 1 <= m <= 12 /\ 1 <= d <= 31 /\ days_from_civil y m d = z.
Proof.
  intros Hz. unfold civil_from_days, days_from_civil.
  set (z' := z + 719468).
  set (era := z' / 146097).
  set (doe := z' - era * 146097).
  set (yoe := (doe - doe / 1460 + doe / 36524 - doe / 146096) / 365).
  set (doy := doe - (365 * yoe + yoe / 4 - yoe / 100)).
  set (mp := (5 * doy + 2) / 153).
  assert (Hdoe : 0 <= doe <= 146096) by (unfold doe, era, z'; Z.div_mod_to_equations; lia).
  assert (Hera : -1 <= era <= 24) by (unfold era, z'; Z.div_mod_to_equations; lia).
  assert (Hyoe : 0 <= yoe <= 399 /\ 0 <= doy <= 365)
    by (unfold doy, yoe; Z.div_mod_to_equations; lia).
  assert (Hmp : 0 <= mp <= 11) by (unfold mp; Z.div_mod_to_equations; lia).
  assert (Hd : 1 <= doy - (153 * mp + 2) / 5 + 1 <= 31)
    by (unfold mp; Z.div_mod_to_equations; lia).
  assert (Hlo : era = -1 -> yoe = 399 /\ 10 <= mp).
  { intros He. assert (146037 <= doe) by (unfold doe, z'; lia).
    assert (yoe = 399) by (unfold yoe; Z.div_mod_to_equations; lia).
    split; [done|]. unfold mp, doy. Z.div_mod_to_equations. lia. }
  assert (Hhi : era = 24 -> yoe = 399 -> mp < 10).
  { intros He Hy. assert (doe <= 146036) by (unfold doe, z'; lia).
    unfold mp, doy. Z.div_mod_to_equations. lia. }
  destruct (Z.ltb_spec mp 10) as [Hlt|Hge].
  - destruct (Z.leb_spec (mp + 3) 2); [lia|].
    destruct (Z.ltb_spec 2 (mp + 3)); [|lia].
    replace (mp + 3 - 3) with mp by lia.
    assert (Ey : (yoe + era * 400) / 400 = era) by (Z.div_mod_to_equations; lia).
    rewrite Ey. replace (yoe + era * 400 - era * 400) with yoe by lia.
    split; [|split; [lia|split; [lia|]]].
    + lia.
    + unfold doy, doe, z'. lia.
  - destruct (Z.leb_spec (mp - 9) 2); [|lia].
    destruct (Z.ltb_spec 2 (mp - 9)); [lia|].
    replace (mp - 9 + 9) with mp by lia.
    replace (yoe + era * 400 + 1 - 1) with (yoe + era * 400) by lia.
    assert (Ey : (yoe + era * 400) / 400 = era) by (Z.div_mod_to_equations; lia).
    rewrite Ey. replace (yoe + era * 400 - era * 400) with yoe by lia.
    split; [|split; [lia|split; [lia|]]].
    + lia.
    + unfold doy, doe, z'. lia.
Qed.

Lemma digit_value_digit n : digit_value (digit n) = Some (n mod 10).
Proof.
  unfold digit. pose proof (Z.mod_pos_bound n 10 ltac:(lia)) as H.
  remember (n mod 10) as k eqn:E. clear E.
  assert (Hk : k = 0 \/ k = 1 \/ k = 2 \/ k = 3 \/ k = 4 \/ k = 5 \/ k = 6 \/ k = 7
               \/ k = 8 \/ k = 9) by lia.
  repeat (destruct Hk as [->|Hk]; [reflexivity|]). by subst.
Qed.

(** A day of the years 0000 to 9999, printed and parsed back, is the
    midnight that starts it. *)
Lemma parse_date_format_day z :
  - 719528 <= z <= 2932896 -> parse_date (format_day z) = Some (z * msPerDay).
Proof.
  intros Hz. pose proof (civil_from_days_spec z Hz) as H.
  unfold format_day. destruct (civil_from_days z) as [[y m] d].
  destruct H as (Hy & Hm & Hd & E).
  unfold parse_date, pad4, pad2.
  assert (Hs : forall a1 a2 a3 a4 b1 b2 c1 c2,
             list_ascii_of_string
               (String a1 (String a2 (String a3 (String a4 ""))) ++ "-"
                ++ String b1 (String b2 "") ++ "-" ++ String c1 (String c2 ""))%string
             = [a1; a2; a3; a4; "-"%char; b1; b2; "-"%char; c1; c2]) by reflexivity.
  rewrite Hs. cbn [digits_value].
  rewrite !digit_value_digit.
  replace ((((0 * 10 + (y / 1000) mod 10) * 10 + (y / 100) mod 10) * 10
             + (y / 10) mod 10) * 10 + y mod 10) with y
    by (Z.div_mod_to_equations; lia).
  replace ((0 * 10 + (m / 10) mod 10) * 10 + m mod 10) with m
    by (Z.div_mod_to_equations; lia).
  replace ((0 * 10 + (d / 10) mod 10) * 10 + d mod 10) with d
    by (Z.div_mod_to_equations; lia).
  destruct (Z.leb_spec 1 m), (Z.leb_spec m 12), (Z.leb_spec 1 d), (Z.leb_spec d 31);
    try lia.
  simpl. by rewrite E.
Qed.
End DateFacts.

(* ===================================================================== *)
(** ** The streak of one habit *)
(* ===================================================================== *)

Module PerHabitStreak.
Import JsNumber DateFns Schema HabitTracker.
Import JsNumberFacts WholeDaysFacts DateFacts StreakFacts.
Local Open Scope Z_scope.

Lemma sub_nan x : sub x S754_nan = S754_nan.
Proof. by destruct x. Qed.

(** The arithmetic of [diffDays] is exact: the number computed is the
    quotient of the integers, rounded down; NaN for an invalid date. *)
Lemma diffDays_exact c log :
  Z.abs (now_ms c) < 2 ^ 51 ->
  diffDays c log = match parse_date (log_date log) with
                   | Some t => ofZ ((now_ms c - t) / msPerDay)
                   | None => S754_nan
                   end.
Proof.
  intros Hn. unfold diffDays, getTime. destruct (parse_date _) as [t|] eqn:E.
  - apply parse_date_range in E as (d & -> & Hd).
    assert (HM : msPerDay = 86400000) by done.
    change (2 ^ 51) with 2251799813685248 in Hn.
    rewrite sub_ofZ.
    + apply floor_div_day. change (2 ^ 52) with 4503599627370496. lia.
    + change (2 ^ 53) with 9007199254740992. lia.
    + change (2 ^ 53) with 9007199254740992. lia.
    + change (2 ^ 53) with 9007199254740992. lia.
  - by rewrite sub_nan.
Qed.

Lemma utcDay_range c : Z.abs (now_ms c) < 2 ^ 51 -> - 26062498 <= utcDay c <= 26062497.
Proof.
  intros Hn. change (2 ^ 51) with 2251799813685248 in Hn.
  unfold utcDay. change msPerDay with 86400000. Z.div_mod_to_equations. lia.
Qed.

(** [diffDays === n] holds exactly when the log is dated [n] days before
    the UTC date of the clock. *)
Lemma diffDays_eq c log n :
  Z.abs (now_ms c) < 2 ^ 51 -> Z.of_nat n < 2 ^ 53 ->
  strict_eq (diffDays c log) (ofNat n) = true
  <-> Spec.dayOf log = Some (utcDay c - Z.of_nat n).
Proof.
  intros Hn Hs. rewrite diffDays_exact by done. unfold Spec.dayOf.
  pose proof (utcDay_range c Hn) as Hu.
  destruct (parse_date _) as [t|] eqn:E.
  - apply parse_date_range in E as (d & -> & Hd).
    rewrite Z.div_mul by done.
    replace ((now_ms c - d * msPerDay) / msPerDay) with (utcDay c - d).
    2:{ unfold utcDay.
        replace (now_ms c - d * msPerDay) with (now_ms c + (- d) * msPerDay) by lia.
        rewrite Z.div_add by done. lia. }
    unfold ofNat. rewrite strict_eq_ofZ.
    + rewrite Z.eqb_eq. split; [intros; f_equal; lia|intros [= ->]; lia].
    + change (2 ^ 53) with 9007199254740992. lia.
    + lia.
  - split; [|done]. by destruct (ofNat n).
Qed.

(** The loop over a run of logs dated on consecutive days back from the
    UTC date of the clock, followed by a log of another day or by none. *)
Lemma streakOver_run c older : forall recent n,
  Z.abs (now_ms c) < 2 ^ 51 -> Z.of_nat (n + length recent) < 2 ^ 53 ->
  (forall j log, recent !! j = Some log ->
     Spec.dayOf log = Some (utcDay c - Z.of_nat (n + j))) ->
  (forall log, head older = Some log ->
     Spec.dayOf log <> Some (utcDay c - Z.of_nat (n + length recent))) ->
  streakOver c (recent ++ older) n = (n + length recent)%nat.
Proof.
  induction recent as [|log recent IH]; intros n Hn Hlen Hrun Hstop; simpl.
  - rewrite Nat.add_0_r in *. destruct older as [|log older]; [done|]. simpl.
    destruct (strict_eq (diffDays c log) (ofNat n)) eqn:E; [|done].
    exfalso. apply (Hstop log eq_refl). apply diffDays_eq; [done|lia|done].
  - simpl in Hlen.
    assert (E : strict_eq (diffDays c log) (ofNat n) = true).
    { apply diffDays_eq; [done|lia|]. rewrite (Hrun 0%nat log eq_refl). do 3 f_equal. lia. }
    rewrite E, IH; [lia|done|lia| |].
    + intros j l Hl. rewrite (Hrun (S j) l Hl). do 3 f_equal. lia.
    + intros l Hl. replace (S n + length recent)%nat with (n + S (length recent))%nat by lia.
      by apply Hstop.
Qed.
End PerHabitStreak.

Module StreakCalendar.
Import JsNumber DateFns Schema HabitTracker.
Import JsNumberFacts WholeDaysFacts DateFacts StreakFacts PerHabitStreak.
Local Open Scope Z_scope.

(** X4.  The streak of one habit, in calendar terms.  The floating-point
    arithmetic of the loop loses nothing: the streak is the number of
    leading logs of which the j-th is dated exactly j days before the UTC
    date of the clock. *)
Theorem streakOver_utc_days c logs :
  Z.abs (now_ms c) < 2 ^ 51 -> Z.of_nat (length logs) < 2 ^ 32 ->
  exists k, streakOver c logs 0 = k /\ (k <= length logs)%nat
    /\ (forall j log, (j < k)%nat -> logs !! j = Some log ->
          Spec.dayOf log = Some (utcDay c - Z.of_nat j))
    /\ (forall log, logs !! k = Some log ->
          Spec.dayOf log <> Some (utcDay c - Z.of_nat k)).
Proof.
  intros Hn Hl. destruct (streakOver_spec c logs 0) as (k & Hk & Hle & Hhit & Hstop).
  exists k. simpl in Hk, Hhit, Hstop. split; [done|]. split; [done|].
  change (2 ^ 32) with 4294967296 in Hl. split.
  - intros j log Hj Hlog. apply diffDays_eq; [done| |by apply (Hhit j)].
    change (2 ^ 53) with 9007199254740992. lia.
  - intros log Hlog Hd. apply diffDays_eq in Hd; [|done|].
    + by rewrite (Hstop log Hlog) in Hd.
    + change (2 ^ 53) with 9007199254740992. lia.
Qed.

(** X5.  A log dated today, as a tick writes it, starts the streak of its
    habit exactly when the local date of the browser is the UTC date;
    when the two differ the streak shown is zero, whatever the logs. *)
Theorem today_log_streak c log rest :
  Z.abs (now_ms c) < 2 ^ 51 -> - 719528 <= localDay c <= 2932896 ->
  log_date log = format_today c ->
  (localDay c = utcDay c -> (1 <= streakOver c (log :: rest) 0)%nat)
  /\ (localDay c <> utcDay c -> streakOver c (log :: rest) 0 = 0%nat).
Proof.
  intros Hn Hr Hd.
  assert (Hday : Spec.dayOf log = Some (localDay c)).
  { unfold Spec.dayOf, format_today in *. rewrite Hd, parse_date_format_day by done.
    by rewrite Z.div_mul. }
  pose proof (diffDays_eq c log 0 Hn ltac:(done)) as Heq.
  rewrite Hday in Heq. change (Z.of_nat 0) with 0 in Heq. rewrite Z.sub_0_r in Heq.
  simpl. split.
  - intros E. rewrite (proj2 Heq) by (by rewrite E).
    destruct (streakOver_spec c rest 1) as (k & -> & _). lia.
  - intros E. destruct (strict_eq (diffDays c log) (ofNat 0)) eqn:Es; [|done].
    exfalso. apply E. by injection (proj1 Heq eq_refl).
Qed.

(** X6.  In a browser whose local date is the UTC date, the streak of a habit
    is the number of consecutive days, today included, on which the logs
    say it was completed: with the logs of today, yesterday and so on back
    for [k] days at the head of the list, and next a log of an earlier day
    or none, the streak is [k]. *)
Theorem per_habit_streak_consecutive_days c recent older :
  Z.abs (now_ms c) < 2 ^ 51 -> localDay c = utcDay c ->
  - 719528 <= localDay c - Z.of_nat (length recent) -> localDay c <= 2932896 ->
  (forall j log, recent !! j = Some log -> log_date log = format_subDays c j) ->
  (forall log, head older = Some log ->
     Spec.dayOf log <> Some (localDay c - Z.of_nat (length recent))) ->
  streakOver c (recent ++ older) 0 = length recent.
Proof.
  intros Hn Hutc Hlo Hhi Hrun Hstop.
  rewrite (streakOver_run c older recent 0 Hn); [done| | |].
  - change (2 ^ 53) with 9007199254740992. lia.
  - intros j log Hlog. apply lookup_lt_Some in Hlog as Hj.
    unfold Spec.dayOf. rewrite (Hrun j log Hlog). unfold format_subDays.
    rewrite parse_date_format_day by lia. rewrite Z.div_mul by done.
    simpl. by rewrite Hutc.
  - intros log Hlog. simpl. rewrite <- Hutc. by apply Hstop.
Qed.
End StreakCalendar.

(* ===================================================================== *)
(** ** The effects that load what the components show *)
(* ===================================================================== *)

Module EffectFacts.
Import JsNumber DateFns Schema Supabase Js Frame Invariants Views.
Import SupabaseFacts HandlerFacts TransportUp HabitTracker HabitListFacts TodayLogsFacts.

Global Instance name_order_total : Total name_order.
Proof.
  intros x y. unfold name_order.
  destruct (String.leb (cat_name x) (cat_name y)) eqn:E; [by left|right].
  unfold String.leb in *. rewrite String.compare_antisym.
  destruct (String.compare (cat_name x) (cat_name y)); done.
Qed.

(** X16.  [fetchCategories] of the create dialog.  With the transport up the
    dialog offers every category of the table, ordered by name; when the
    select fails the categories it had stay and a toast reports it. *)
Lemma fetchCategories_spec (w : World App) :
  (transport_up (backend w) ->
   exists w',
     fetchCategories (fun data => modify (with_createDlg (setCategories data))) w
     = (Normal tt, w')
     /\ backend w' = backend w
     /\ (forall c, c ∈ categories (createDlg (ui w'))
                   <-> c ∈ db_habit_categories (backend w))
     /\ Sorted name_order (categories (createDlg (ui w')))
     /\ formData (createDlg (ui w')) = formData (createDlg (ui w))
     /\ trace w' = trace w ++ [DataRequest "habit_categories" "select"])
  /\ (forall msg b', select_categories (backend w) = (Error msg, b') ->
        fetchCategories (fun data => modify (with_createDlg (setCategories data))) w
        = (Normal tt,
           mkWorld b' (ui w)
             (trace w ++ [DataRequest "habit_categories" "select";
                          ToastError "Failed to load categories"]))).
Proof.
  split.
  - intros Hup. eexists. split.
    + unfold fetchCategories, try_catch. unfold bind at 1. unfold await at 1.
      unfold select_categories. rewrite request_up by done.
      unfold modify. cbn [backend ui trace]. reflexivity.
    + cbn [backend ui trace]. unfold with_createDlg, setCategories.
      cbn [createDlg categories formData]. split; [done|]. split; [|split; [|done]].
      * intros c. by rewrite merge_sort_Permutation.
      * apply Sorted_merge_sort. apply _.
  - intros msg b' Hsel. unfold fetchCategories. run. rewrite Hsel.
    cbn [backend ui trace fst snd]. by rewrite <- !app_assoc.
Qed.

(** X9.  The effect of the habit list on a change of [habits], with the
    transport up and a store that keeps the uniqueness constraint.  With no
    habit it does nothing.  Otherwise it fills both maps and writes
    nothing: a habit is in the map of today at [c] exactly when the user's
    log of that habit for today has completed flag [c], and every habit on
    the list has the streak of its completed logs. *)
Lemma HabitList_effect_shows env (w : World App) uid :
  transport_up (backend w) -> session (backend w) = Some uid ->
  unique_logs (backend w) ->
  let w' := exec (HabitList_effect env) w in
  backend w' = backend w
  /\ habits (page (ui w')) = habits (page (ui w))
  /\ (habits (page (ui w)) = [] -> w' = w)
  /\ (habits (page (ui w)) <> [] ->
      (forall hid c,
         todayLogs (hlist (ui w')) !! hid = Some c
         <-> exists l, l ∈ db_habit_logs (backend w) /\ log_habit_id l = hid
                       /\ log_user_id l = uid /\ log_date l = today env
                       /\ log_completed l = c)
      /\ (forall hid,
            streaks (hlist (ui w')) !! hid
            = if existsb (fun h => String.eqb (habit_id (habit_row h)) hid)
                         (habits (page (ui w)))
              then Some (streakOver (clock env) (completedLogs (backend w) hid) 0)
              else None)).
Proof.
  intros Hup Hs Hu. cbv zeta.
  assert (Hrun : HabitList_effect env w
                 = if (0 <? length (habits (page (ui w))))%nat
                   then bind (spawn (fetchTodayLogs env))
                             (fun _ => spawn (calculateStreaks env)) w
                   else (Normal tt, w)).
  { unfold HabitList_effect. unfold bind at 1. unfold getState. cbn [ui].
    by destruct (0 <? _)%nat. }
  unfold exec. rewrite Hrun. clear Hrun.
  destruct (habits (page (ui w))) as [|h hs] eqn:Eh.
  - cbn [length Nat.ltb Nat.leb snd]. by rewrite Eh.
  - change (0 <? length (h :: hs))%nat with true. cbv iota.
    unfold bind, spawn. rewrite (fetchTodayLogs_up env w uid) by done. cbn [snd].
    rewrite (calculateStreaks_up env _ uid) by done.
    cbn [snd backend ui trace]. unfold with_hlist.
    cbn [page hlist habits todayLogs streaks]. rewrite Eh.
    split; [done|]. split; [done|]. split; [done|]. intros _. split.
    + intros hid c. by apply todayLogsOf_spec.
    + intros hid. rewrite streaksOf_lookup. by rewrite lookup_empty.
Qed.
End EffectFacts.

(* ===================================================================== *)
(** ** From a write to what the dashboard shows next *)
(* ===================================================================== *)

Module RoundTrips.
Import JsNumber DateFns Schema Supabase Js Frame Invariants Views StatsCards.
Import SupabaseFacts HandlerFacts TransportUp HabitTracker HabitListFacts.
Import StatsCardsFacts ToggleFacts EditFacts ConstraintFacts.

(** Rows of a table with a key are told apart by the key. *)
Lemma NoDup_map_inj {A B} (f : A -> B) (l : list A) x y :
  NoDup (map f l) -> x ∈ l -> y ∈ l -> f x = f y -> x = y.
Proof.
  induction l as [|a l IH]; intros Hnd Hx Hy Hf; [by apply elem_of_nil in Hx|].
  simpl in Hnd. apply NoDup_cons in Hnd as [Ha Hnd].
  apply elem_of_cons in Hx as [->|Hx], Hy as [->|Hy]; [done| | |by apply IH].
  - exfalso. apply Ha. rewrite Hf. apply list_elem_of_fmap. eauto.
  - exfalso. apply Ha. rewrite <- Hf. apply list_elem_of_fmap. eauto.
Qed.

(** When one keyed row turns from not counted to counted and the others
    stay, the count goes up by one. *)
Lemma filter_length_flip {A} (key : A -> string) (P Q : A -> bool) k (l : list A) :
  NoDup (map key l) ->
  (forall x, x ∈ l -> key x <> k -> P x = Q x) ->
  (exists x, x ∈ l /\ key x = k /\ P x = false /\ Q x = true) ->
  length (List.filter Q l) = S (length (List.filter P l)).
Proof.
  induction l as [|a l IH]; intros Hnd Hsame (x & Hx & Hk & HP & HQ);
    [by apply elem_of_nil in Hx|].
  simpl in Hnd. apply NoDup_cons in Hnd as [Ha Hnd]. simpl.
  destruct (decide (key a = k)) as [Ea|Ea].
  - (* the head is the row: the tail is unchanged *)
    assert (a = x).
    { apply (NoDup_map_inj key (a :: l)); [by apply NoDup_cons|by left|done|congruence]. }
    subst a. rewrite HP, HQ. simpl. f_equal.
    assert (Htail : forall y, y ∈ l -> P y = Q y).
    { intros y Hy. apply Hsame; [by right|]. intros Ey. apply Ha.
      rewrite Hk, <- Ey. apply list_elem_of_fmap. eauto. }
    clear -Htail. induction l as [|b l IH]; [done|]. simpl.
    rewrite (Htail b) by (by left). destruct (Q b); simpl; rewrite IH; try done.
    all: intros y Hy; apply Htail; by right.
  - rewrite <- (Hsame a) by (by left || done).
    apply elem_of_cons in Hx as [->|Hx]; [done|].
    assert (Htail : length (List.filter Q l) = S (length (List.filter P l))).
    { apply (IH Hnd); [|by exists x]. intros y Hy. apply Hsame. by right. }
    destruct (P a); simpl; by rewrite Htail.
Qed.

Lemma filter_map_length {A B} (f : A -> B) (P : B -> bool) (l : list A) :
  length (List.filter P (map f l)) = length (List.filter (fun x => P (f x)) l).
Proof. induction l as [|a l IH]; [done|]. simpl. destruct (P (f a)); simpl; by rewrite IH. Qed.

(** X17.  Ticking a habit and "Completed today".  The tick stores a log dated
    [today] of the render the click came from; the card is computed later,
    from the list the tick refetches, at a clock [c] of its own.  When [c]
    is on that same local date, the card is exactly one more than computed
    from the list the store showed before; when midnight has passed in
    between, the tick leaves the card as it was.  The habit is one of the
    user's active habits, and had no log for the date of the render. *)
Lemma tick_raises_completed_today env habitId (w : World App) uid row (c : Clock) :
  transport_up (backend w) -> session (backend w) = Some uid ->
  isCompleted (ui w) habitId = false ->
  (forall l, l ∈ db_habit_logs (backend w) -> log_id l <> uuid env) ->
  (forall l, l ∈ db_habit_logs (backend w) ->
     ~ (log_habit_id l = habitId /\ log_user_id l = uid /\ log_date l = today env)) ->
  has_profile (backend w) uid = true ->
  NoDup (map habit_id (db_habits (backend w))) ->
  row ∈ db_habits (backend w) -> habit_id row = habitId ->
  habit_user_id row = uid -> habit_is_archived row = false ->
  let w' := exec (HabitList_toggleHabit env habitId) w in
  let before := completedToday (calculateStats c (activeHabits (backend w) uid)) in
  let after := completedToday (calculateStats c (habits (page (ui w')))) in
  (format_today c = today env -> after = S before)
  /\ (format_today c <> today env -> after = before).
Proof.
  intros Hup Hs Hc Hfresh Hnew Hp Hnd Hrow Hid Hown Harch. cbv zeta. unfold exec.
  rewrite (toggleHabit_tick env habitId w uid) by (done || eauto). cbn [snd].
  unfold afterRefresh, with_page, with_hlist. cbn [ui page habits].
  rewrite !completedToday_eq. unfold activeHabits.
  cbn [db_habits set_habit_logs].
  set (b := backend w) in *.
  set (newlog := mkHabitLog (uuid env) habitId uid (today env) true None
                            (now_ms (clock env))).
  set (b' := set_habit_logs (db_habit_logs b ++ [newlog]) b).
  assert (Huid : forall o, is_uid b' o = is_uid b o) by done.
  assert (Hme : is_uid b uid = true) by (unfold is_uid; by rewrite Hs, String.eqb_refl).
  rewrite !filter_map_length.
  set (rows := merge_sort newer_habit
                 (List.filter (fun h => is_uid b (habit_user_id h)
                                        && String.eqb (habit_user_id h) uid
                                        && negb (habit_is_archived h)) (db_habits b))).
  change (merge_sort newer_habit
            (List.filter (fun h => is_uid b' (habit_user_id h)
                                   && String.eqb (habit_user_id h) uid
                                   && negb (habit_is_archived h)) (db_habits b)))
    with rows.
  assert (Hin : forall x, x ∈ rows <-> x ∈ db_habits b /\ habit_user_id x = uid
                                       /\ habit_is_archived x = false).
  { intros x. unfold rows.
    rewrite merge_sort_Permutation, list_elem_of_In, filter_In, <- list_elem_of_In.
    rewrite !andb_true_iff, String.eqb_eq, negb_true_iff. split; [tauto|].
    intros (H1 & H2 & H3). rewrite H2, Hme. tauto. }
  split; intros Hday.
  - (* the card is computed on the date the log carries *)
    rewrite Hday. apply (filter_length_flip habit_id _ _ habitId).
    + assert (Hperm : map habit_id rows
                      ≡ₚ map habit_id
                           (List.filter (fun h => is_uid b (habit_user_id h)
                                                  && String.eqb (habit_user_id h) uid
                                                  && negb (habit_is_archived h))
                                        (db_habits b)))
        by apply Permutation_map, merge_sort_Permutation.
      rewrite Hperm. by apply NoDup_map_filter.
    + intros x Hx Hne. unfold completedOn, nested_logs. cbn [habit_logs habit_row].
      unfold b'. cbn [db_habit_logs set_habit_logs].
      rewrite List.filter_app. cbn [List.filter log_habit_id newlog].
      destruct (String.eqb_spec habitId (habit_id x)) as [E|_]; [by rewrite E in Hne|].
      cbn [andb]. by rewrite app_nil_r.
    + exists row. split; [by apply Hin|]. split; [done|]. split.
      * unfold completedOn, nested_logs. cbn [habit_logs habit_row].
        apply not_true_is_false. rewrite existsb_exists. intros (l & Hl & Hd).
        apply filter_In in Hl as [Hl Hk].
        rewrite !andb_true_iff, !String.eqb_eq in Hk, Hd.
        apply (Hnew l); [by apply list_elem_of_In|].
        destruct Hk as [Hk Hu]. unfold is_uid in Hu. fold b in Hs. rewrite Hs in Hu.
        apply String.eqb_eq in Hu. split; [congruence|]. split; [done|tauto].
      * unfold completedOn, nested_logs. cbn [habit_logs habit_row].
        unfold b'. cbn [db_habit_logs set_habit_logs].
        rewrite List.filter_app, existsb_app. apply orb_true_iff. right.
        cbn [List.filter log_habit_id log_user_id newlog]. rewrite Hid, String.eqb_refl.
        rewrite Huid, Hme. cbn [andb existsb log_date log_completed newlog].
        by rewrite String.eqb_refl.
  - (* the log carries another date than the one the card asks for *)
    f_equal. apply List.filter_ext. intros x.
    unfold completedOn, nested_logs. cbn [habit_logs habit_row].
    unfold b'. cbn [db_habit_logs set_habit_logs].
    rewrite List.filter_app, existsb_app.
    cbn [List.filter log_habit_id log_user_id newlog].
    change (is_uid (set_habit_logs (db_habit_logs b ++ [newlog]) b)) with (is_uid b).
    destruct (String.eqb habitId (habit_id x) && is_uid b uid);
      cbn [existsb log_date log_completed newlog]; [|by rewrite orb_false_r].
    destruct (String.eqb_spec (today env) (format_today c)) as [E|_];
      [by rewrite E in Hday|].
    cbn [andb orb]. by rewrite orb_false_r.
Qed.

Lemma description_round_trip d :
  d <> Some "" -> description_or_null (default "" d) = d.
Proof.
  intros Hd. destruct d as [s|]; [|done]. unfold description_or_null. simpl.
  destruct (String.eqb_spec s ""); [by subst|done].
Qed.

(** X22.  The edit dialog opened on a habit and saved at once, nothing typed.
    The row is written back with the colour and icon of its category and
    with an empty description turned into null; no other row changes.  So
    the save is without effect on the table exactly for a habit that
    carries its category's colour and icon and whose description is not the
    empty string. *)
Lemma edit_save_untouched (h : HabitRow) (w : World App) uid cat :
  transport_up (backend w) -> session (backend w) = Some uid ->
  NoDup (map habit_id (db_habits (backend w))) ->
  h ∈ db_habits (backend w) -> habit_user_id h = uid ->
  frequency_ok (habit_frequency h) = true ->
  formData (editDlg (ui w)) = editForm h ->
  List.find (fun c => String.eqb (cat_name c) (habit_category h))
            (categories (editDlg (ui w))) = Some cat ->
  let w' := exec (EditHabitDialog_handleSubmit (habit_id h)) w in
  let h' := mkHabitRow (habit_id h) (habit_user_id h) (habit_name h)
              (description_or_null (default "" (habit_description h)))
              (habit_category h) (cat_color cat) (cat_icon cat) (habit_frequency h)
              (habit_target_count h) (habit_is_archived h) (habit_created_at h)
              (habit_updated_at h) in
  db_habits (backend w')
  = map (fun r => if String.eqb (habit_id r) (habit_id h) then h' else r)
        (db_habits (backend w))
  /\ (habit_description h <> Some "" -> cat_color cat = habit_color h ->
      cat_icon cat = habit_icon h -> db_habits (backend w') = db_habits (backend w)).
Proof.
  intros Hup Hs Hnd Hin Hown Hf Hform Hcat. cbv zeta.
  destruct (editHabit_up (habit_id h) w uid cat Hup Hs) as (w' & Hrun & Hrows & _).
  { by rewrite Hform. }
  { by rewrite Hform. }
  unfold exec. rewrite Hrun. cbn [snd]. rewrite Hrows, Hform. cbn [form_name
    form_description form_category form_frequency form_target_count editForm].
  assert (Hmap : forall r, r ∈ db_habits (backend w) ->
            (if is_uid (backend w) (habit_user_id r) && String.eqb (habit_id r) (habit_id h)
             then edited (habit_name h)
                    (description_or_null (default "" (habit_description h)))
                    (habit_category h) (cat_color cat) (cat_icon cat)
                    (habit_frequency h) (habit_target_count h) r
             else r)
            = (if String.eqb (habit_id r) (habit_id h)
               then mkHabitRow (habit_id h) (habit_user_id h) (habit_name h)
                      (description_or_null (default "" (habit_description h)))
                      (habit_category h) (cat_color cat) (cat_icon cat)
                      (habit_frequency h) (habit_target_count h) (habit_is_archived h)
                      (habit_created_at h) (habit_updated_at h)
               else r)).
  { intros r Hr. destruct (String.eqb_spec (habit_id r) (habit_id h)) as [E|E].
    - assert (r = h) by exact (NoDup_map_inj habit_id _ r h Hnd Hr Hin E).
      subst r. unfold is_uid, edited. by rewrite Hs, Hown, String.eqb_refl.
    - by rewrite andb_false_r. }
  assert (Hfirst : map (fun r => if is_uid (backend w) (habit_user_id r)
                                    && String.eqb (habit_id r) (habit_id h)
                                 then edited (habit_name h)
                                        (description_or_null
                                           (default "" (habit_description h)))
                                        (habit_category h) (cat_color cat) (cat_icon cat)
                                        (habit_frequency h) (habit_target_count h) r
                                 else r) (db_habits (backend w))
                   = map (fun r => if String.eqb (habit_id r) (habit_id h)
                                   then mkHabitRow (habit_id h) (habit_user_id h)
                                          (habit_name h)
                                          (description_or_null
                                             (default "" (habit_description h)))
                                          (habit_category h) (cat_color cat) (cat_icon cat)
                                          (habit_frequency h) (habit_target_count h)
                                          (habit_is_archived h) (habit_created_at h)
                                          (habit_updated_at h)
                                   else r) (db_habits (backend w))).
  { apply map_ext_in. intros r Hr. apply Hmap. by apply list_elem_of_In. }
  rewrite Hfirst. split; [done|].
  intros Hd Hc Hi. rewrite description_round_trip, Hc, Hi by done.
  rewrite <- (map_id (db_habits (backend w))) at 2.
  apply map_ext_in. intros r Hr.
  destruct (String.eqb_spec (habit_id r) (habit_id h)) as [E|E]; [|done].
  assert (r = h)
    by exact (NoDup_map_inj habit_id _ r h Hnd (proj2 (list_elem_of_In _ _) Hr) Hin E).
  subst r. by destruct h.
Qed.
End RoundTrips.

(* ===================================================================== *)
(** ** The hypotheses hold on the example data *)
(* ===================================================================== *)

Module Instances.
Import JsNumber DateFns Schema Supabase Js Frame Invariants Views StatsCards.
Import Examples.

Section StatsCards.
Import StatsCardsMore.

Lemma weeklyCompletion_extremes_witness :
  weeklyCompletion (calculateStats noonUTC [mkHabit walk []]) = ofZ 0.
Proof.
  apply (proj1 (weeklyCompletion_extremes noonUTC [mkHabit walk []]
                  ltac:(vm_compute; reflexivity))).
  vm_compute. reflexivity.
Defined.
End StatsCards.

Section HabitList.
Import HabitTracker HabitListFacts ToggleFacts TodayLogsFacts DialogFacts DashboardShows.


Lemma fetchHabits_select_failure_witness :
  fetchHabits (mkWorld storeLosingSecond initialApp [])
  = (Normal tt,
     mkWorld store (with_page (fun p => mkPage (habits p) false (showCreateDialog p))
                              initialApp)
       [AuthGetUser; DataRequest "habits" "select";
        ToastError "Failed to load habits"; ConsoleError "Error fetching habits:"]).
Proof.
  apply (fetchHabits_select_failure (mkWorld storeLosingSecond initialApp []) alice
           (set_faults [Some "Failed to fetch"] store) "Failed to fetch" store).
  - reflexivity.
  - reflexivity.
Defined.


(** Ticked and unticked at noon, the store has its six logs again; ticked
    on the list rendered at 23:59 and unticked on the one rendered at
    00:01, it has seven. *)
Lemma toggleHabit_tick_untick_witness :
  db_habit_logs
    (backend (exec (HabitList_toggleHabit (mkEnv noonUTC "l10" noonUTC) "h-read")
                (exec (HabitList_toggleHabit (mkEnv noonUTC "l9" noonUTC) "h-read")
                   (mkWorld store initialApp []))))
  = db_habit_logs store
  /\ db_habit_logs
       (backend (exec (HabitList_toggleHabit
                         (mkEnv minutePastMidnight "l10" minutePastMidnight) "h-read")
                   (exec (HabitList_toggleHabit
                            (mkEnv minutePastMidnight "l9" minuteToMidnight) "h-read")
                      (mkWorld store initialApp []))))
     = db_habit_logs store
         ++ [mkHabitLog "l9" "h-read" alice "2025-01-15" true None
                        (now_ms minutePastMidnight)].
Proof.
  split.
  - refine (proj1 (proj2 (toggleHabit_tick_untick (mkEnv noonUTC "l9" noonUTC)
                     (mkEnv noonUTC "l10" noonUTC)
                     "h-read" (mkWorld store initialApp []) alice _ _ _ _ _ _ _)) _).
    + reflexivity.
    + reflexivity.
    + reflexivity.
    + every_row.
    + every_row.
    + exists read. split; [|reflexivity]. cbn. apply elem_of_cons. right.
      apply elem_of_cons. by left.
    + reflexivity.
    + reflexivity.
  - refine (proj2 (proj2 (toggleHabit_tick_untick
                     (mkEnv minutePastMidnight "l9" minuteToMidnight)
                     (mkEnv minutePastMidnight "l10" minutePastMidnight)
                     "h-read" (mkWorld store initialApp []) alice _ _ _ _ _ _ _)) _ _).
    + reflexivity.
    + reflexivity.
    + reflexivity.
    + every_row.
    + every_row.
    + exists read. split; [|reflexivity]. cbn. apply elem_of_cons. right.
      apply elem_of_cons. by left.
    + reflexivity.
    + vm_compute. discriminate.
    + every_row.
Defined.

Lemma store_unique_logs : unique_logs store.
Proof.
unfold unique_logs. decided.
Qed.

Lemma fetchTodayLogs_shows_witness :
  todayLogs (hlist (ui (exec (fetchTodayLogs (mkEnv noonUTC "l9" noonUTC))
                          (mkWorld store initialApp [])))) !! "h-run" = Some true.
Proof.
  apply (fetchTodayLogs_shows (mkEnv noonUTC "l9" noonUTC) (mkWorld store initialApp []) alice
           "h-run" true eq_refl eq_refl store_unique_logs).
  exists (logOn "l1" "h-run" "2025-01-15"). split; [|by repeat split].
  cbn. apply elem_of_cons. by left.
Defined.

Lemma calculateStreaks_shows_witness :
  Sorted later_log (completedLogs store "h-run").
Proof.
  apply (calculateStreaks_shows (mkEnv noonUTC "l9" noonUTC) (mkWorld store loadedApp []) alice
           "h-run" eq_refl eq_refl).
Defined.

Lemma HabitList_effect_shows_witness :
  backend (exec (HabitList_effect (mkEnv noonUTC "l9" noonUTC)) (mkWorld store loadedApp []))
  = store.
Proof.
  pose proof (EffectFacts.HabitList_effect_shows (mkEnv noonUTC "l9" noonUTC)
                (mkWorld store loadedApp []) alice eq_refl eq_refl store_unique_logs)
    as H.
  cbv zeta in H. exact (proj1 H).
Defined.

Lemma handleDelete_up_witness :
  exists w',
    DeleteHabitDialog_handleDelete "h-run" (mkWorld store initialApp []) = (Normal tt, w')
    /\ db_habit_logs (backend w') = db_habit_logs store
    /\ forall h, h ∈ habits (page (ui w')) -> habit_id (habit_row h) <> "h-run".
Proof.
  destruct (handleDelete_up "h-run" (mkWorld store initialApp []) alice eq_refl eq_refl)
    as (w' & H1 & _ & H3 & _ & _ & H6 & _).
  exists w'. auto.
Defined.
End HabitList.

Section FormDialogs.
Import HabitTracker HabitListFacts FormDialogFacts EditFacts.

Lemma createHabit_without_profile_witness :
  CreateHabitDialog_handleSubmit (mkEnv noonUTC "h9" noonUTC)
    (mkWorld storeWithoutProfile filledApp [])
  = (Normal tt,
     mkWorld storeWithoutProfile (with_createDlg (setSubmitting false) filledApp)
       [AuthGetUser; DataRequest "habits" "insert";
        ToastError (fkey_violation "habits" "user_id")]).
Proof.
  apply (createHabit_without_profile (mkEnv noonUTC "h9" noonUTC)
           (mkWorld storeWithoutProfile filledApp []) alice
           (mkCategory "c1" "Fitness" "R" "#f97316")).
  - reflexivity.
  - reflexivity.
  - reflexivity.
  - reflexivity.
  - every_row.
  - reflexivity.
Defined.

Lemma createHabit_refused_witness :
  CreateHabitDialog_handleSubmit (mkEnv noonUTC "h9" noonUTC)
    (mkWorld storeWithoutProfile filledApp [])
  = (Normal tt,
     mkWorld storeWithoutProfile (with_createDlg (setSubmitting false) filledApp)
       [AuthGetUser; DataRequest "habits" "insert";
        ToastError (fkey_violation "habits" "user_id")])
  /\ same_data storeWithoutProfile storeWithoutProfile.
Proof.
  apply (createHabit_refused (mkEnv noonUTC "h9" noonUTC)
           (mkWorld storeWithoutProfile filledApp []) alice storeWithoutProfile
           (mkCategory "c1" "Fitness" "R" "#f97316")).
  - reflexivity.
  - reflexivity.
  - vm_compute. reflexivity.
Defined.

Lemma createHabit_up_witness :
  exists w',
    CreateHabitDialog_handleSubmit (mkEnv noonUTC "h9" noonUTC) (mkWorld store filledApp [])
    = (Normal tt, w')
    /\ db_habits (backend w')
       = db_habits store
           ++ [createdRow (mkEnv noonUTC "h9" noonUTC) alice swimForm
                          (mkCategory "c1" "Fitness" "R" "#f97316")]
    /\ showCreateDialog (page (ui w')) = false
    /\ formData (createDlg (ui w')) = emptyForm.
Proof.
  destruct (createHabit_up (mkEnv noonUTC "h9" noonUTC) (mkWorld store filledApp []) alice
              (mkCategory "c1" "Fitness" "R" "#f97316"))
    as (w' & H1 & H2 & _ & _ & _ & H6 & H7 & _).
  - reflexivity.
  - reflexivity.
  - reflexivity.
  - reflexivity.
  - every_row.
  - reflexivity.
  - exists w'. auto.
Defined.

(** "Run" saved from the edit dialog as a weekly "Swim": the first row of
    the table carries the form, the other two and the logs are as
    before. *)
Lemma editHabit_rewrites_witness :
  let w := mkWorld store filledApp [] in
  let w' := exec (EditHabitDialog_handleSubmit "h-run") w in
  Forall2 (fun h h' =>
             habit_id h' = habit_id h /\ habit_user_id h' = habit_user_id h
             /\ habit_is_archived h' = habit_is_archived h
             /\ habit_created_at h' = habit_created_at h
             /\ habit_updated_at h' = habit_updated_at h
             /\ ((habit_id h = "h-run" /\ habit_user_id h = alice
                  /\ habit_name h' = "Swim"
                  /\ habit_description h' = None
                  /\ habit_category h' = "Fitness"
                  /\ habit_color h' = "#f97316"
                  /\ habit_icon h' = "R"
                  /\ habit_frequency h' = "weekly"
                  /\ habit_target_count h' = 2%Z)
                 \/ (~ (habit_id h = "h-run" /\ habit_user_id h = alice) /\ h' = h)))
          (db_habits (backend w)) (db_habits (backend w'))
  /\ db_habit_logs (backend w') = db_habit_logs (backend w)
  /\ session (backend w') = session (backend w)
  /\ habits (page (ui w')) = activeHabits (backend w') alice.
Proof.
  apply (editHabit_rewrites "h-run" (mkWorld store filledApp []) alice
           (mkCategory "c1" "Fitness" "R" "#f97316")).
  - reflexivity.
  - reflexivity.
  - reflexivity.
  - reflexivity.
Defined.

End FormDialogs.

Section FinanceDashboard.
Import Finance FinanceMore AddTransactionFacts.


Lemma loadTransactions_select_failure_witness :
  loadTransactions
    (mkWorld (set_faults [None; Some "Failed to fetch"] financeStore)
             (mkDashboard threeTransactions false true emptyForm) [])
  = (Normal tt,
     mkWorld financeStore (mkDashboard [] false false emptyForm)
       [AuthGetUser; DataRequest "transactions" "select"]).
Proof.
  apply (loadTransactions_select_failure
           (mkWorld (set_faults [None; Some "Failed to fetch"] financeStore)
                    (mkDashboard threeTransactions false true emptyForm) [])
           alice (set_faults [Some "Failed to fetch"] financeStore) "Failed to fetch"
           financeStore).
  - reflexivity.
  - reflexivity.
Defined.

Lemma handleDelete_removes_row_witness :
  transactions (ui (exec (handleDelete "t2") (mkWorld financeStore initialDashboard [])))
  = transactionsOf
      (backend (exec (handleDelete "t2") (mkWorld financeStore initialDashboard [])))
      alice.
Proof.
  pose proof (handleDelete_removes_row "t2" (mkWorld financeStore initialDashboard [])
                alice eq_refl eq_refl) as H.
  cbv zeta in H. exact (proj1 (proj2 H)).
Defined.

Lemma handleAddTransaction_quiet_witness :
  handleAddTransaction parseFloat to_decimal (mkEnv noonUTC "t9")
    (mkWorld (set_session None financeStore) coffeeDashboard [])
  = (Normal tt, mkWorld (set_session None financeStore) coffeeDashboard [AuthGetUser]).
Proof.
  apply (proj1 (handleAddTransaction_quiet parseFloat to_decimal (mkEnv noonUTC "t9")
                  (mkWorld (set_session None financeStore) coffeeDashboard []))).
  reflexivity.
Defined.

Lemma handleAddTransaction_up_witness :
  formData (ui (exec (handleAddTransaction parseFloat to_decimal (mkEnv noonUTC "t9"))
                  (mkWorld financeStore coffeeDashboard []))) = emptyForm
  /\ showAddForm (ui (exec (handleAddTransaction parseFloat to_decimal
                              (mkEnv noonUTC "t9"))
                        (mkWorld financeStore coffeeDashboard []))) = false.
Proof.
  pose proof (handleAddTransaction_up parseFloat to_decimal (mkEnv noonUTC "t9")
                (mkWorld financeStore coffeeDashboard []) alice
                (div (ofZ 25) (ofZ 2)) eq_refl eq_refl) as H.
  cbv zeta in H. destruct H as (_ & _ & _ & H4 & H5 & _).
  - vm_compute. reflexivity.
  - every_row.
  - reflexivity.
  - auto.
Defined.
End FinanceDashboard.

Section Streaks.
Import HabitTracker StreakCalendar.
Local Open Scope Z_scope.

Lemma streakOver_utc_days_witness :
  exists k, streakOver noonUTC runLogs 0 = k /\ (k <= length runLogs)%nat.
Proof.
  destruct (streakOver_utc_days noonUTC runLogs) as (k & H1 & H2 & _).
  - vm_compute. reflexivity.
  - vm_compute. reflexivity.
  - eauto.
Defined.

Lemma today_log_streak_witness :
  streakOver halfPastMidnightCET [logOn "l1" "h-run" "2025-01-15"] 0 = 0%nat.
Proof.
  refine (proj2 (today_log_streak halfPastMidnightCET (logOn "l1" "h-run" "2025-01-15")
                   [] _ _ _) _).
  - vm_compute. reflexivity.
  - split; vm_compute; discriminate.
  - vm_compute. reflexivity.
  - vm_compute. discriminate.
Defined.

Lemma per_habit_streak_consecutive_days_witness :
  streakOver noonUTC (runLogs ++ []) 0 = 3%nat.
Proof.
  apply (per_habit_streak_consecutive_days noonUTC runLogs []).
  - vm_compute. reflexivity.
  - vm_compute. reflexivity.
  - vm_compute. discriminate.
  - vm_compute. discriminate.
  - intros [|[|[|j]]] log [= <-]; vm_compute; reflexivity.
  - intros log [=].
Defined.
End Streaks.

Section WriteThenShow.
Import HabitTracker RoundTrips.

(** Ticked at noon, the card computed at noon goes from 2 to 3; ticked at
    00:01 on the list rendered at 23:59, the card computed at 00:01
    stays at 0. *)
Lemma tick_raises_completed_today_witness :
  completedToday
    (calculateStats noonUTC
       (habits (page (ui (exec (HabitList_toggleHabit (mkEnv noonUTC "l9" noonUTC)
                                                      "h-read")
                               (mkWorld store initialApp []))))))
  = S (completedToday (calculateStats noonUTC (activeHabits store alice)))
  /\ completedToday
       (calculateStats minutePastMidnight
          (habits (page (ui (exec (HabitList_toggleHabit
                                     (mkEnv minutePastMidnight "l9" minuteToMidnight)
                                     "h-read")
                                  (mkWorld store initialApp []))))))
     = completedToday (calculateStats minutePastMidnight (activeHabits store alice)).
Proof.
  split.
  - refine (proj1 (tick_raises_completed_today (mkEnv noonUTC "l9" noonUTC) "h-read"
                     (mkWorld store initialApp []) alice read noonUTC
                     _ _ _ _ _ _ _ _ _ _ _) _).
    + reflexivity.
    + reflexivity.
    + reflexivity.
    + every_row.
    + every_row.
    + reflexivity.
    + decided.
    + apply elem_of_cons. right. apply elem_of_cons. by left.
    + reflexivity.
    + reflexivity.
    + reflexivity.
    + reflexivity.
  - refine (proj2 (tick_raises_completed_today
                     (mkEnv minutePastMidnight "l9" minuteToMidnight) "h-read"
                     (mkWorld store initialApp []) alice read minutePastMidnight
                     _ _ _ _ _ _ _ _ _ _ _) _).
    + reflexivity.
    + reflexivity.
    + reflexivity.
    + every_row.
    + every_row.
    + reflexivity.
    + decided.
    + apply elem_of_cons. right. apply elem_of_cons. by left.
    + reflexivity.
    + reflexivity.
    + reflexivity.
    + vm_compute. discriminate.
Defined.

Lemma edit_save_untouched_witness :
  db_habits (backend (exec (EditHabitDialog_handleSubmit "h-run")
                        (mkWorld store editRunApp [])))
  = db_habits store.
Proof.
  pose proof (edit_save_untouched run (mkWorld store editRunApp []) alice
                (mkCategory "c1" "Fitness" "R" "#f97316")) as H.
  cbv zeta in H. refine (proj2 (H _ _ _ _ _ _ _ _) _ _ _).
  - reflexivity.
  - reflexivity.
  - decided.
  - apply elem_of_cons. by left.
  - reflexivity.
  - reflexivity.
  - reflexivity.
  - reflexivity.
  - discriminate.
  - reflexivity.
  - reflexivity.
Defined.
End WriteThenShow.

Section Constraints.
Import ConstraintFacts HabitTracker.

Lemma unique_logs_kept_witness :
  unique_logs (snd (delete_log "h-run" alice "2025-01-15" store)).
Proof.
  apply (proj2 (unique_logs_kept store store_unique_logs)).
Defined.
End Constraints.
End Instances.
